(** * img-trans-client: the upload pipeline of [ImageUploader] and [ApiService]

    A shallow embedding of [src/components/ImageUploader.tsx] and
    [src/services/api.ts].  JavaScript values are an inductive type, numbers
    are IEEE 754 binary64 values ([spec_float] at precision 53), promises are
    completions, React state is a record, and every handler is a function in
    a small state-and-log monad whose log records the effects the handler
    has on the browser (requests, console output, clipboard, timers) and the
    states React commits while the handler is suspended.  Strings are byte
    strings; every string the program inspects is ASCII. *)

From Stdlib Require Import ZArith NArith List Sorted String Ascii Bool Lia.
From Stdlib Require Import DecimalString.
From Stdlib Require Import Floats.SpecFloat.
Import ListNotations.

Set Warnings "-register-all".

Local Open Scope list_scope.
Local Open Scope string_scope.
Local Open Scope Z_scope.

(* ================================================================== *)
(** ** JavaScript numbers *)

(** A JavaScript number is a binary64 floating-point value. *)
Definition number : Type := spec_float.

Definition prec : Z := 53.
Definition emax : Z := 1024.

(** The number nearest to an integer (ties to even): the conversion applied
    to an integer literal and to a WebIDL [unsigned long long] or
    [unsigned short] attribute when a script reads it. *)
Definition Number_of_Z (n : Z) : number := binary_normalize prec emax n 0 false.
Definition Number_of_N (n : N) : number := Number_of_Z (Z.of_N n).

(** The operators [/] and [*] on numbers. *)
Definition Number_div (x y : number) : number := SFdiv prec emax x y.
Definition Number_mul (x y : number) : number := SFmul prec emax x y.

(** [Math.round]: the integral number closest to [x], the one nearer to
    +infinity on a tie; NaN, the infinities, the zeros and numbers that are
    already integral are returned unchanged, and a negative argument that
    rounds to zero gives -0. *)
Definition Math_round (x : number) : number :=
  match x with
  | S754_finite s m e =>
      if 0 <=? e then x
      else
        let k := - e in
        let v := if s then Z.neg m else Z.pos m in
        binary_normalize prec emax ((v + 2 ^ (k - 1)) / 2 ^ k) 0 s
  | _ => x
  end.

(* ================================================================== *)
(** ** Rounding to nearest, as the number operations perform it *)

(** Rounding a positive rational [X / Y] to the nearest integer, ties to the
    even one. *)
Definition RNE (X Y : Z) : Z :=
  match 2 * (X mod Y) ?= Y with
  | Lt => X / Y
  | Eq => if Z.even (X / Y) then X / Y else X / Y + 1
  | Gt => X / Y + 1
  end.

(** A shift record holds the integer part of [X / Y] and where the rest
    lies with respect to one half. *)
Definition located (X Y : Z) (mrs : shr_record) : Prop :=
  0 < Y /\ 0 <= shr_m mrs
  /\ shr_m mrs * Y <= X < (shr_m mrs + 1) * Y
  /\ (shr_r mrs = true <-> Y <= 2 * (X - shr_m mrs * Y))
  /\ (shr_s mrs = true <->
      X <> shr_m mrs * Y /\ 2 * (X - shr_m mrs * Y) <> Y).

(** [m1 * 2 ^ e1 <= m2 * 2 ^ e2], for exponents of any sign. *)
Definition scaled_le (m1 e1 m2 e2 : Z) : Prop :=
  m1 * 2 ^ (e1 - Z.min e1 e2) <= m2 * 2 ^ (e2 - Z.min e1 e2).

(** The positive number with mantissa [m] in [2^52, 2^53] and exponent
    [e], in its canonical form. *)
Definition normal (m e : Z) : spec_float :=
  if m =? 2 ^ 53 then S754_finite false (Z.to_pos (2 ^ 52)) (e + 1)
  else S754_finite false (Z.to_pos m) e.

(** A positive normal number with an exponent between [lo] and [hi]. *)
Definition normal_in (lo hi : Z) (x : spec_float) : Prop :=
  match x with
  | S754_finite false m e => 2 ^ 52 <= Zpos m < 2 ^ 53 /\ lo <= e <= hi
  | _ => False
  end.

(** The order of two positive finite numbers. *)
Definition positive_le (x y : spec_float) : Prop :=
  match x, y with
  | S754_finite false m1 e1, S754_finite false m2 e2 =>
      scaled_le (Zpos m1) e1 (Zpos m2) e2
  | _, _ => False
  end.

(** [floor (m * 2 ^ e + 1/2)] for a negative exponent. *)
Definition half_up (m e : Z) : Z := (m + 2 ^ (- e - 1)) / 2 ^ (- e).

(** The value of an integral number (of a zero: 0). *)
Definition Number_to_Z (x : number) : Z :=
  match x with
  | S754_finite s m e =>
      let v := if s then Z.neg m else Z.pos m in
      if 0 <=? e then v * 2 ^ e else v / 2 ^ (- e)
  | _ => 0
  end.

(** The percentage computed from the two byte counts. *)
Definition percentage (sent total : Z) : number :=
  Math_round
    (Number_mul (Number_div (Number_of_Z sent) (Number_of_Z total))
       (Number_of_Z 100)).

(* ================================================================== *)
(** ** JavaScript values, exceptions and completions *)

(** The values the pipeline handles: [undefined] and what [JSON.parse] can
    build.  An object is the list of its own properties in creation order,
    with pairwise distinct keys. *)
Inductive value : Type :=
| VUndefined
| VNull
| VBool (b : bool)
| VNumber (x : number)
| VString (s : string)
| VArray (items : list value)
| VObject (fields : list (string * value)).

(** What a [throw] or a rejected promise carries: an [Error] object (an
    instance of [Error] or of one of its subclasses, with its [name] and
    [message]) or any other value. *)
Inductive exn : Type :=
| ErrorObject (name message : string)
| Thrown (v : value).

Definition new_Error (message : string) : exn := ErrorObject "Error" message.

(** The outcome of evaluating code that may throw, and of awaiting a
    promise that settles. *)
Inductive completion (A : Type) : Type :=
| Normal (a : A)
| Throw (e : exn).
Arguments Normal {A} a.
Arguments Throw {A} e.

Definition bind_completion {A B} (c : completion A) (k : A -> completion B)
  : completion B :=
  match c with
  | Normal a => k a
  | Throw e => Throw e
  end.

(** What the script relies on from the engine and is specified outside of
    this repository: what [JSON.parse] makes of a text (the parsed value,
    or the message of the [SyntaxError] it throws), the printing of a
    number as a string, and the messages of the [TypeError]s raised when a
    property of [null] or [undefined] is read and when an object cannot be
    converted to a primitive value. *)
Record Host : Type := {
  JSON_parse_text : string -> value + string;
  Number_toString : number -> string;
  TypeError_message : value -> string -> string;
  ToPrimitive_message : value -> string
}.

(** [JSON.parse(text)]: it returns the value of the text or throws a
    [SyntaxError] (ECMA-262, 25.5.1). *)
Definition JSON_parse (host : Host) (text : string) : completion value :=
  match JSON_parse_text host text with
  | inl v => Normal v
  | inr message => Throw (ErrorObject "SyntaxError" message)
  end.

(** [ToBoolean]: [undefined], [null], [false], the zeros, NaN and the empty
    string are falsy. *)
Definition ToBoolean (v : value) : bool :=
  match v with
  | VUndefined | VNull => false
  | VBool b => b
  | VNumber (S754_zero _) | VNumber S754_nan => false
  | VNumber _ => true
  | VString s => negb (String.eqb s "")
  | VArray _ | VObject _ => true
  end.

(** [a || b] *)
Definition logical_or (a b : value) : value := if ToBoolean a then a else b.

Fixpoint join (sep : string) (parts : list string) : string :=
  match parts with
  | [] => ""
  | [p] => p
  | p :: rest => p ++ sep ++ join sep rest
  end.

(** [String.prototype.startsWith] and [String.prototype.indexOf], from
    position 0. *)
Definition startsWith (s search : string) : bool := String.prefix search s.
Definition indexOf (s search : string) : Z :=
  match String.index 0 search s with
  | Some i => Z.of_nat i
  | None => -1
  end.

(** The decimal digits of an integer attribute, as a template literal
    prints it. *)
Definition decimal (n : N) : string := NilZero.string_of_uint (N.to_uint n).

(** Own-property lookup in an object. *)
Fixpoint lookup (key : string) (fields : list (string * value)) : value :=
  match fields with
  | [] => VUndefined
  | (k, v) :: rest => if String.eqb k key then v else lookup key rest
  end.

(** Does the object have an own property [key]? *)
Definition has_own (key : string) (fields : list (string * value)) : bool :=
  existsb (fun field => String.eqb (fst field) key) fields.

(** The property [key] of a value other than [null] and [undefined], for a
    name that no built-in prototype defines: the own property of an object,
    [undefined] for a missing one and for any other value. *)
Definition property (v : value) (key : string) : value :=
  match v with
  | VObject fields => lookup key fields
  | _ => VUndefined
  end.

(** [v?.key] *)
Definition optional_Get (v : value) (key : string) : value :=
  match v with
  | VUndefined | VNull => VUndefined
  | _ => property v key
  end.

(* ================================================================== *)
(** ** A reference host *)

(** An instance of [Host] to run the model on concrete exchanges: a parser
    for the JSON grammar (ECMA-404) that builds values the way [JSON.parse]
    does, the printing of numbers of [Number::toString], and one wording for
    the error messages, which differ between engines.  Strings hold text in
    UTF-8, so a [\u] escape is stored as the UTF-8 bytes of its code point
    (two escapes forming a surrogate pair as one code point). *)
Module RefHost.

Definition code (c : ascii) : N := N_of_ascii c.

Definition is_whitespace (c : ascii) : bool :=
  match code c with
  | 9 | 10 | 13 | 32 => true
  | _ => false
  end%N.

Fixpoint skip_whitespace (s : string) : string :=
  match s with
  | String c rest => if is_whitespace c then skip_whitespace rest else s
  | "" => ""
  end.

Definition digit_of (c : ascii) : option Z :=
  let n := code c in
  if ((48 <=? n) && (n <=? 57))%N then Some (Z.of_N (n - 48)) else None.

Definition hex_of (c : ascii) : option N :=
  let n := code c in
  if ((48 <=? n) && (n <=? 57))%N then Some (n - 48)%N
  else if ((65 <=? n) && (n <=? 70))%N then Some (n - 55)%N
  else if ((97 <=? n) && (n <=? 102))%N then Some (n - 87)%N
  else None.

(** The longest run of decimal digits at the head of [s]: its value after
    [acc], how many digits were read, and the rest. *)
Fixpoint digits (acc count : Z) (s : string) : Z * Z * string :=
  match s with
  | String c rest =>
      match digit_of c with
      | Some d => digits (10 * acc + d) (count + 1) rest
      | None => (acc, count, s)
      end
  | "" => (acc, count, s)
  end.

(** The number nearest to [m * 10 ^ e10], negated when [neg]. *)
Definition number_of_decimal (neg : bool) (m e10 : Z) : number :=
  match m with
  | Z0 => S754_zero neg
  | Zpos p =>
      if 0 <=? e10 then
        binary_round prec emax neg (Z.to_pos (Zpos p * 10 ^ e10)) 0
      else
        let '(q, e, l) :=
          SFdiv_core_binary prec emax (Zpos p) 0 (10 ^ (- e10)) 0 in
        binary_round_aux prec emax neg q e l
  | Zneg _ => S754_nan
  end.

(** A number token: [-? int frac? exp?]. *)
Definition parse_number (s : string) : option (number * string) :=
  let (neg, s1) :=
    match s with
    | String "-" rest => (true, rest)
    | _ => (false, s)
    end in
  let int_part :=
    match s1 with
    | String "0" rest => Some (0, rest)
    | _ => let '(n, count, rest) := digits 0 0 s1 in
           if 0 <? count then Some (n, rest) else None
    end in
  match int_part with
  | None => None
  | Some (n, s2) =>
      let frac_part :=
        match s2 with
        | String "." rest =>
            let '(m, count, rest') := digits n 0 rest in
            if 0 <? count then Some (m, count, rest') else None
        | _ => Some (n, 0, s2)
        end in
      match frac_part with
      | None => None
      | Some (m, frac_digits, s3) =>
          let exp_digits (negative : bool) (rest : string) :=
            let '(e, count, rest') := digits 0 0 rest in
            if 0 <? count
            then Some ((if negative then - e else e), rest')
            else None in
          let exp_part :=
            match s3 with
            | String "e" (String "+" rest) | String "E" (String "+" rest) =>
                exp_digits false rest
            | String "e" (String "-" rest) | String "E" (String "-" rest) =>
                exp_digits true rest
            | String "e" rest | String "E" rest => exp_digits false rest
            | _ => Some (0, s3)
            end in
          match exp_part with
          | None => None
          | Some (e, s4) =>
              Some (number_of_decimal neg m (e - frac_digits), s4)
          end
      end
  end.

(** The UTF-8 bytes of a code point (of a lone surrogate too). *)
Definition byte (n : N) : string := String (ascii_of_N n) "".
Definition utf8 (cp : N) : string :=
  (if cp <? 128 then byte cp
   else if cp <? 2048 then
     byte (192 + cp / 64) ++ byte (128 + cp mod 64)
   else if cp <? 65536 then
     byte (224 + cp / 4096) ++ byte (128 + (cp / 64) mod 64)
     ++ byte (128 + cp mod 64)
   else
     byte (240 + cp / 262144) ++ byte (128 + (cp / 4096) mod 64)
     ++ byte (128 + (cp / 64) mod 64) ++ byte (128 + cp mod 64))%N.

(** A piece of a string token: a character of the text or the code unit
    of a [\u] escape. *)
Inductive piece : Type :=
| raw (c : ascii)
| escaped (unit16 : N).

(** The pieces of a string token after its opening quote, up to the
    closing quote. *)
Fixpoint parse_pieces (s : string) : option (list piece * string) :=
  let continue (p : piece) (rest : string) :=
    match parse_pieces rest with
    | Some (ps, rest') => Some (p :: ps, rest')
    | None => None
    end in
  match s with
  | "" => None
  | String "034" rest => Some ([], rest)
  | String "\" (String "u" (String a (String b (String c (String d rest))))) =>
      match hex_of a, hex_of b, hex_of c, hex_of d with
      | Some x3, Some x2, Some x1, Some x0 =>
          match parse_pieces rest with
          | Some (ps, rest') =>
              Some (escaped (((x3 * 16 + x2) * 16 + x1) * 16 + x0)%N :: ps,
                    rest')
          | None => None
          end
      | _, _, _, _ => None
      end
  | String "\" (String e rest) =>
      let simple (n : N) :=
        match parse_pieces rest with
        | Some (ps, rest') => Some (raw (ascii_of_N n) :: ps, rest')
        | None => None
        end in
      match code e with
      | 34 => simple 34 | 92 => simple 92 | 47 => simple 47
      | 98 => simple 8 | 102 => simple 12 | 110 => simple 10
      | 114 => simple 13 | 116 => simple 9
      | _ => None
      end%N
  | String c rest =>
      if (code c <? 32)%N then None
      else
        match parse_pieces rest with
        | Some (ps, rest') => Some (raw c :: ps, rest')
        | None => None
        end
  end.

(** The text of a string token from its pieces. *)
Fixpoint text_of (ps : list piece) : string :=
  match ps with
  | [] => ""
  | raw c :: rest => String c (text_of rest)
  | escaped hi :: rest =>
      match rest with
      | escaped lo :: rest' =>
          if ((55296 <=? hi) && (hi <? 56320)
              && (56320 <=? lo) && (lo <? 57344))%N
          then utf8 (65536 + (hi - 55296) * 1024 + (lo - 56320))%N
               ++ text_of rest'
          else utf8 hi ++ text_of rest
      | _ => utf8 hi ++ text_of rest
      end
  end.

Definition parse_string (s : string) : option (string * string) :=
  match parse_pieces s with
  | Some (ps, rest) => Some (text_of ps, rest)
  | None => None
  end.

(** Defining a property: a repeated key keeps its place and takes the
    new value. *)
Fixpoint define (key : string) (v : value) (fields : list (string * value))
  : list (string * value) :=
  match fields with
  | [] => [(key, v)]
  | (k, old) :: rest =>
      if String.eqb k key then (k, v) :: rest
      else (k, old) :: define key v rest
  end.

(** A value, the elements of an array after its bracket, and the members
    of an object after its brace (onto the properties read so far).  The
    fuel bounds the nesting. *)
Fixpoint parse_value (fuel : nat) (s : string) : option (value * string) :=
  match fuel with
  | O => None
  | S fuel' =>
      match skip_whitespace s with
      | String "n" (String "u" (String "l" (String "l" rest))) =>
          Some (VNull, rest)
      | String "t" (String "r" (String "u" (String "e" rest))) =>
          Some (VBool true, rest)
      | String "f" (String "a" (String "l" (String "s" (String "e" rest)))) =>
          Some (VBool false, rest)
      | String "034" rest =>
          match parse_string rest with
          | Some (text, rest') => Some (VString text, rest')
          | None => None
          end
      | String "[" rest =>
          match skip_whitespace rest with
          | String "]" rest' => Some (VArray [], rest')
          | _ =>
              match parse_elements fuel' rest with
              | Some (items, rest') => Some (VArray items, rest')
              | None => None
              end
          end
      | String "{" rest =>
          match skip_whitespace rest with
          | String "}" rest' => Some (VObject [], rest')
          | _ =>
              match parse_members fuel' [] rest with
              | Some (fields, rest') => Some (VObject fields, rest')
              | None => None
              end
          end
      | s' =>
          match parse_number s' with
          | Some (x, rest) => Some (VNumber x, rest)
          | None => None
          end
      end
  end

with parse_elements (fuel : nat) (s : string)
  : option (list value * string) :=
  match fuel with
  | O => None
  | S fuel' =>
      match parse_value fuel' s with
      | Some (v, rest) =>
          match skip_whitespace rest with
          | String "," rest' =>
              match parse_elements fuel' rest' with
              | Some (items, rest'') => Some (v :: items, rest'')
              | None => None
              end
          | String "]" rest' => Some ([v], rest')
          | _ => None
          end
      | None => None
      end
  end

with parse_members (fuel : nat) (fields : list (string * value)) (s : string)
  : option (list (string * value) * string) :=
  match fuel with
  | O => None
  | S fuel' =>
      match skip_whitespace s with
      | String "034" rest =>
          match parse_string rest with
          | Some (key, rest1) =>
              match skip_whitespace rest1 with
              | String ":" rest2 =>
                  match parse_value fuel' rest2 with
                  | Some (v, rest3) =>
                      let fields' := define key v fields in
                      match skip_whitespace rest3 with
                      | String "," rest4 => parse_members fuel' fields' rest4
                      | String "}" rest4 => Some (fields', rest4)
                      | _ => None
                      end
                  | None => None
                  end
              | _ => None
              end
          | None => None
          end
      | _ => None
      end
  end.

(** [JSON.parse(text)]: one value with whitespace around it, a
    [SyntaxError] otherwise.  A value nested [d] deep takes at least [d]
    characters, so the fuel is never what makes a text fail. *)
Definition parse (text : string) : value + string :=
  match parse_value (2 * String.length text + 2) text with
  | Some (v, rest) =>
      match skip_whitespace rest with
      | "" => inl v
      | _ => inr "Unexpected token in JSON"
      end
  | None => inr "Unexpected token in JSON"
  end.

(** [Number::toString]: the shortest decimal that reads back as the same
    number, chosen nearest to it, laid out with or without an exponent. *)

(** Is [num / den < 10 ^ n]? *)
Definition below_power_of_ten (num den n : Z) : bool :=
  if 0 <=? n then num <? 10 ^ n * den else num * 10 ^ (- n) <? den.

(** The least [n] from [n] on with [num / den < 10 ^ n]. *)
Fixpoint magnitude (fuel : nat) (num den n : Z) : Z :=
  match fuel with
  | O => n
  | S fuel' =>
      if below_power_of_ten num den n then n
      else magnitude fuel' num den (n + 1)
  end.

Definition digits_of (s : Z) : string :=
  NilZero.string_of_uint (N.to_uint (Z.to_N s)).

Fixpoint zeros (count : nat) : string :=
  match count with
  | O => ""
  | S count' => String "0" (zeros count')
  end.

(** The layout of the digits [ds] of [s], for the value [s * 10 ^ (n - k)]
    with [k] the number of digits. *)
Definition layout (ds : string) (n : Z) : string :=
  let k := Z.of_nat (String.length ds) in
  if (-5 <=? n) && (n <=? 21) then
    if k <=? n then ds ++ zeros (Z.to_nat (n - k))
    else if 0 <? n then
      substring 0 (Z.to_nat n) ds ++ "."
      ++ substring (Z.to_nat n) (Z.to_nat (k - n)) ds
    else "0." ++ zeros (Z.to_nat (- n)) ++ ds
  else
    let e := n - 1 in
    let exponent :=
      (if 0 <=? e then "+" else "-") ++ digits_of (Z.abs e) in
    if k =? 1 then ds ++ "e" ++ exponent
    else substring 0 1 ds ++ "." ++ substring 1 (Z.to_nat (k - 1)) ds
         ++ "e" ++ exponent.

(** The decimals of [k] digits next to [num / den], when they read back
    as [x]: the nearer one first. *)
Definition shortest_at (x : number) (num den n k : Z)
  : option (string * Z) :=
  (* [num / den = (low + rest / scale) * 10 ^ (n - k)] *)
  let shift := n - k in
  let top := if 0 <=? shift then num else num * 10 ^ (- shift) in
  let scale := if 0 <=? shift then den * 10 ^ shift else den in
  let low := top / scale in
  let rest := top mod scale in
  let reads_back (s : Z) := SFeqb (number_of_decimal false s shift) x in
  let as_digits (s : Z) :=
    if s =? 10 ^ k then ("1", n + 1) else (digits_of s, n) in
  let low_first :=
    match 2 * rest ?= scale with
    | Lt => true
    | Eq => Z.even low
    | Gt => false
    end in
  let first := if low_first then low else low + 1 in
  let second := if low_first then low + 1 else low in
  if reads_back first then Some (as_digits first)
  else if reads_back second then Some (as_digits second)
  else None.

Fixpoint shortest (fuel : nat) (x : number) (num den n k : Z)
  : string * Z :=
  match fuel with
  | O => (digits_of num, n)
  | S fuel' =>
      match shortest_at x num den n k with
      | Some found => found
      | None => shortest fuel' x num den n (k + 1)
      end
  end.

Definition print_number (x : number) : string :=
  match x with
  | S754_nan => "NaN"
  | S754_infinity false => "Infinity"
  | S754_infinity true => "-Infinity"
  | S754_zero _ => "0"
  | S754_finite s m e =>
      let num := if 0 <=? e then Zpos m * 2 ^ e else Zpos m in
      let den := if 0 <=? e then 1 else 2 ^ (- e) in
      let n := magnitude 640 num den (-324) in
      let '(ds, n') :=
        shortest 17 (S754_finite false m e) num den n 1 in
      (if s then "-" else "") ++ layout ds n'
  end.

Definition type_error_message (v : value) (key : string) : string :=
  "Cannot read properties of "
  ++ match v with VNull => "null" | _ => "undefined" end
  ++ " (reading '" ++ key ++ "')".

Definition host : Host := {|
  JSON_parse_text := parse;
  Number_toString := print_number;
  TypeError_message := type_error_message;
  ToPrimitive_message := fun _ => "Cannot convert object to primitive value"
|}.

End RefHost.

Section Engine.

Variable host : Host.

(** [ToString], as applied by [new Error(message)] and to a [DOMString]
    argument.  An array prints its elements in order, separated by commas,
    with [null] and [undefined] elements printed as nothing.  An object
    built by [JSON.parse] inherits [toString] and [valueOf] from
    [Object.prototype] unless it has own properties of these names, which
    are never functions: with an own [toString] neither method yields a
    primitive value and the conversion throws a [TypeError]; without one
    it gives "[object Object]". *)
Fixpoint ToString (v : value) : completion string :=
  match v with
  | VUndefined => Normal "undefined"
  | VNull => Normal "null"
  | VBool true => Normal "true"
  | VBool false => Normal "false"
  | VNumber x => Normal (Number_toString host x)
  | VString s => Normal s
  | VArray items =>
      bind_completion
        ((fix elements (items : list value) : completion (list string) :=
            match items with
            | [] => Normal []
            | item :: rest =>
                bind_completion
                  match item with
                  | VUndefined | VNull => Normal ""
                  | _ => ToString item
                  end
                  (fun part =>
                     bind_completion (elements rest)
                       (fun parts => Normal (part :: parts)))
            end) items)
        (fun parts => Normal (join "," parts))
  | VObject fields =>
      if has_own "toString" fields
      then Throw (ErrorObject "TypeError" (ToPrimitive_message host v))
      else Normal "[object Object]"
  end.

(** [Error.prototype.toString] for an error with the given [name] and
    [message]: what [string + error] appends. *)
Definition Error_toString (name message : string) : string :=
  if String.eqb message "" then name
  else if String.eqb name "" then message
  else name ++ ": " ++ message.

(** [v.key] for the property names this program reads ([detail],
    [languages], [data], [translated_text]), none of which is defined on a
    built-in prototype: reading from [null] or [undefined] throws a
    [TypeError], an object gives its own property, and any other value
    gives [undefined]. *)
Definition Get (v : value) (key : string) : completion value :=
  match v with
  | VUndefined | VNull =>
      Throw (ErrorObject "TypeError" (TypeError_message host v key))
  | _ => Normal (property v key)
  end.

(* ================================================================== *)
(** ** Browser objects, component state and effects *)

Record File : Type := { file_name : string; file_type : string }.

(** The state hooks of [ImageUploader].  [error] is [string | null];
    [result] holds whatever the submission resolved with, [null] when
    there is none; [languages] holds whatever the catalog fetch returned. *)
Record State : Type := {
  dragActive : bool;
  uploading : bool;
  uploadProgress : number;
  selectedLanguage : string;
  languages : value;
  result : value;
  error : option string;
  copied : bool
}.

Definition initial_state : State := {|
  dragActive := false;
  uploading := false;
  uploadProgress := Number_of_Z 0;
  selectedLanguage := "en";
  languages := VObject [];
  result := VNull;
  error := None;
  copied := false
|}.

Inductive form_entry : Type :=
| form_file (f : File)
| form_string (s : string).

(** The function handed to [setTimeout]. *)
Inductive callback : Type :=
| cb_setCopied (b : bool).

(** What a handler does to the world outside of the component state, and
    [commit s]: the state React has on screen while the handler is
    suspended at an [await] or between two events. *)
Inductive effect : Type :=
| fetch (method url : string)
| xhr_send (method url : string) (timeout : N)
           (form : list (string * form_entry))
| console_error (label : string) (e : exn)
| clipboard_writeText (text : string)
| setTimeout (cb : callback) (ms : N)
| preventDefault
| stopPropagation
| commit (s : State).

Definition is_request (e : effect) : bool :=
  match e with
  | fetch _ _ | xhr_send _ _ _ _ => true
  | _ => false
  end.

(** The network requests among the effects of a handler. *)
Definition requests (log : list effect) : list effect := filter is_request log.

(** The states that were on screen while the handler ran. *)
Fixpoint commits (log : list effect) : list State :=
  match log with
  | [] => []
  | commit s :: rest => s :: commits rest
  | _ :: rest => commits rest
  end.

Record World : Type := { ui : State; log : list effect }.

(** Handlers run in a state monad over the component state and the log. *)
Definition UI (A : Type) : Type := World -> A * World.

Definition ret {A} (a : A) : UI A := fun w => (a, w).
Definition bind {A B} (m : UI A) (k : A -> UI B) : UI B :=
  fun w => let (a, w') := m w in k a w'.

Notation "x <- m ;; k" := (bind m (fun x => k))
  (at level 61, m at next level, right associativity).
Notation "m ;; k" := (bind m (fun _ => k))
  (at level 61, right associativity).

Definition get_state : UI State := fun w => (ui w, w).
Definition modify (f : State -> State) : UI unit :=
  fun w => (tt, {| ui := f (ui w); log := log w |}).
Definition emit (e : effect) : UI unit :=
  fun w => (tt, {| ui := ui w; log := (log w ++ [e])%list |}).
Definition suspend : UI unit :=
  fun w => (tt, {| ui := ui w; log := (log w ++ [commit (ui w)])%list |}).

Fixpoint for_each {A} (xs : list A) (body : A -> UI unit) : UI unit :=
  match xs with
  | [] => ret tt
  | x :: rest => body x ;; for_each rest body
  end.

(** Running a handler from a state, with an empty log. *)
Definition run {A} (m : UI A) (s : State) : A * World :=
  m {| ui := s; log := [] |}.
Definition state_after {A} (m : UI A) (s : State) : State := ui (snd (run m s)).
Definition effects_of {A} (m : UI A) (s : State) : list effect :=
  log (snd (run m s)).

(** The state with one hook replaced. *)
Definition with_dragActive (v : bool) (s : State) : State :=
  {| dragActive := v; uploading := uploading s;
     uploadProgress := uploadProgress s; selectedLanguage := selectedLanguage s;
     languages := languages s; result := result s;
     error := error s; copied := copied s |}.
Definition with_uploading (v : bool) (s : State) : State :=
  {| dragActive := dragActive s; uploading := v;
     uploadProgress := uploadProgress s; selectedLanguage := selectedLanguage s;
     languages := languages s; result := result s;
     error := error s; copied := copied s |}.
Definition with_uploadProgress (v : number) (s : State) : State :=
  {| dragActive := dragActive s; uploading := uploading s;
     uploadProgress := v; selectedLanguage := selectedLanguage s;
     languages := languages s; result := result s;
     error := error s; copied := copied s |}.
Definition with_selectedLanguage (v : string) (s : State) : State :=
  {| dragActive := dragActive s; uploading := uploading s;
     uploadProgress := uploadProgress s; selectedLanguage := v;
     languages := languages s; result := result s;
     error := error s; copied := copied s |}.
Definition with_languages (v : value) (s : State) : State :=
  {| dragActive := dragActive s; uploading := uploading s;
     uploadProgress := uploadProgress s; selectedLanguage := selectedLanguage s;
     languages := v; result := result s;
     error := error s; copied := copied s |}.
Definition with_result (v : value) (s : State) : State :=
  {| dragActive := dragActive s; uploading := uploading s;
     uploadProgress := uploadProgress s; selectedLanguage := selectedLanguage s;
     languages := languages s; result := v;
     error := error s; copied := copied s |}.
Definition with_error (v : option string) (s : State) : State :=
  {| dragActive := dragActive s; uploading := uploading s;
     uploadProgress := uploadProgress s; selectedLanguage := selectedLanguage s;
     languages := languages s; result := result s;
     error := v; copied := copied s |}.
Definition with_copied (v : bool) (s : State) : State :=
  {| dragActive := dragActive s; uploading := uploading s;
     uploadProgress := uploadProgress s; selectedLanguage := selectedLanguage s;
     languages := languages s; result := result s;
     error := error s; copied := v |}.

(** The setters returned by [useState]. *)
Definition setDragActive (v : bool) : UI unit := modify (with_dragActive v).
Definition setUploading (v : bool) : UI unit := modify (with_uploading v).
Definition setUploadProgress (v : number) : UI unit :=
  modify (with_uploadProgress v).
Definition setSelectedLanguage (v : string) : UI unit :=
  modify (with_selectedLanguage v).
Definition setLanguages (v : value) : UI unit := modify (with_languages v).
Definition setResult (v : value) : UI unit := modify (with_result v).
Definition setError (v : option string) : UI unit := modify (with_error v).
Definition setCopied (v : bool) : UI unit := modify (with_copied v).

(** What the JSX shows: [{error && ...}] shows a non-empty error string,
    [{result && ...}] shows the result card for a truthy result. *)
Definition error_shown (s : State) : option string :=
  match error s with
  | Some msg => if String.eqb msg "" then None else Some msg
  | None => None
  end.
Definition result_shown (s : State) : bool := ToBoolean (result s).

(* ================================================================== *)
(** ** [ApiService] *)

Definition API_BASE_URL : string := "http://127.0.0.1:8000".

(** What the network does with a [fetch]: the promise rejects, or a
    response with a status and a body text arrives. *)
Inductive fetch_exchange : Type :=
| fetch_rejected (e : exn)
| fetch_response (status : N) (body : string).

(** [response.ok] *)
Definition response_ok (status : N) : bool :=
  ((200 <=? status) && (status <=? 299))%N.

(** [ApiService.getLanguages] *)
Definition getLanguages (x : fetch_exchange) : UI (completion value) :=
  emit (fetch "GET" (API_BASE_URL ++ "/languages")) ;;
  suspend ;;
  let attempt :=
    match x with
    | fetch_rejected e => Throw e
    | fetch_response status body =>
        if negb (response_ok status)
        then Throw (new_Error "Failed to fetch languages")
        else bind_completion (JSON_parse host body)
               (fun data => Get data "languages")
    end in
  match attempt with
  | Normal langs => ret (Normal langs)
  | Throw error =>
      emit (console_error "Error fetching languages:" error) ;;
      ret (Throw error)
  end.

(** A [progress] event of [xhr.upload]; [loaded] and [total] are
    [unsigned long long] attributes. *)
Record ProgressEvent : Type := {
  lengthComputable : bool;
  loaded : N;
  total : N
}.

(** How the request ends: [load] with the response, [error] or [timeout]. *)
Inductive xhr_completion : Type :=
| xhr_load (status : N) (statusText responseText : string)
| xhr_error
| xhr_timeout.

(** What the network does with one [XMLHttpRequest]: the upload progress
    events in order, then the event that ends the request. *)
Record xhr_exchange : Type := {
  upload_progress : list ProgressEvent;
  completion_event : xhr_completion
}.

(** The percentage computed by the [progress] listener. *)
Definition progress_percentage (event : ProgressEvent) : number :=
  Math_round
    (Number_mul
       (Number_div (Number_of_N (loaded event)) (Number_of_N (total event)))
       (Number_of_Z 100)).

(** The [progress] listener of [xhr.upload]. *)
Definition on_progress (onProgress : option (number -> UI unit))
    (event : ProgressEvent) : UI unit :=
  match onProgress with
  | Some call =>
      if lengthComputable event then call (progress_percentage event)
      else ret tt
  | None => ret tt
  end.

(** The [load] listener: how the promise settles for a response. *)
Definition on_load (status : N) (statusText responseText : string)
  : completion value :=
  if ((200 <=? status) && (status <? 300))%N then
    match JSON_parse_text host responseText with
    | inl response => Normal response
    | inr message =>
        (* [error] is the [SyntaxError] thrown by [JSON.parse] *)
        Throw (new_Error ("Invalid response format: "
                          ++ Error_toString "SyntaxError" message))
    end
  else
    match
      bind_completion (JSON_parse host responseText) (fun errorResponse =>
      bind_completion (Get errorResponse "detail") (fun detail =>
      bind_completion
        (ToString (logical_or detail (VString "Upload failed")))
        (fun message => Normal (new_Error message))))
    with
    | Normal rejection => Throw rejection
    | Throw _ =>
        Throw (new_Error ("HTTP " ++ decimal status ++ ": " ++ statusText))
    end.

(** How the promise of [translateImage] settles. *)
Definition settle (c : xhr_completion) : completion value :=
  match c with
  | xhr_load status statusText responseText =>
      on_load status statusText responseText
  | xhr_error => Throw (new_Error "Network error occurred")
  | xhr_timeout => Throw (new_Error "Request timeout")
  end.

(** [ApiService.translateImage] *)
Definition translateImage (file : File) (targetLanguage : string)
    (onProgress : option (number -> UI unit)) (x : xhr_exchange)
  : UI (completion value) :=
  emit (xhr_send "POST" (API_BASE_URL ++ "/translate-image") 60000
          [("file", form_file file);
           ("target_language", form_string targetLanguage)]) ;;
  suspend ;;
  for_each (upload_progress x)
    (fun event => on_progress onProgress event ;; suspend) ;;
  ret (settle (completion_event x)).

(* ================================================================== *)
(** ** [ImageUploader] *)

(** The catalog substituted when the fetch fails. *)
Definition fallback_languages : value :=
  VObject [("en", VString "English"); ("es", VString "Spanish");
           ("fr", VString "French"); ("de", VString "German");
           ("zh", VString "Chinese"); ("ja", VString "Japanese")].

(** [loadLanguages], run once on mount. *)
Definition loadLanguages (x : fetch_exchange) : UI unit :=
  r <- getLanguages x ;;
  match r with
  | Normal langs => setLanguages langs
  | Throw err =>
      emit (console_error "Failed to load languages:" err) ;;
      setLanguages fallback_languages
  end.

(** [handleFileUpload]; [x] is what the network does with the request if
    one is sent. *)
Definition handleFileUpload (file : File) (x : xhr_exchange) : UI unit :=
  if negb (startsWith (file_type file) "image/") then
    setError (Some "Please select an image file")
  else
    setUploading true ;;
    setUploadProgress (Number_of_Z 0) ;;
    setError None ;;
    setResult VNull ;;
    s <- get_state ;;
    r <- translateImage file (selectedLanguage s)
           (Some (fun progress => setUploadProgress progress)) x ;;
    match r with
    | Normal response => setResult response
    | Throw err =>
        setError (Some match err with
                       | ErrorObject _ message => message
                       | Thrown _ => "Upload failed"
                       end)
    end ;;
    setUploading false ;;
    setUploadProgress (Number_of_Z 0).

(** An entry of [clipboardData.items]: its declared type and what
    [getAsFile()] returns ([null] for an entry that is not a file). *)
Record DataTransferItem : Type := {
  item_type : string;
  getAsFile : option File
}.

(** A paste event; [clipboardData] may be [null]. *)
Record ClipboardEvent : Type := {
  clipboardData_items : option (list DataTransferItem)
}.

(** The loop of [handlePaste] over the items. *)
Fixpoint handlePaste_items (items : list DataTransferItem) (x : xhr_exchange)
  : UI unit :=
  match items with
  | [] => ret tt
  | item :: rest =>
      if negb (indexOf (item_type item) "image" =? -1) then
        emit preventDefault ;;
        match getAsFile item with
        | Some file => handleFileUpload file x
        | None => ret tt
        end
      else handlePaste_items rest x
  end.

(** [handlePaste], the document's paste listener. *)
Definition handlePaste (e : ClipboardEvent) (x : xhr_exchange) : UI unit :=
  match clipboardData_items e with
  | None => ret tt
  | Some items => handlePaste_items items x
  end.

Record DragEvent : Type := {
  drag_type : string;
  dataTransfer_files : list File
}.

(** [handleDrag], for dragenter, dragover and dragleave. *)
Definition handleDrag (e : DragEvent) : UI unit :=
  emit preventDefault ;;
  emit stopPropagation ;;
  if String.eqb (drag_type e) "dragenter" || String.eqb (drag_type e) "dragover"
  then setDragActive true
  else if String.eqb (drag_type e) "dragleave" then setDragActive false
  else ret tt.

(** [handleDrop] *)
Definition handleDrop (e : DragEvent) (x : xhr_exchange) : UI unit :=
  emit preventDefault ;;
  emit stopPropagation ;;
  setDragActive false ;;
  match dataTransfer_files e with
  | file :: _ =>
      if startsWith (file_type file) "image/" then handleFileUpload file x
      else setError (Some "Please upload an image file")
  | [] => ret tt
  end.

(** The change event of the file input; [files] may be [null]. *)
Record ChangeEvent : Type := { target_files : option (list File) }.

(** [handleFileInputChange] *)
Definition handleFileInputChange (e : ChangeEvent) (x : xhr_exchange)
  : UI unit :=
  match target_files e with
  | Some (file :: _) => handleFileUpload file x
  | _ => ret tt
  end.

(** [handleCopyText]; [written] is how the promise of
    [navigator.clipboard.writeText] settles once the browser has taken the
    text.  The argument is converted to a [DOMString] first; when that
    conversion throws, nothing is written and the promise that
    [writeText] returns is rejected with the exception. *)
Definition handleCopyText (written : completion unit) : UI unit :=
  s <- get_state ;;
  if ToBoolean
       (optional_Get (optional_Get (result s) "data") "translated_text")
  then
    match
      bind_completion (Get (result s) "data") (fun data =>
      Get data "translated_text")
    with
    | Normal text =>
        match ToString text with
        | Normal data =>
            emit (clipboard_writeText data) ;;
            suspend ;;
            match written with
            | Normal _ =>
                setCopied true ;;
                emit (setTimeout (cb_setCopied false) 2000)
            | Throw err => emit (console_error "Failed to copy text:" err)
            end
        | Throw err =>
            suspend ;;
            emit (console_error "Failed to copy text:" err)
        end
    | Throw err => emit (console_error "Failed to copy text:" err)
    end
  else ret tt.

(** Running a timer callback when its timer fires. *)
Definition run_callback (cb : callback) : UI unit :=
  match cb with
  | cb_setCopied b => setCopied b
  end.

(* ================================================================== *)
(** ** The course of one submission *)

(** The loop of progress listeners of one request, as [handleFileUpload]
    installs them. *)
Definition progress_loop (events : list ProgressEvent) : UI unit :=
  for_each events
    (fun event =>
       on_progress (Some (fun progress => setUploadProgress progress)) event ;;
       suspend).

(** The state after one progress event. *)
Definition after_progress (event : ProgressEvent) (s : State) : State :=
  if lengthComputable event
  then with_uploadProgress (progress_percentage event) s
  else s.

(** The state after all progress events, and the states committed on the
    way. *)
Fixpoint after_progress_loop (events : list ProgressEvent) (s : State)
  : State :=
  match events with
  | [] => s
  | event :: rest => after_progress_loop rest (after_progress event s)
  end.

Fixpoint progress_commits (events : list ProgressEvent) (s : State)
  : list effect :=
  match events with
  | [] => []
  | event :: rest =>
      commit (after_progress event s)
      :: progress_commits rest (after_progress event s)
  end.

(** The state in which [handleFileUpload] sends its request. *)
Definition submitting (s : State) : State :=
  with_result VNull
    (with_error None
       (with_uploadProgress (Number_of_Z 0) (with_uploading true s))).

(** The state a settled submission leaves, from the state it was
    suspended in. *)
Definition settled (outcome : completion value) (s : State) : State :=
  with_uploadProgress (Number_of_Z 0)
    (with_uploading false
       (match outcome with
        | Normal response => with_result response s
        | Throw (ErrorObject _ message) => with_error (Some message) s
        | Throw (Thrown _) => with_error (Some "Upload failed") s
        end)).

(** The request [handleFileUpload] sends for a file from a state. *)
Definition submission_request (file : File) (s : State) : effect :=
  xhr_send "POST" "http://127.0.0.1:8000/translate-image" 60000
    [("file", form_file file);
     ("target_language", form_string (selectedLanguage s))].

(** The declared type of a clipboard item mentions [image]. *)
Definition image_typed (item : DataTransferItem) : bool :=
  negb (indexOf (item_type item) "image" =? -1).

(** What [getLanguages] settles with, apart from its logging. *)
Definition catalog_response (x : fetch_exchange) : completion value :=
  match x with
  | fetch_rejected e => Throw e
  | fetch_response status body =>
      if response_ok status then
        match JSON_parse host body with
        | Normal data => Get data "languages"
        | Throw e => Throw e
        end
      else Throw (new_Error "Failed to fetch languages")
  end.

(* ================================================================== *)
(** ** The health check and the copy button *)

(** [ApiService.healthCheck]: the promise never rejects, so the result is
    a completion only to state that. *)
Definition healthCheck (x : fetch_exchange) : UI (completion bool) :=
  emit (fetch "POST" (API_BASE_URL ++ "/health")) ;;
  suspend ;;
  match x with
  | fetch_response status _ => ret (Normal (response_ok status))
  | fetch_rejected error =>
      emit (console_error "Health check failed:" error) ;;
      ret (Normal false)
  end.

(** The [disabled] attribute of the copy button,
    [!result.data?.translated_text]; the button is part of the result
    card, which is rendered for a truthy [result]. *)
Definition copy_button_disabled (s : State) : bool :=
  negb (ToBoolean (optional_Get (property (result s) "data")
                     "translated_text")).

(* ================================================================== *)
(** ** The percentage in exact arithmetic *)

(** Modelled from the spec: [round(bytesSent / bytesTotal * 100)] over the
    rationals, the integer nearest to the quotient, the upper one on a
    tie (as [Math.round] breaks ties); compared with
    [progress_percentage], which is what the listener computes. *)
Definition spec_percentage (bytesSent bytesTotal : Z) : Z :=
  (200 * bytesSent + bytesTotal) / (2 * bytesTotal).

(* ================================================================== *)
(** ** Concrete files, bodies and exchanges *)

Definition quoted (s : string) : string :=
  String "034" "" ++ s ++ String "034" "".

Definition photo : File :=
  {| file_name := "photo.jpg"; file_type := "image/jpeg" |}.
Definition notes : File :=
  {| file_name := "notes.txt"; file_type := "text/plain" |}.
(** An OpenDocument drawing: its media type contains "image" and does not
    start with "image/". *)
Definition drawing : File :=
  {| file_name := "drawing.odi";
     file_type := "application/vnd.oasis.opendocument.image" |}.

(** [{"detail":"OCR engine unavailable"}], [{"detail":""}] and a
    translation of "Hola". *)
Definition ocr_body : string :=
  "{" ++ quoted "detail" ++ ":" ++ quoted "OCR engine unavailable" ++ "}".
Definition empty_detail_body : string :=
  "{" ++ quoted "detail" ++ ":" ++ quoted "" ++ "}".
Definition hola_body : string :=
  "{" ++ quoted "success" ++ ":true,"
  ++ quoted "data" ++ ":{"
  ++ quoted "original_text" ++ ":" ++ quoted "Hola" ++ ","
  ++ quoted "translated_text" ++ ":" ++ quoted "Hello" ++ ","
  ++ quoted "source_language" ++ ":" ++ quoted "es" ++ "},"
  ++ quoted "target_language" ++ ":" ++ quoted "en" ++ ","
  ++ quoted "target_language_name" ++ ":" ++ quoted "English" ++ "}".

(** [{"detail":[{"msg":"field required"}]}], the shape of a FastAPI
    validation error, and [{"detail":404}]. *)
Definition validation_body : string :=
  "{" ++ quoted "detail" ++ ":[{" ++ quoted "msg" ++ ":"
  ++ quoted "field required" ++ "}]}".
Definition numeric_detail_body : string :=
  "{" ++ quoted "detail" ++ ":404}".

Definition halfway : list ProgressEvent :=
  [{| lengthComputable := true; loaded := 1024; total := 2048 |};
   {| lengthComputable := true; loaded := 2048; total := 2048 |}].

Definition translated : xhr_exchange :=
  {| upload_progress := halfway;
     completion_event := xhr_load 200 "OK" hola_body |}.
Definition ocr_down : xhr_exchange :=
  {| upload_progress := halfway;
     completion_event := xhr_load 500 "Internal Server Error" ocr_body |}.
Definition gateway_page : xhr_exchange :=
  {| upload_progress := halfway;
     completion_event := xhr_load 502 "Bad Gateway" "<html>Bad Gateway</html>" |}.
Definition truncated : xhr_exchange :=
  {| upload_progress := halfway;
     completion_event := xhr_load 200 "OK" "{" |}.
Definition null_body : xhr_exchange :=
  {| upload_progress := []; completion_event := xhr_load 200 "OK" "null" |}.
Definition number_body : xhr_exchange :=
  {| upload_progress := []; completion_event := xhr_load 200 "OK" "42" |}.
Definition empty_object_body : xhr_exchange :=
  {| upload_progress := []; completion_event := xhr_load 201 "Created" "{}" |}.
Definition unplugged : xhr_exchange :=
  {| upload_progress := []; completion_event := xhr_error |}.

(** [{"detail":[]}], a request that times out after two progress events,
    a progress event without a computable length, a catalog with two
    languages, and a clipboard item for the photo. *)
Definition empty_list_body : string :=
  "{" ++ quoted "detail" ++ ":[]}".
Definition unprocessable : xhr_exchange :=
  {| upload_progress := halfway;
     completion_event := xhr_load 422 "Unprocessable Entity" empty_list_body |}.
Definition false_body : xhr_exchange :=
  {| upload_progress := halfway;
     completion_event := xhr_load 200 "OK" "false" |}.
Definition timed_out : xhr_exchange :=
  {| upload_progress := halfway; completion_event := xhr_timeout |}.
Definition unknown_length : ProgressEvent :=
  {| lengthComputable := false; loaded := 512; total := 0 |}.
Definition catalog_body : string :=
  "{" ++ quoted "languages" ++ ":{"
  ++ quoted "en" ++ ":" ++ quoted "English" ++ ","
  ++ quoted "vi" ++ ":" ++ quoted "Vietnamese" ++ "}}".
(** [{"detail":{"toString":1}}], and a result whose translated text is
    such an object. *)
Definition own_toString_body : string :=
  "{" ++ quoted "detail" ++ ":{" ++ quoted "toString" ++ ":1}}".
Definition own_toString_detail : xhr_exchange :=
  {| upload_progress := halfway;
     completion_event :=
       xhr_load 500 "Internal Server Error" own_toString_body |}.
Definition own_toString_text : value :=
  VObject [("data",
            VObject [("translated_text",
                      VObject [("toString", VString "x")])])].

(** What a progress callback that logs its argument does. *)
Definition log_progress (progress : number) : effect :=
  console_error "progress" (Thrown (VNumber progress)).

(** 29 of 200 bytes sent, and the same upload scaled by 2^55 with one
    more byte sent. *)
Definition at_29_of_200 : xhr_exchange :=
  {| upload_progress :=
       [{| lengthComputable := true; loaded := 29; total := 200 |}];
     completion_event := xhr_load 200 "OK" hola_body |}.
Definition huge_upload : xhr_exchange :=
  {| upload_progress :=
       [{| lengthComputable := true;
           loaded := 29 * 2 ^ 55 + 1; total := 200 * 2 ^ 55 |}];
     completion_event := xhr_load 200 "OK" hola_body |}.
Definition photo_item : DataTransferItem :=
  {| item_type := "image/jpeg"; getAsFile := Some photo |}.
Definition text_item : DataTransferItem :=
  {| item_type := "text/plain"; getAsFile := None |}.

(* ================================================================== *)
(** ** Lemmas on the monad and on the course of a submission *)

Lemma progress_loop_run : forall events w,
  progress_loop events w
  = (tt, {| ui := after_progress_loop events (ui w);
            log := (log w ++ progress_commits events (ui w))%list |}).
Proof.
  induction events as [|event rest IH]; intros [s l]; simpl.
  - unfold progress_loop, ret; simpl. now rewrite app_nil_r.
  - unfold progress_loop in *. simpl.
    unfold bind at 1. unfold bind at 1.
    unfold on_progress, after_progress.
    destruct (lengthComputable event); simpl.
    + rewrite IH. simpl. now rewrite <- app_assoc.
    + rewrite IH. simpl. now rewrite <- app_assoc.
Qed.

Lemma translateImage_run : forall file targetLanguage x w,
  translateImage file targetLanguage
    (Some (fun progress => setUploadProgress progress)) x w
  = (settle (completion_event x),
     {| ui := after_progress_loop (upload_progress x) (ui w);
        log := (log w
                ++ xhr_send "POST" "http://127.0.0.1:8000/translate-image"
                     60000
                     [("file", form_file file);
                      ("target_language", form_string targetLanguage)]
                :: commit (ui w)
                :: progress_commits (upload_progress x) (ui w))%list |}).
Proof.
  intros file targetLanguage x [s l].
  unfold translateImage.
  change (for_each (upload_progress x) _)
    with (progress_loop (upload_progress x)).
  unfold bind at 1. unfold emit at 1.
  unfold bind at 1. unfold suspend at 1.
  unfold bind at 1. rewrite progress_loop_run. unfold ret. simpl.
  now rewrite <- !app_assoc.
Qed.

(** How the promise settles, whatever the callback does. *)
Lemma translateImage_settles : forall file targetLanguage onProgress x s,
  fst (run (translateImage file targetLanguage onProgress x) s)
  = settle (completion_event x).
Proof.
  intros file targetLanguage onProgress x s.
  unfold run, translateImage, bind, emit, suspend. cbn [ui log].
  destruct (for_each (upload_progress x) _ _) as [u w]. reflexivity.
Qed.

Lemma JSON_parse_cases : forall text,
  (exists v, JSON_parse_text host text = inl v
             /\ JSON_parse host text = Normal v)
  \/ (exists message,
         JSON_parse_text host text = inr message
         /\ JSON_parse host text = Throw (ErrorObject "SyntaxError" message)).
Proof.
  intros text. unfold JSON_parse.
  destruct (JSON_parse_text host text) as [v|message]; eauto.
Qed.

Lemma JSON_parse_Normal : forall text v,
  JSON_parse host text = Normal v -> JSON_parse_text host text = inl v.
Proof.
  intros text v. unfold JSON_parse.
  destruct (JSON_parse_text host text); [now intros [= ->] | discriminate].
Qed.

(** A submission that passes validation: its effects and its final
    state, whatever the network does. *)
Lemma handleFileUpload_valid : forall file x s,
  startsWith (file_type file) "image/" = true ->
  run (handleFileUpload file x) s
  = (tt,
     {| ui := settled (settle (completion_event x))
                (after_progress_loop (upload_progress x) (submitting s));
        log := submission_request file s
               :: commit (submitting s)
               :: progress_commits (upload_progress x) (submitting s) |}).
Proof.
  intros file x s Himage.
  unfold run, handleFileUpload. rewrite Himage. cbn [negb].
  repeat (unfold bind at 1; cbn [setUploading setUploadProgress setError
                                  setResult modify get_state ui log]).
  rewrite translateImage_run. cbn [ui log app].
  unfold settled, submission_request, submitting.
  destruct (settle (completion_event x)) as [response|[name message|v]];
    reflexivity.
Qed.

(** A submission that fails validation: no effect, and only the error
    message changes. *)
Lemma handleFileUpload_invalid : forall file x s,
  startsWith (file_type file) "image/" = false ->
  run (handleFileUpload file x) s
  = (tt, {| ui := with_error (Some "Please select an image file") s;
            log := [] |}).
Proof.
  intros file x s Hother.
  unfold run, handleFileUpload. rewrite Hother. reflexivity.
Qed.

Lemma after_progress_loop_fields : forall events s,
  let s' := after_progress_loop events s in
  dragActive s' = dragActive s /\ uploading s' = uploading s
  /\ selectedLanguage s' = selectedLanguage s /\ languages s' = languages s
  /\ result s' = result s /\ error s' = error s /\ copied s' = copied s.
Proof.
  induction events as [|event rest IH]; intros s; simpl.
  - repeat split.
  - specialize (IH (after_progress event s)). simpl in IH.
    unfold after_progress in IH at 2 4 6 8 10 12 14.
    destruct (lengthComputable event); exact IH.
Qed.


Lemma progress_commits_only_commits : forall events s,
  requests (progress_commits events s) = [].
Proof.
  induction events as [|event rest IH]; intros s; simpl; auto.
Qed.

(* ================================================================== *)
(** ** Validation (C1) *)

(** C1: a file whose media type does not start with [image/], given
    through the file picker or dropped, causes no network request; the
    picker path shows "Please select an image file", the drop path shows
    "Please upload an image file", and [translateImage] is never
    called (the only effects are those of the drop event itself). *)
Theorem non_image_file_rejected_before_any_request :
  forall (file : File) (others : list File) (x : xhr_exchange) (s : State),
    startsWith (file_type file) "image/" = false ->
    let picked :=
      handleFileInputChange {| target_files := Some (file :: others) |} x in
    let dropped :=
      handleDrop {| drag_type := "drop";
                    dataTransfer_files := file :: others |} x in
    (effects_of picked s = []
     /\ requests (effects_of picked s) = []
     /\ error_shown (state_after picked s)
        = Some "Please select an image file")
    /\ (effects_of dropped s = [preventDefault; stopPropagation]
        /\ requests (effects_of dropped s) = []
        /\ error_shown (state_after dropped s)
           = Some "Please upload an image file").
Proof.
  intros file others x s Hother. cbv zeta. split.
  - unfold effects_of, state_after, handleFileInputChange.
    cbn [target_files]. rewrite (handleFileUpload_invalid _ _ _ Hother).
    repeat split.
  - unfold effects_of, state_after, run, handleDrop.
    cbn [dataTransfer_files]. rewrite Hother.
    repeat split.
Qed.

(* ================================================================== *)
(** ** Progress and outcome display (C8, C5) *)

Lemma In_commits : forall l shown,
  In shown (commits l) <-> In (commit shown) l.
Proof.
  induction l as [|e rest IH]; intros shown; simpl.
  - tauto.
  - destruct e; simpl; rewrite IH;
      try (split; [now right | intros [H | H]; [discriminate | exact H]]).
    split; (intros [H | H]; [left | right]); congruence.
Qed.

(** C8: a submission that passes validation shows progress 0 when it
    starts (the first state on screen has it, with the spinner on) and
    leaves progress 0 when it completes, however the request ends. *)
Theorem progress_is_zero_at_start_and_end :
  forall (file : File) (x : xhr_exchange) (s : State),
    startsWith (file_type file) "image/" = true ->
    let submission := handleFileUpload file x in
    (exists first later,
        commits (effects_of submission s) = first :: later
        /\ uploadProgress first = Number_of_Z 0
        /\ uploading first = true)
    /\ uploadProgress (state_after submission s) = Number_of_Z 0
    /\ uploading (state_after submission s) = false.
Proof.
  intros file x s Himage submission.
  unfold submission, effects_of, state_after.
  rewrite (handleFileUpload_valid _ _ _ Himage). cbn [snd ui log].
  split.
  - exists (submitting s), (commits (progress_commits (upload_progress x)
                                       (submitting s))).
    repeat split.
  - unfold settled. split; reflexivity.
Qed.

Lemma settle_throws_errors : forall c failure,
  settle c = Throw failure ->
  exists message, failure = ErrorObject "Error" message.
Proof.
  intros c failure. destruct c as [status statusText responseText| |];
    cbn [settle].
  - unfold on_load.
    destruct ((200 <=? status) && (status <? 300))%N.
    + destruct (JSON_parse_text host responseText) as [response|message];
        [discriminate|].
      intros [= <-]. eexists; reflexivity.
    + destruct (JSON_parse host responseText) as [errorResponse|parse_error];
        cbn [bind_completion].
      * destruct (Get errorResponse "detail") as [detail|type_error];
          cbn [bind_completion].
        -- destruct (ToString (logical_or detail (VString "Upload failed")));
             cbn [bind_completion]; intros [= <-]; eexists; reflexivity.
        -- intros [= <-]. eexists; reflexivity.
      * intros [= <-]. eexists; reflexivity.
  - intros [= <-]. eexists; reflexivity.
  - intros [= <-]. eexists; reflexivity.
Qed.


(* ================================================================== *)
(** ** How a response settles the submission (C3, C10, C2) *)

Lemma status_in_range : forall status : N,
  (200 <= status < 300)%N ->
  ((200 <=? status) && (status <? 300))%N = true.
Proof.
  intros status [Hlow Hhigh].
  apply andb_true_iff. split; [now apply N.leb_le | now apply N.ltb_lt].
Qed.

Lemma status_out_of_range : forall status : N,
  ~ (200 <= status < 300)%N ->
  ((200 <=? status) && (status <? 300))%N = false.
Proof.
  intros status Hout.
  destruct ((200 <=? status) && (status <? 300))%N eqn:Hin; [|reflexivity].
  apply andb_true_iff in Hin. destruct Hin as [Hlow Hhigh].
  apply N.leb_le in Hlow. apply N.ltb_lt in Hhigh. tauto.
Qed.

Lemma format_error_is_shown : forall text mid,
  error_shown (settled (Throw (new_Error ("Invalid response format: " ++ text)))
                 mid)
  = Some ("Invalid response format: " ++ text).
Proof. reflexivity. Qed.

(** C3: when the request of a submission ends with a status in [200,300)
    and a body that is not valid JSON, [translateImage] rejects with an
    error whose message is "Invalid response format: " followed by the
    parse error as a string, and the submission fails with that message
    shown and no result; when the body is valid JSON, [translateImage]
    resolves with the parsed value, which becomes the result of the
    submission, with no error. *)
Theorem success_status_parses_body :
  forall (file : File) (targetLanguage : string)
         (onProgress : option (number -> UI unit))
         (x : xhr_exchange) (s : State)
         (status : N) (statusText responseText : string),
    startsWith (file_type file) "image/" = true ->
    completion_event x = xhr_load status statusText responseText ->
    (200 <= status < 300)%N ->
    let outcome :=
      fst (run (translateImage file targetLanguage onProgress x) s) in
    let final := state_after (handleFileUpload file x) s in
    match JSON_parse host responseText with
    | Normal response =>
        outcome = Normal response
        /\ result final = response
        /\ error final = None
    | Throw parse_error =>
        exists message,
          parse_error = ErrorObject "SyntaxError" message
          /\ outcome
             = Throw (ErrorObject "Error"
                        ("Invalid response format: "
                         ++ Error_toString "SyntaxError" message))
          /\ error_shown final
             = Some ("Invalid response format: "
                     ++ Error_toString "SyntaxError" message)
          /\ result final = VNull
    end.
Proof.
  intros file targetLanguage onProgress x s status statusText responseText
         Himage Hload Hrange outcome final.
  unfold outcome, final, state_after.
  rewrite translateImage_settles, (handleFileUpload_valid _ _ _ Himage).
  rewrite Hload. cbn [snd ui settle].
  unfold on_load. rewrite (status_in_range _ Hrange).
  destruct (after_progress_loop_fields (upload_progress x) (submitting s))
    as (_ & _ & _ & _ & Hresult & Herror & _).
  destruct (JSON_parse_cases responseText)
    as [(response & -> & ->) | (message & -> & ->)].
  - repeat split. exact Herror.
  - exists message. split; [reflexivity | split; [reflexivity|]].
    split; [apply format_error_is_shown | exact Hresult].
Qed.

(** C10: for a status in [200,300) the parsed body is not inspected: any
    value [JSON.parse] returns resolves the submission and becomes the
    result as it is, with no error; the submission is rejected only when
    parsing itself throws. *)
Theorem success_body_shape_is_not_checked :
  forall (file : File) (x : xhr_exchange) (s : State)
         (status : N) (statusText responseText : string),
    startsWith (file_type file) "image/" = true ->
    completion_event x = xhr_load status statusText responseText ->
    (200 <= status < 300)%N ->
    (forall response,
        JSON_parse host responseText = Normal response ->
        on_load status statusText responseText = Normal response
        /\ result (state_after (handleFileUpload file x) s) = response
        /\ error (state_after (handleFileUpload file x) s) = None)
    /\ (forall rejection,
           on_load status statusText responseText = Throw rejection ->
           exists parse_error,
             JSON_parse host responseText = Throw parse_error).
Proof.
  intros file x s status statusText responseText Himage Hload Hrange.
  unfold state_after. rewrite (handleFileUpload_valid _ _ _ Himage).
  rewrite Hload. cbn [snd ui settle].
  unfold on_load. rewrite (status_in_range _ Hrange).
  destruct (after_progress_loop_fields (upload_progress x) (submitting s))
    as (_ & _ & _ & _ & _ & Herror & _).
  destruct (JSON_parse_cases responseText)
    as [(parsed & -> & ->) | (message & -> & ->)].
  - split.
    + intros response [= <-]. repeat split. exact Herror.
    + intros rejection Hrejected. discriminate.
  - split.
    + intros response Hparse. discriminate.
    + intros rejection _. eexists; reflexivity.
Qed.

Lemma on_load_failure : forall status statusText responseText,
  ~ (200 <= status < 300)%N ->
  on_load status statusText responseText
  = match JSON_parse host responseText with
    | Normal VNull | Normal VUndefined | Throw _ =>
        Throw (new_Error ("HTTP " ++ decimal status ++ ": " ++ statusText))
    | Normal errorResponse =>
        match
          ToString (logical_or (property errorResponse "detail")
                      (VString "Upload failed"))
        with
        | Normal message => Throw (new_Error message)
        | Throw _ =>
            Throw (new_Error ("HTTP " ++ decimal status ++ ": " ++ statusText))
        end
    end.
Proof.
  intros status statusText responseText Hout.
  unfold on_load. rewrite (status_out_of_range _ Hout).
  destruct (JSON_parse host responseText) as [[| | | | | |]|];
    cbn [bind_completion Get]; try reflexivity;
    match goal with
    | |- context [ToString ?v] => destruct (ToString v); reflexivity
    end.
Qed.

Lemma rejection_is_shown : forall message mid,
  message <> "" ->
  error_shown (settled (Throw (new_Error message)) mid) = Some message.
Proof.
  intros message mid Hne. unfold error_shown, settled, new_Error. cbn.
  destruct (String.eqb_spec message ""); [contradiction | reflexivity].
Qed.

(** C2, as the code has it: for a status outside [200,300) the
    submission fails, and the reason [translateImage] rejects with is the
    [detail] of the parsed body when that is a non-empty string,
    "Upload failed" when the parsed body is not [null] and its [detail]
    is missing or falsy, [detail] converted to a string for any other
    truthy [detail], and "HTTP <status>: <statusText>" when that
    conversion throws (an object with an own [toString] property cannot
    be converted), when the body is not valid JSON and when it is
    [null]. *)
Theorem failure_status_reason :
  forall (file : File) (targetLanguage : string)
         (onProgress : option (number -> UI unit))
         (x : xhr_exchange) (s : State)
         (status : N) (statusText responseText : string),
    startsWith (file_type file) "image/" = true ->
    completion_event x = xhr_load status statusText responseText ->
    ~ (200 <= status < 300)%N ->
    let final := state_after (handleFileUpload file x) s in
    let shown := error_shown final in
    let reason :=
      fst (run (translateImage file targetLanguage onProgress x) s) in
    let status_line := "HTTP " ++ decimal status ++ ": " ++ statusText in
    (forall errorResponse detail,
        JSON_parse host responseText = Normal errorResponse ->
        property errorResponse "detail" = VString detail ->
        detail <> "" ->
        reason = Throw (ErrorObject "Error" detail) /\ shown = Some detail)
    /\ (forall errorResponse,
           JSON_parse host responseText = Normal errorResponse ->
           errorResponse <> VNull -> errorResponse <> VUndefined ->
           ToBoolean (property errorResponse "detail") = false ->
           reason = Throw (ErrorObject "Error" "Upload failed")
           /\ shown = Some "Upload failed")
    /\ (forall errorResponse text,
           JSON_parse host responseText = Normal errorResponse ->
           errorResponse <> VNull -> errorResponse <> VUndefined ->
           ToBoolean (property errorResponse "detail") = true ->
           ToString (property errorResponse "detail") = Normal text ->
           reason = Throw (ErrorObject "Error" text)
           /\ error final = Some text)
    /\ (forall errorResponse failure,
           JSON_parse host responseText = Normal errorResponse ->
           errorResponse <> VNull -> errorResponse <> VUndefined ->
           ToBoolean (property errorResponse "detail") = true ->
           ToString (property errorResponse "detail") = Throw failure ->
           reason = Throw (ErrorObject "Error" status_line)
           /\ shown = Some status_line)
    /\ (forall fields,
           ToString (VObject fields)
           = if has_own "toString" fields
             then Throw (ErrorObject "TypeError"
                           (ToPrimitive_message host (VObject fields)))
             else Normal "[object Object]")
    /\ (forall parse_error,
           JSON_parse host responseText = Throw parse_error ->
           reason = Throw (ErrorObject "Error" status_line)
           /\ shown = Some status_line)
    /\ (JSON_parse host responseText = Normal VNull ->
        reason = Throw (ErrorObject "Error" status_line)
        /\ shown = Some status_line).
Proof.
  intros file targetLanguage onProgress x s status statusText responseText
         Himage Hload Hout.
  cbv zeta. unfold state_after.
  rewrite translateImage_settles, (handleFileUpload_valid _ _ _ Himage).
  rewrite Hload. cbn [snd ui settle].
  rewrite (on_load_failure _ _ _ Hout).
  split; [|split; [|split; [|split; [|split; [|split]]]]].
  - intros errorResponse detail Hparse Hdetail Hne. rewrite Hparse.
    assert (Hor : logical_or (VString detail) (VString "Upload failed")
                  = VString detail).
    { unfold logical_or. cbn.
      destruct (String.eqb_spec detail ""); [contradiction | reflexivity]. }
    destruct errorResponse; cbn in Hdetail; try discriminate.
    cbn [property]. rewrite Hdetail, Hor. cbn [ToString].
    split; [reflexivity | now apply rejection_is_shown].
  - intros errorResponse Hparse Hnull Hundefined Hfalsy. rewrite Hparse.
    unfold logical_or. rewrite Hfalsy. cbn [ToString].
    destruct errorResponse; try contradiction;
      (split; [reflexivity | now apply rejection_is_shown]).
  - intros errorResponse text Hparse Hnull Hundefined Htruthy Htext.
    rewrite Hparse. unfold logical_or. rewrite Htruthy, Htext.
    destruct errorResponse; try contradiction; split; reflexivity.
  - intros errorResponse failure Hparse Hnull Hundefined Htruthy Hthrows.
    rewrite Hparse. unfold logical_or. rewrite Htruthy, Hthrows.
    destruct errorResponse; try contradiction;
      (split; [reflexivity | now apply rejection_is_shown]).
  - reflexivity.
  - intros parse_error Hparse. rewrite Hparse.
    split; [reflexivity | now apply rejection_is_shown].
  - intros Hparse. rewrite Hparse.
    split; [reflexivity | now apply rejection_is_shown].
Qed.

(* ================================================================== *)
(** ** Paste (C6) *)

Lemma handlePaste_items_first_image : forall before item after x,
  forallb (fun i => negb (image_typed i)) before = true ->
  image_typed item = true ->
  handlePaste_items (before ++ item :: after)%list x
  = (emit preventDefault ;;
     match getAsFile item with
     | Some file => handleFileUpload file x
     | None => ret tt
     end).
Proof.
  induction before as [|other before IH]; intros item after x Hnone Himage.
  - cbn [app handlePaste_items]. unfold image_typed in Himage.
    now rewrite Himage.
  - cbn [forallb] in Hnone. apply andb_true_iff in Hnone.
    destruct Hnone as [Hother Hnone].
    cbn [app handlePaste_items]. unfold image_typed in Hother.
    apply negb_true_iff in Hother. rewrite Hother. now apply IH.
Qed.

Lemma handlePaste_items_no_image : forall items x,
  forallb (fun i => negb (image_typed i)) items = true ->
  handlePaste_items items x = ret tt.
Proof.
  induction items as [|other items IH]; intros x Hnone.
  - reflexivity.
  - cbn [forallb] in Hnone. apply andb_true_iff in Hnone.
    destruct Hnone as [Hother Hnone].
    cbn [handlePaste_items]. unfold image_typed in Hother.
    apply negb_true_iff in Hother. rewrite Hother. now apply IH.
Qed.

(** C6, as the code has it: a paste event is scanned in order for the
    first item whose declared type contains "image".  Without such an
    item (or without clipboard data) the event is not intercepted and
    nothing happens.  With one, the default is prevented and, when the
    item yields a file, the file goes through [handleFileUpload]: a file
    whose type starts with "image/" is sent in exactly one request with
    the selected language, any other file is refused with "Please select
    an image file" and nothing is sent. *)
Theorem paste_takes_first_image_item_and_validates_it :
  forall (before after : list DataTransferItem) (item : DataTransferItem)
         (x : xhr_exchange) (s : State),
    forallb (fun i => negb (image_typed i)) before = true ->
    image_typed item = true ->
    let found := handlePaste {| clipboardData_items :=
                                  Some (before ++ item :: after)%list |} x in
    let none := handlePaste {| clipboardData_items := Some before |} x in
    let absent := handlePaste {| clipboardData_items := None |} x in
    run none s = (tt, {| ui := s; log := [] |})
    /\ run absent s = (tt, {| ui := s; log := [] |})
    /\ match getAsFile item with
       | None => run found s = (tt, {| ui := s; log := [preventDefault] |})
       | Some file =>
           if startsWith (file_type file) "image/" then
             (exists later,
                 effects_of found s
                 = preventDefault :: submission_request file s :: later)
             /\ requests (effects_of found s) = [submission_request file s]
           else
             effects_of found s = [preventDefault]
             /\ error (state_after found s)
                = Some "Please select an image file"
       end.
Proof.
  intros before after item x s Hnone Himage found none absent.
  unfold found, none, absent, handlePaste. cbn [clipboardData_items].
  rewrite (handlePaste_items_no_image _ _ Hnone).
  rewrite (handlePaste_items_first_image _ _ _ _ Hnone Himage).
  split; [reflexivity | split; [reflexivity |]].
  destruct (getAsFile item) as [file|]; [|reflexivity].
  destruct (startsWith (file_type file) "image/") eqn:Htype.
  - pose proof (handleFileUpload_valid file x) as Hvalid.
    unfold run in Hvalid. unfold effects_of, run, bind, emit. cbn [ui log app].
    assert (Hrun : forall l,
               handleFileUpload file x {| ui := s; log := l |}
               = (tt, {| ui := settled (settle (completion_event x))
                                 (after_progress_loop (upload_progress x)
                                    (submitting s));
                         log := (l ++ submission_request file s
                                 :: commit (submitting s)
                                 :: progress_commits (upload_progress x)
                                      (submitting s))%list |})).
    { intros l. unfold handleFileUpload. rewrite Htype. cbn [negb].
      repeat (unfold bind at 1;
              cbn [setUploading setUploadProgress setError
                     setResult modify get_state ui log]).
      rewrite translateImage_run. cbn [ui log].
      unfold settled, submission_request, submitting.
      destruct (settle (completion_event x)) as [response|[name message|v]];
        reflexivity. }
    rewrite Hrun. cbn [snd log app]. split.
    + eexists. reflexivity.
    + unfold requests. cbn [filter is_request submission_request].
      change (filter is_request ?l) with (requests l).
      now rewrite progress_commits_only_commits.
  - unfold effects_of, state_after, run, bind, emit. cbn [ui log app].
    unfold handleFileUpload. rewrite Htype. cbn. split; reflexivity.
Qed.

(* ================================================================== *)
(** ** The language catalog (C7) *)

Lemma getLanguages_run : forall x w,
  getLanguages x w
  = (catalog_response x,
     {| ui := ui w;
        log := (log w
                ++ fetch "GET" "http://127.0.0.1:8000/languages"
                :: commit (ui w)
                :: match catalog_response x with
                   | Normal _ => []
                   | Throw e => [console_error "Error fetching languages:" e]
                   end)%list |}).
Proof.
  intros x [s l]. unfold getLanguages, catalog_response, bind, emit, suspend.
  cbn [ui log].
  destruct x as [e|status body]; cbn.
  - now rewrite <- !app_assoc.
  - destruct (response_ok status); cbn.
    + unfold bind_completion.
      destruct (JSON_parse host body) as [data|e]; cbn.
      * destruct (Get data "languages"); cbn; now rewrite <- !app_assoc.
      * now rewrite <- !app_assoc.
    + now rewrite <- !app_assoc.
Qed.

(** C7, as the code has it: the catalog fetch fails when the request
    fails, when the status is not 2xx and when the body is not valid JSON
    or is [null]; for any other body it returns the [languages] property
    of the parsed value as it is, [undefined] when there is none.  When
    it fails, the component logs the failure twice to the console, shows
    no error, keeps the selected language (initially "en", English), and
    takes exactly the six-entry fallback catalog. *)
Theorem catalog_fetch_failure_falls_back :
  forall (x : fetch_exchange) (s : State),
    let outcome := fst (run (getLanguages x) s) in
    (forall e, x = fetch_rejected e -> outcome = Throw e)
    /\ (forall status body,
           x = fetch_response status body -> response_ok status = false ->
           outcome = Throw (ErrorObject "Error" "Failed to fetch languages"))
    /\ (forall status body e,
           x = fetch_response status body -> response_ok status = true ->
           JSON_parse host body = Throw e -> outcome = Throw e)
    /\ (forall status body data,
           x = fetch_response status body -> response_ok status = true ->
           JSON_parse host body = Normal data ->
           outcome = match data with
                     | VNull | VUndefined =>
                         Throw (ErrorObject "TypeError"
                                  (TypeError_message host data "languages"))
                     | _ => Normal (property data "languages")
                     end)
    /\ (forall failure,
           outcome = Throw failure ->
           languages (state_after (loadLanguages x) s)
           = VObject [("en", VString "English"); ("es", VString "Spanish");
                      ("fr", VString "French"); ("de", VString "German");
                      ("zh", VString "Chinese"); ("ja", VString "Japanese")]
           /\ selectedLanguage (state_after (loadLanguages x) s)
              = selectedLanguage s
           /\ selectedLanguage initial_state = "en"
           /\ error (state_after (loadLanguages x) s) = error s
           /\ effects_of (loadLanguages x) s
              = [fetch "GET" "http://127.0.0.1:8000/languages"; commit s;
                 console_error "Error fetching languages:" failure;
                 console_error "Failed to load languages:" failure]).
Proof.
  intros x s outcome. unfold outcome.
  assert (Hout : fst (run (getLanguages x) s) = catalog_response x)
    by (unfold run; now rewrite getLanguages_run).
  rewrite Hout.
  split; [|split; [|split; [|split]]].
  - now intros e ->.
  - intros status body -> Hnot. cbn. now rewrite Hnot.
  - intros status body e -> Hok Hparse. cbn. now rewrite Hok, Hparse.
  - intros status body data -> Hok Hparse. cbn. rewrite Hok, Hparse.
    destruct data; reflexivity.
  - intros failure Hfails.
    unfold state_after, effects_of, loadLanguages, run, bind.
    rewrite getLanguages_run. cbn [fst snd ui log app].
    rewrite Hfails. cbn. repeat split.
Qed.

(* ================================================================== *)
(** ** Copying the translation (C9) *)

(** C9: with a result whose translated text is a non-empty string, the
    copy action asks the clipboard to write exactly that text; once the
    write has succeeded it sets the "copied" indicator and schedules, with
    a delay of exactly 2000 ms, the callback that clears it.  (A write the
    browser rejects is logged, and the indicator stays as it was.) *)
Theorem copy_writes_translation_and_flags_for_2000ms :
  forall (s : State) (text : string) (written : completion unit),
    property (property (result s) "data") "translated_text" = VString text ->
    text <> "" ->
    let copy := handleCopyText written in
    (exists later, effects_of copy s = clipboard_writeText text :: later)
    /\ (forall done, written = Normal done ->
           effects_of copy s
           = [clipboard_writeText text; commit s;
              setTimeout (cb_setCopied false) 2000]
           /\ copied (state_after copy s) = true
           /\ copied (state_after (run_callback (cb_setCopied false))
                        (state_after copy s)) = false)
    /\ (forall err, written = Throw err ->
           effects_of copy s
           = [clipboard_writeText text; commit s;
              console_error "Failed to copy text:" err]
           /\ copied (state_after copy s) = copied s).
Proof.
  intros s text written Htext Hne copy.
  assert (Hdata : exists fields, result s = VObject fields).
  { destruct (result s); cbn in Htext; try discriminate. eauto. }
  destruct Hdata as [fields Hresult].
  assert (Hinner : exists fields', property (result s) "data"
                                   = VObject fields').
  { destruct (property (result s) "data"); cbn in Htext;
      try discriminate. eauto. }
  destruct Hinner as [fields' Hdata].
  assert (Htruthy : ToBoolean (VString text) = true).
  { cbn. destruct (String.eqb_spec text ""); [contradiction | reflexivity]. }
  unfold copy, effects_of, state_after, run, handleCopyText, bind, get_state.
  cbn [ui log].
  rewrite Hresult in *. cbn [optional_Get Get bind_completion].
  rewrite Hdata in *. cbn [optional_Get Get bind_completion].
  rewrite Htext, Htruthy. cbn [ToString].
  split; [|split].
  - destruct written; cbn; eauto.
  - intros done ->. cbn. repeat split.
  - intros err ->. cbn. repeat split.
Qed.

(* ================================================================== *)
(** ** Upload progress (C4) *)

(** The operations on numbers round to the nearest binary64 value.  The
    lemmas below characterise [binary_round_aux] on located values, derive
    what the conversion, the quotient and the product compute for positive
    normal operands, and show each of them monotone. *)

(** Powers of two with a symbolic exponent become opaque positive atoms. *)
Ltac hide_pow e :=
  let x := fresh "pw" in
  let H := fresh "Hpw" in
  assert (H : 0 < 2 ^ e) by (apply Z.pow_pos_nonneg; lia);
  set (x := 2 ^ e) in *; clearbody x.

Ltac hide_pows :=
  repeat match goal with
         | |- context [2 ^ ?e] => hide_pow e
         | H : context [2 ^ ?e] |- _ => hide_pow e
         end.

Lemma digits2_pos_bounds : forall p,
  2 ^ (Zpos (digits2_pos p) - 1) <= Zpos p < 2 ^ Zpos (digits2_pos p).
Proof.
  induction p as [p IH|p IH|]; cbn [digits2_pos].
  - rewrite Pos2Z.inj_succ, (Pos2Z.inj_xI p).
    replace (Z.succ (Zpos (digits2_pos p)) - 1) with (Z.succ (Zpos (digits2_pos p) - 1)) by lia.
    rewrite !Z.pow_succ_r by lia. hide_pows. lia.
  - rewrite Pos2Z.inj_succ, (Pos2Z.inj_xO p).
    replace (Z.succ (Zpos (digits2_pos p)) - 1) with (Z.succ (Zpos (digits2_pos p) - 1)) by lia.
    rewrite !Z.pow_succ_r by lia. hide_pows. lia.
  - cbn. lia.
Qed.

Lemma located_rest : forall X Y m r s,
  located X Y {| shr_m := m; shr_r := r; shr_s := s |} ->
  (orb r s = true <-> X <> m * Y).
Proof.
  intros X Y m r s (HY & Hm & HX & [Hr1 Hr2] & [Hs1 Hs2]).
  cbn [shr_m shr_r shr_s] in *.
  destruct r, s; cbn; split; intros H; try reflexivity; try discriminate.
  - specialize (Hr1 eq_refl). lia.
  - specialize (Hr1 eq_refl). lia.
  - specialize (Hs1 eq_refl). lia.
  - exfalso. destruct (Z.eq_dec (2 * (X - m * Y)) Y) as [Heq|Hne].
    + assert (Hc : false = true) by (apply Hr2; lia). discriminate.
    + assert (Hc : false = true) by (apply Hs2; lia). discriminate.
Qed.

Lemma shr_1_located : forall X Y mrs,
  located X Y mrs -> located X (2 * Y) (shr_1 mrs).
Proof.
  intros X Y [m r s] Hloc.
  pose proof (located_rest _ _ _ _ _ Hloc) as Hor.
  destruct Hloc as (HY & Hm & HX & Hr & Hs). cbn [shr_m shr_r shr_s] in *.
  unfold located, shr_1.
  destruct m as [|[p|p|]|p]; cbn [shr_m shr_r shr_s]; try lia;
    try rewrite (Pos2Z.inj_xI p) in *; try rewrite (Pos2Z.inj_xO p) in *;
    (split; [lia | split; [lia | split; [lia | split; split]]]);
    try discriminate; try reflexivity;
    try (intros Hrest; apply Hor in Hrest; lia);
    try (intros [Hrest Hhalf]; apply Hor; lia);
    try (intros Hhalf; lia).
Qed.

Lemma iter_shr_1_located : forall p X Y mrs,
  located X Y mrs -> located X (2 ^ Zpos p * Y) (iter_pos shr_1 p mrs).
Proof.
  induction p as [p IH|p IH|]; intros X Y mrs Hloc; cbn [iter_pos].
  - apply shr_1_located in Hloc. apply IH in Hloc. apply IH in Hloc.
    replace (2 ^ Zpos p~1 * Y) with (2 ^ Zpos p * (2 ^ Zpos p * (2 * Y))); [exact Hloc|].
    rewrite (Pos2Z.inj_xI p).
    replace (2 * Zpos p + 1) with (Zpos p + Zpos p + 1) by lia.
    rewrite !Z.pow_add_r by lia. change (2 ^ 1) with 2. ring.
  - apply IH in Hloc. apply IH in Hloc.
    replace (2 ^ Zpos p~0 * Y) with (2 ^ Zpos p * (2 ^ Zpos p * Y)); [exact Hloc|].
    rewrite (Pos2Z.inj_xO p).
    replace (2 * Zpos p) with (Zpos p + Zpos p) by lia.
    rewrite Z.pow_add_r by lia. ring.
  - apply shr_1_located in Hloc. exact Hloc.
Qed.

Lemma located_div : forall X Y mrs,
  located X Y mrs -> shr_m mrs = X / Y /\ X - shr_m mrs * Y = X mod Y.
Proof.
  intros X Y mrs (HY & Hm & HX & _).
  assert (Hq : shr_m mrs = X / Y).
  { apply Z.div_unique with (r := X - shr_m mrs * Y); lia. }
  split; [exact Hq|]. rewrite Hq. rewrite Z.mod_eq by lia. lia.
Qed.

Lemma round_located : forall X Y mrs,
  located X Y mrs ->
  round_nearest_even (shr_m mrs) (loc_of_shr_record mrs) = RNE X Y.
Proof.
  intros X Y mrs Hloc.
  destruct (located_div _ _ _ Hloc) as [Hq Hrest].
  destruct mrs as [m r s].
  destruct Hloc as (HY & Hm & HX & [Hr1 Hr2] & [Hs1 Hs2]).
  cbn [shr_m shr_r shr_s] in *. unfold RNE. rewrite <- Hq, <- Hrest.
  destruct r, s; cbn [loc_of_shr_record round_nearest_even];
    destruct (Z.compare_spec (2 * (X - m * Y)) Y) as [Hhalf|Hhalf|Hhalf];
    try reflexivity;
    try (specialize (Hr1 eq_refl)); try (specialize (Hs1 eq_refl));
    try lia;
    try (assert (Hc : false = true) by (apply Hr2; lia); discriminate Hc);
    try (assert (Hc : false = true) by (apply Hs2; lia); discriminate Hc).
Qed.
Lemma digits2_pos_unique : forall p n,
  2 ^ (n - 1) <= Zpos p < 2 ^ n -> Zpos (digits2_pos p) = n.
Proof.
  intros p n [Hlow Hhigh].
  destruct (digits2_pos_bounds p) as [Hlow' Hhigh'].
  assert (Hn : 0 < n).
  { destruct (Z_lt_le_dec 0 n) as [|Hneg]; [assumption|].
    exfalso. destruct (Z.eq_dec n 0) as [->|Hne].
    - cbn in Hhigh. lia.
    - rewrite Z.pow_neg_r in Hhigh by lia. lia. }
  set (d := Zpos (digits2_pos p)) in *.
  assert (Hd : 0 < d) by (unfold d; lia).
  destruct (Z.lt_trichotomy d n) as [Hlt | [Heq | Hgt]]; [exfalso | exact Heq | exfalso].
  - assert (2 ^ d <= 2 ^ (n - 1)) by (apply Z.pow_le_mono_r; lia). lia.
  - assert (2 ^ n <= 2 ^ (d - 1)) by (apply Z.pow_le_mono_r; lia). lia.
Qed.

Lemma RNE_floor : forall X Y,
  0 < Y -> X / Y <= RNE X Y <= X / Y + 1.
Proof.
  intros X Y HY. unfold RNE.
  destruct (2 * (X mod Y) ?= Y); [destruct (Z.even (X / Y))| |]; lia.
Qed.

Lemma fexp_normal : forall e, -1021 <= e -> fexp prec emax e = e - 53.
Proof.
  intros e He. unfold fexp, emin, prec, emax. lia.
Qed.

(** Rounding a located positive value whose integer part has at least 53
    bits, within the range of normal numbers. *)
Lemma binary_round_aux_normal : forall (M : positive) (E : Z) (loc : location) (X Y : Z),
  located X Y (shr_record_of_loc (Zpos M) loc) ->
  53 <= Zpos (digits2_pos M) ->
  -1074 <= E ->
  E + (Zpos (digits2_pos M) - 53) < 971 ->
  let k := Zpos (digits2_pos M) - 53 in
  let m := RNE X (2 ^ k * Y) in
  2 ^ 52 * (2 ^ k * Y) <= X < 2 ^ 53 * (2 ^ k * Y)
  /\ 2 ^ 52 <= m <= 2 ^ 53
  /\ binary_round_aux prec emax false (Zpos M) E loc
     = if m =? 2 ^ 53
       then S754_finite false (Z.to_pos (2 ^ 52)) (E + k + 1)
       else S754_finite false (Z.to_pos m) (E + k).
Proof.
  intros M E loc X Y Hloc Hd HE Hmax k m.
  set (d := Zpos (digits2_pos M)) in *.
  destruct (digits2_pos_bounds M) as [HMlow HMhigh]. fold d in HMlow, HMhigh.
  assert (Hk : 0 <= k) by (unfold k; lia).
  assert (Hpowd : 2 ^ d = 2 ^ 53 * 2 ^ k).
  { unfold k. rewrite <- Z.pow_add_r by lia. f_equal. lia. }
  assert (Hpowd1 : 2 ^ (d - 1) = 2 ^ 52 * 2 ^ k).
  { unfold k. rewrite <- Z.pow_add_r by lia. f_equal. lia. }
  assert (Hbinade : 2 ^ 52 * (2 ^ k * Y) <= X < 2 ^ 53 * (2 ^ k * Y)).
  { destruct Hloc as (HY & _ & HX & _).
    destruct loc as [|[]]; cbn [shr_record_of_loc shr_m] in HX;
      rewrite Hpowd in HMhigh; rewrite Hpowd1 in HMlow;
      change (2 ^ 52) with 4503599627370496 in *;
      change (2 ^ 53) with 9007199254740992 in *; hide_pows; nia. }
  (* the first shift *)
  unfold binary_round_aux, shr_fexp.
  change (Zdigits2 (Zpos M)) with d.
  rewrite fexp_normal by lia.
  replace (d + E - 53 - E) with k by (unfold k; lia).
  assert (Hshift : exists mrs',
             shr (shr_record_of_loc (Zpos M) loc) E k = (mrs', E + k)
             /\ located X (2 ^ k * Y) mrs').
  { unfold shr. destruct k as [|pk|pk] eqn:Hkeq; [| |lia].
    - eexists. split; [f_equal; lia|].
      change (2 ^ 0) with 1. now rewrite Z.mul_1_l.
    - eexists. split; [reflexivity|]. now apply iter_shr_1_located. }
  destruct Hshift as (mrs' & -> & Hloc').
  rewrite (round_located _ _ _ Hloc'). fold m.
  assert (Hm : 2 ^ 52 <= m <= 2 ^ 53).
  { destruct (located_div _ _ _ Hloc') as [Hq _].
    destruct Hloc' as (HD & _ & HX' & _). rewrite Hq in HX'.
    pose proof (RNE_floor X (2 ^ k * Y) HD) as Hfloor. fold m in Hfloor.
    change (2 ^ 52) with 4503599627370496 in *;
      change (2 ^ 53) with 9007199254740992 in *.
    set (D := 2 ^ k * Y) in *. clearbody D. nia. }
  split; [exact Hbinade | split; [exact Hm|]].
  (* the second shift *)
  destruct (Z.eqb_spec m (2 ^ 53)) as [Htop | Hbelow].
  - rewrite Htop. change (Zdigits2 (2 ^ 53)) with 54.
    rewrite fexp_normal by lia.
    replace (54 + (E + k) - 53 - (E + k)) with 1 by lia.
    cbn [shr shr_record_of_loc iter_pos]. 
    change (shr_m (shr_1 {| shr_m := 2 ^ 53; shr_r := false; shr_s := false |}))
      with (2 ^ 52).
    change (2 ^ 52) with (Zpos (Z.to_pos (2 ^ 52))).
    cbv iota beta.
    replace (E + k + 1 <=? emax - prec) with true
      by (symmetry; apply Z.leb_le; unfold emax, prec, k; lia).
    reflexivity.
  - assert (Hmpos : m = Zpos (Z.to_pos m)) by (rewrite Z2Pos.id; lia).
    assert (Hdig : Zdigits2 m = 53).
    { rewrite Hmpos. cbn [Zdigits2]. apply digits2_pos_unique.
      rewrite <- Hmpos. change (53 - 1) with 52. lia. }
    rewrite Hdig. rewrite fexp_normal by lia.
    replace (53 + (E + k) - 53 - (E + k)) with 0 by lia.
    cbn [shr shr_record_of_loc shr_m].
    rewrite Hmpos at 1.
    replace (E + k <=? emax - prec) with true
      by (symmetry; apply Z.leb_le; unfold emax, prec, k; lia).
    reflexivity.
Qed.

Lemma scaled_le_weights : forall m1 e1 m2 e2 p1 p2,
  0 <= p1 -> 0 <= p2 -> p1 - p2 = e1 - e2 ->
  (scaled_le m1 e1 m2 e2 <-> m1 * 2 ^ p1 <= m2 * 2 ^ p2).
Proof.
  intros m1 e1 m2 e2 p1 p2 Hp1 Hp2 Hdiff. unfold scaled_le.
  set (c := p1 - (e1 - Z.min e1 e2)).
  assert (Hc : 0 <= c) by (unfold c; lia).
  replace p1 with ((e1 - Z.min e1 e2) + c) by (unfold c; lia).
  replace p2 with ((e2 - Z.min e1 e2) + c) by (unfold c; lia).
  rewrite !Z.pow_add_r by lia.
  assert (Hpos : 0 < 2 ^ c) by (apply Z.pow_pos_nonneg; lia).
  rewrite !Z.mul_assoc.
  split; intros H.
  - apply Z.mul_le_mono_nonneg_r; lia.
  - apply Z.mul_le_mono_pos_r in H; lia.
Qed.

Lemma RNE_monotone : forall X1 D1 X2 D2,
  0 < D1 -> 0 < D2 -> X1 * D2 <= X2 * D1 -> RNE X1 D1 <= RNE X2 D2.
Proof.
  intros X1 D1 X2 D2 HD1 HD2 Hle.
  pose proof (Z.div_mod X1 D1 ltac:(lia)) as E1.
  pose proof (Z.div_mod X2 D2 ltac:(lia)) as E2.
  pose proof (Z.mod_pos_bound X1 D1 HD1) as B1.
  pose proof (Z.mod_pos_bound X2 D2 HD2) as B2.
  unfold RNE.
  set (q1 := X1 / D1) in *. set (r1 := X1 mod D1) in *.
  set (q2 := X2 / D2) in *. set (r2 := X2 mod D2) in *.
  clearbody q1 r1 q2 r2. subst X1 X2.
  assert (Hq : q1 <= q2).
  { destruct (Z_le_gt_dec q1 q2) as [|Hgt]; [assumption | exfalso].
    assert (H1 : (q2 + 1) * (D1 * D2) <= q1 * (D1 * D2))
      by (apply Z.mul_le_mono_nonneg_r; nia).
    assert (H2 : r2 * D1 < D2 * D1) by (apply Z.mul_lt_mono_pos_r; lia).
    assert (H3 : 0 <= r1 * D2) by nia.
    lia. }
  destruct (Z.eq_dec q1 q2) as [->|Hne].
  - assert (Hr : r1 * D2 <= r2 * D1) by lia.
    destruct (Z.compare_spec (2 * r1) D1), (Z.compare_spec (2 * r2) D2);
      destruct (Z.even q2); try lia; nia.
  - destruct (Z.compare_spec (2 * r1) D1), (Z.compare_spec (2 * r2) D2);
      destruct (Z.even q1), (Z.even q2); lia.
Qed.

Lemma pow2_ge_2 : forall n, 0 < n -> 2 <= 2 ^ n.
Proof.
  intros n Hn. change 2 with (2 ^ 1) at 1. apply Z.pow_le_mono_r; lia.
Qed.

(** Rounding is monotone across binades. *)
Lemma round_binade_monotone : forall X1 D1 e1 X2 D2 e2,
  0 < D1 -> 0 < D2 ->
  2 ^ 52 * D1 <= X1 < 2 ^ 53 * D1 ->
  2 ^ 52 * D2 <= X2 < 2 ^ 53 * D2 ->
  scaled_le (X1 * D2) e1 (X2 * D1) e2 ->
  scaled_le (RNE X1 D1) e1 (RNE X2 D2) e2.
Proof.
  intros X1 D1 e1 X2 D2 e2 HD1 HD2 HX1 HX2. unfold scaled_le.
  pose proof (RNE_floor X1 D1 HD1) as F1.
  pose proof (RNE_floor X2 D2 HD2) as F2.
  assert (Hq1 : 2 ^ 52 <= X1 / D1 < 2 ^ 53).
  { split; [apply Z.div_le_lower_bound | apply Z.div_lt_upper_bound]; lia. }
  assert (Hq2 : 2 ^ 52 <= X2 / D2 < 2 ^ 53).
  { split; [apply Z.div_le_lower_bound | apply Z.div_lt_upper_bound]; lia. }
  change (2 ^ 52) with 4503599627370496 in *.
  change (2 ^ 53) with 9007199254740992 in *.
  destruct (Z.lt_trichotomy e1 e2) as [Hlt | [Heq | Hgt]].
  - rewrite Z.min_l by lia. replace (e1 - e1) with 0 by lia.
    change (2 ^ 0) with 1. intros _.
    pose proof (pow2_ge_2 (e2 - e1) ltac:(lia)) as Hw.
    set (w := 2 ^ (e2 - e1)) in *. clearbody w.
    assert (Hw2 : RNE X2 D2 * 2 <= RNE X2 D2 * w)
      by (apply Z.mul_le_mono_nonneg_l; lia).
    lia.
  - subst e2. rewrite Z.min_id. replace (e1 - e1) with 0 by lia.
    change (2 ^ 0) with 1. rewrite !Z.mul_1_r.
    now apply RNE_monotone.
  - rewrite Z.min_r by lia. replace (e2 - e2) with 0 by lia.
    change (2 ^ 0) with 1. intros Hle. exfalso.
    pose proof (pow2_ge_2 (e1 - e2) ltac:(lia)) as Hw.
    set (w := 2 ^ (e1 - e2)) in *. clearbody w.
    assert (H0 : 4503599627370496 * D1 * D2 <= X1 * D2)
      by (apply Z.mul_le_mono_nonneg_r; lia).
    assert (H1 : X1 * D2 * 2 <= X1 * D2 * w)
      by (apply Z.mul_le_mono_nonneg_l; lia).
    assert (H2 : X2 * D1 < 9007199254740992 * D2 * D1)
      by (apply Z.mul_lt_mono_pos_r; lia).
    lia.
Qed.

Lemma normal_in_range : forall m e lo hi,
  2 ^ 52 <= m <= 2 ^ 53 -> lo <= e -> e + 1 <= hi ->
  normal_in lo hi (normal m e).
Proof.
  intros m e lo hi Hm Hlo Hhi. unfold normal.
  destruct (Z.eqb_spec m (2 ^ 53)) as [->|Hne]; cbn [normal_in].
  - split; [vm_compute; split; [discriminate | reflexivity] | lia].
  - rewrite Z2Pos.id by lia. lia.
Qed.

Lemma normal_le : forall m1 e1 m2 e2,
  2 ^ 52 <= m1 <= 2 ^ 53 -> 2 ^ 52 <= m2 <= 2 ^ 53 ->
  scaled_le m1 e1 m2 e2 ->
  positive_le (normal m1 e1) (normal m2 e2).
Proof.
  intros m1 e1 m2 e2 Hm1 Hm2 Hle.
  set (q1 := e1 - Z.min e1 e2 + 1). set (q2 := e2 - Z.min e1 e2 + 1).
  apply (scaled_le_weights m1 e1 m2 e2 q1 q2) in Hle; try (unfold q1, q2; lia).
  assert (Hs1 : 2 ^ (q1 + 1) = 2 * 2 ^ q1)
    by (rewrite Z.pow_add_r by (unfold q1; lia); change (2 ^ 1) with 2; ring).
  assert (Hs2 : 2 ^ (q2 + 1) = 2 * 2 ^ q2)
    by (rewrite Z.pow_add_r by (unfold q2; lia); change (2 ^ 1) with 2; ring).
  unfold normal.
  destruct (Z.eqb_spec m1 (2 ^ 53)) as [->|Hne1];
    destruct (Z.eqb_spec m2 (2 ^ 53)) as [->|Hne2]; cbn [positive_le];
    rewrite ?Z2Pos.id by lia.
  - apply (scaled_le_weights _ _ _ _ (q1 + 1) (q2 + 1));
      try (unfold q1, q2; lia).
    rewrite Hs1, Hs2.
    change (2 ^ 52) with 4503599627370496 in *.
    change (2 ^ 53) with 9007199254740992 in *. lia.
  - apply (scaled_le_weights _ _ _ _ (q1 + 1) q2); try (unfold q1, q2; lia).
    rewrite Hs1.
    change (2 ^ 52) with 4503599627370496 in *.
    change (2 ^ 53) with 9007199254740992 in *. lia.
  - apply (scaled_le_weights _ _ _ _ q1 (q2 + 1)); try (unfold q1, q2; lia).
    rewrite Hs2.
    change (2 ^ 52) with 4503599627370496 in *.
    change (2 ^ 53) with 9007199254740992 in *. lia.
  - apply (scaled_le_weights _ _ _ _ q1 q2); try (unfold q1, q2; lia).
    exact Hle.
Qed.

Lemma Pos_iter_xO : forall n p, Zpos (Pos.iter xO p n) = Zpos p * 2 ^ Zpos n.
Proof.
  induction n as [|n IH] using Pos.peano_ind; intros p.
  - cbn [Pos.iter]. rewrite (Pos2Z.inj_xO p). change (2 ^ 1) with 2. ring.
  - rewrite Pos.iter_succ, (Pos2Z.inj_xO (Pos.iter xO p n)), IH.
    rewrite Pos2Z.inj_succ, Z.pow_succ_r by lia. ring.
Qed.

Lemma located_exact : forall M, located (Zpos M) 1 (shr_record_of_loc (Zpos M) loc_Exact).
Proof.
  intros M. unfold located. cbn [shr_record_of_loc shr_m shr_r shr_s].
  repeat split; try lia; try discriminate.
Qed.

(** The conversion of a positive integer below 2^64. *)
Lemma Number_of_Z_rounds : forall a,
  0 < a < 2 ^ 64 ->
  exists X D e,
    0 < D /\ 2 ^ 52 * D <= X < 2 ^ 53 * D /\ -52 <= e <= 11
    /\ X * 2 ^ (e + 52) = a * 2 ^ 52 * D
    /\ binary_normalize prec emax a 0 false = normal (RNE X D) e.
Proof.
  intros a Ha. destruct a as [|p|p]; try lia.
  cbn [binary_normalize]. unfold binary_round.
  destruct (digits2_pos_bounds p) as [Hlow Hhigh].
  set (d := Zpos (digits2_pos p)) in *.
  assert (Hd : 0 < d <= 64).
  { split; [unfold d; lia|].
    destruct (Z_le_gt_dec d 64) as [|Hgt]; [assumption|exfalso].
    assert (2 ^ 64 <= 2 ^ (d - 1)) by (apply Z.pow_le_mono_r; lia). lia. }
  replace (d + 0) with d by lia. rewrite fexp_normal by lia.
  unfold shl_align. replace (d - 53 - 0) with (d - 53) by lia.
  destruct (Z.lt_trichotomy d 53) as [Hlt | [Heq | Hgt]].
  - (* fewer than 53 bits: the mantissa is shifted left, exactly *)
    assert (Hs : d - 53 = Zneg (Z.to_pos (53 - d)))
      by (rewrite <- Pos2Z.opp_pos, Z2Pos.id; lia).
    rewrite Hs. set (s := Z.to_pos (53 - d)) in *.
    assert (Hsd : Zpos s = 53 - d) by lia.
    set (mz := Pos.iter xO p s).
    assert (Hmz : Zpos mz = Zpos p * 2 ^ Zpos s) by apply Pos_iter_xO.
    assert (Hdz : Zpos (digits2_pos mz) = 53).
    { apply digits2_pos_unique. rewrite Hmz.
      replace 53 with (d + Zpos s) by lia.
      replace (d + Zpos s - 1) with (d - 1 + Zpos s) by lia.
      rewrite !Z.pow_add_r by lia.
      assert (0 < 2 ^ Zpos s) by (apply Z.pow_pos_nonneg; lia).
      split; [apply Z.mul_le_mono_nonneg_r | apply Z.mul_lt_mono_pos_r]; lia. }
    pose proof (binary_round_aux_normal mz (Zneg s) loc_Exact (Zpos mz) 1
                  (located_exact mz)) as Hspec.
    cbv zeta in Hspec. rewrite Hdz in Hspec.
    replace (53 - 53) with 0 in Hspec by lia. change (2 ^ 0) with 1 in Hspec.
    change (1 * 1) with 1 in Hspec.
    destruct Hspec as (Hbin & Hm & ->); try lia.
    exists (Zpos mz), 1, (Zneg s). replace (Zneg s + 0) with (Zneg s) by lia.
    repeat split; try lia.
    rewrite Hmz. replace (Zneg s + 52) with (d - 1) by lia.
    rewrite Z.mul_1_r, <- Z.mul_assoc, <- Z.pow_add_r by lia.
    f_equal. f_equal. lia.
  - (* exactly 53 bits *)
    replace (d - 53) with 0 by lia. cbv iota beta.
    pose proof (binary_round_aux_normal p 0 loc_Exact (Zpos p) 1
                  (located_exact p)) as Hspec.
    cbv zeta in Hspec. fold d in Hspec. rewrite Heq in Hspec.
    replace (53 - 53) with 0 in Hspec by lia. change (2 ^ 0) with 1 in Hspec.
    change (1 * 1) with 1 in Hspec.
    destruct Hspec as (Hbin & Hm & ->); try lia.
    exists (Zpos p), 1, 0. replace (0 + 0) with 0 by lia.
    repeat split; try lia.
  - (* more than 53 bits: the integer is rounded *)
    assert (Hs : d - 53 = Zpos (Z.to_pos (d - 53))) by (rewrite Z2Pos.id; lia).
    rewrite Hs. cbv iota beta.
    pose proof (binary_round_aux_normal p 0 loc_Exact (Zpos p) 1
                  (located_exact p)) as Hspec.
    cbv zeta in Hspec. fold d in Hspec. rewrite Z.mul_1_r in Hspec.
    destruct Hspec as (Hbin & Hm & ->); try lia.
    exists (Zpos p), (2 ^ (d - 53)), (d - 53).
    replace (0 + (d - 53)) with (d - 53) by lia.
    repeat split; try lia; try (apply Z.pow_pos_nonneg; lia).
    rewrite (Z.pow_add_r 2 (d - 53) 52) by lia. ring.
Qed.

Lemma new_location_located : forall X Y,
  0 < Y -> 0 <= X ->
  located X Y (shr_record_of_loc (X / Y) (new_location Y (X mod Y))).
Proof.
  intros X Y HY HX.
  pose proof (Z.div_mod X Y ltac:(lia)) as Hdm.
  pose proof (Z.mod_pos_bound X Y HY) as Hr.
  assert (Hq : 0 <= X / Y) by (apply Z.div_pos; lia).
  set (q := X / Y) in *. set (r := X mod Y) in *. clearbody q r.
  assert (Hfrac : X - q * Y = r) by lia.
  unfold located, new_location, new_location_even, new_location_odd.
  destruct (Z.even Y) eqn:Heven.
  - destruct (Z.eqb_spec r 0) as [Hz|Hnz].
    + cbn [shr_record_of_loc shr_m shr_r shr_s]. rewrite Hfrac.
      repeat split; try lia; try discriminate.
    + destruct (Z.compare_spec (2 * r) Y);
        cbn [shr_record_of_loc shr_m shr_r shr_s]; rewrite Hfrac;
        repeat split; try lia; try discriminate.
  - assert (Hodd : 2 * r <> Y).
    { intros Heq. rewrite <- Heq, Z.even_mul in Heven. discriminate. }
    destruct (Z.eqb_spec r 0) as [Hz|Hnz].
    + cbn [shr_record_of_loc shr_m shr_r shr_s]. rewrite Hfrac.
      repeat split; try lia; try discriminate.
    + destruct (Z.compare_spec (2 * r + 1) Y);
        cbn [shr_record_of_loc shr_m shr_r shr_s]; rewrite Hfrac;
        repeat split; try lia; try discriminate.
Qed.

Lemma digits_53 : forall m, 2 ^ 52 <= Zpos m < 2 ^ 53 -> Zpos (digits2_pos m) = 53.
Proof.
  intros m Hm. apply digits2_pos_unique. change (53 - 1) with 52. exact Hm.
Qed.

(** The quotient of two positive normal numbers. *)
Lemma Number_div_rounds : forall m1 e1 m2 e2,
  2 ^ 52 <= Zpos m1 < 2 ^ 53 -> 2 ^ 52 <= Zpos m2 < 2 ^ 53 ->
  -1000 <= e1 - e2 <= 1000 ->
  exists k,
    0 <= k <= 1
    /\ 2 ^ 52 * (2 ^ k * Zpos m2) <= Zpos m1 * 2 ^ 53
       < 2 ^ 53 * (2 ^ k * Zpos m2)
    /\ SFdiv prec emax (S754_finite false m1 e1) (S754_finite false m2 e2)
       = normal (RNE (Zpos m1 * 2 ^ 53) (2 ^ k * Zpos m2)) (e1 - e2 - 53 + k).
Proof.
  intros m1 e1 m2 e2 Hm1 Hm2 He.
  cbn [SFdiv xorb]. unfold SFdiv_core_binary.
  cbn [Zdigits2]. rewrite (digits_53 _ Hm1), (digits_53 _ Hm2).
  replace (53 + e1 - (53 + e2)) with (e1 - e2) by lia.
  rewrite fexp_normal by lia.
  rewrite Z.min_l by lia.
  replace (e1 - e2 - (e1 - e2 - 53)) with 53 by lia.
  cbv iota beta.
  rewrite Z.shiftl_mul_pow2 by lia.
  set (X := Zpos m1 * 2 ^ 53).
  assert (Heucl : Z.div_eucl X (Zpos m2) = (X / Zpos m2, X mod Zpos m2)).
  { unfold Z.div, Z.modulo. now destruct (Z.div_eucl X (Zpos m2)). }
  rewrite Heucl.
  assert (HX : 0 <= X) by (unfold X; lia).
  pose proof (new_location_located X (Zpos m2) ltac:(lia) HX) as Hloc.
  assert (Hq : 2 ^ 52 <= X / Zpos m2 < 2 ^ 54).
  { change (2 ^ 52) with 4503599627370496 in *.
    change (2 ^ 53) with 9007199254740992 in *.
    change (2 ^ 54) with 18014398509481984.
    split; [apply Z.div_le_lower_bound | apply Z.div_lt_upper_bound];
      unfold X; lia. }
  assert (Hqpos : X / Zpos m2 = Zpos (Z.to_pos (X / Zpos m2)))
    by (rewrite Z2Pos.id; lia).
  rewrite Hqpos in Hloc |- *. set (M := Z.to_pos (X / Zpos m2)) in *.
  rewrite <- Hqpos.
  assert (Hd : Zpos (digits2_pos M) = 53 \/ Zpos (digits2_pos M) = 54).
  { destruct (Z_lt_le_dec (Zpos M) (2 ^ 53)) as [Hlt|Hge].
    - left. apply digits2_pos_unique. change (53 - 1) with 52. lia.
    - right. apply digits2_pos_unique. change (54 - 1) with 53. lia. }
  pose proof (binary_round_aux_normal M (e1 - e2 - 53)
                (new_location (Zpos m2) (X mod Zpos m2)) X (Zpos m2) Hloc)
    as Hspec.
  cbv zeta in Hspec.
  destruct Hspec as (Hbin & Hm & Heq); try lia.
  exists (Zpos (digits2_pos M) - 53).
  split; [lia|]. split; [exact Hbin|].
  rewrite Hqpos. exact Heq.
Qed.

(** The product of two positive normal numbers. *)
Lemma Number_mul_rounds : forall m1 e1 m2 e2,
  2 ^ 52 <= Zpos m1 < 2 ^ 53 -> 2 ^ 52 <= Zpos m2 < 2 ^ 53 ->
  -1000 <= e1 + e2 <= 900 ->
  exists k,
    52 <= k <= 53
    /\ 2 ^ 52 * 2 ^ k <= Zpos m1 * Zpos m2 < 2 ^ 53 * 2 ^ k
    /\ SFmul prec emax (S754_finite false m1 e1) (S754_finite false m2 e2)
       = normal (RNE (Zpos m1 * Zpos m2) (2 ^ k)) (e1 + e2 + k).
Proof.
  intros m1 e1 m2 e2 Hm1 Hm2 He.
  cbn [SFmul xorb].
  assert (Hprod : 2 ^ 104 <= Zpos (m1 * m2) < 2 ^ 106).
  { rewrite Pos2Z.inj_mul.
    change (2 ^ 104) with (2 ^ 52 * 2 ^ 52).
    change (2 ^ 106) with (2 ^ 53 * 2 ^ 53).
    change (2 ^ 52) with 4503599627370496 in *.
    change (2 ^ 53) with 9007199254740992 in *. nia. }
  assert (Hd : Zpos (digits2_pos (m1 * m2)) = 105
               \/ Zpos (digits2_pos (m1 * m2)) = 106).
  { destruct (Z_lt_le_dec (Zpos (m1 * m2)) (2 ^ 105)) as [Hlt|Hge].
    - left. apply digits2_pos_unique. change (105 - 1) with 104. lia.
    - right. apply digits2_pos_unique. change (106 - 1) with 105. lia. }
  pose proof (binary_round_aux_normal (m1 * m2) (e1 + e2) loc_Exact
                (Zpos (m1 * m2)) 1 (located_exact (m1 * m2))) as Hspec.
  cbv zeta in Hspec. rewrite Z.mul_1_r in Hspec.
  destruct Hspec as (Hbin & Hm & Heq); try lia.
  exists (Zpos (digits2_pos (m1 * m2)) - 53).
  rewrite <- Pos2Z.inj_mul.
  split; [lia|]. split; [exact Hbin|]. exact Heq.
Qed.

Lemma half_up_monotone : forall m1 e1 m2 e2,
  e1 < 0 -> e2 < 0 ->
  scaled_le m1 e1 m2 e2 -> half_up m1 e1 <= half_up m2 e2.
Proof.
  intros m1 e1 m2 e2 He1 He2 Hle. unfold scaled_le in Hle. unfold half_up.
  set (K := - Z.min e1 e2).
  assert (Hform : forall m e, e < 0 -> Z.min e1 e2 <= e ->
             (m + 2 ^ (- e - 1)) / 2 ^ (- e)
             = (m * 2 ^ (e - Z.min e1 e2) + 2 ^ (K - 1)) / 2 ^ K).
  { intros m e He Hmin.
    assert (Hj : 0 < 2 ^ (e - Z.min e1 e2)) by (apply Z.pow_pos_nonneg; lia).
    assert (Hk : 0 < 2 ^ (- e)) by (apply Z.pow_pos_nonneg; lia).
    rewrite <- (Z.div_mul_cancel_r (m + 2 ^ (- e - 1)) (2 ^ (- e))
                  (2 ^ (e - Z.min e1 e2))) by lia.
    f_equal.
    - rewrite Z.mul_add_distr_r, <- Z.pow_add_r by lia.
      f_equal. f_equal. unfold K. lia.
    - rewrite <- Z.pow_add_r by lia. f_equal. unfold K. lia. }
  rewrite (Hform m1 e1), (Hform m2 e2) by lia.
  apply Z.div_le_mono; [apply Z.pow_pos_nonneg; unfold K; lia | lia].
Qed.

Lemma Math_round_half_up : forall m e,
  e < 0 ->
  Math_round (S754_finite false m e) = Number_of_Z (half_up (Zpos m) e).
Proof.
  intros m e He. unfold Math_round.
  destruct (Z.leb_spec 0 e) as [Hge|_]; [lia|]. reflexivity.
Qed.

Lemma Number_of_Z_monotone : forall a b,
  0 < a -> a <= b -> b < 2 ^ 64 ->
  positive_le (Number_of_Z a) (Number_of_Z b)
  /\ normal_in (-52) 12 (Number_of_Z a)
  /\ normal_in (-52) 12 (Number_of_Z b).
Proof.
  intros a b Ha Hab Hb. unfold Number_of_Z.
  destruct (Number_of_Z_rounds a ltac:(lia))
    as (X1 & D1 & e1 & HD1 & HX1 & He1 & Hv1 & ->).
  destruct (Number_of_Z_rounds b ltac:(lia))
    as (X2 & D2 & e2 & HD2 & HX2 & He2 & Hv2 & ->).
  assert (Hm1 : 2 ^ 52 <= RNE X1 D1 <= 2 ^ 53).
  { pose proof (RNE_floor X1 D1 HD1).
    assert (2 ^ 52 <= X1 / D1 < 2 ^ 53)
      by (split; [apply Z.div_le_lower_bound | apply Z.div_lt_upper_bound]; lia).
    lia. }
  assert (Hm2 : 2 ^ 52 <= RNE X2 D2 <= 2 ^ 53).
  { pose proof (RNE_floor X2 D2 HD2).
    assert (2 ^ 52 <= X2 / D2 < 2 ^ 53)
      by (split; [apply Z.div_le_lower_bound | apply Z.div_lt_upper_bound]; lia).
    lia. }
  split; [|split; apply normal_in_range; lia].
  apply normal_le; try assumption.
  apply round_binade_monotone; try assumption.
  apply (scaled_le_weights _ _ _ _ (e1 + 52) (e2 + 52)); try lia.
  replace (X1 * D2 * 2 ^ (e1 + 52)) with (a * (2 ^ 52 * D1 * D2))
    by (transitivity (X1 * 2 ^ (e1 + 52) * D2); [rewrite Hv1|]; ring).
  replace (X2 * D1 * 2 ^ (e2 + 52)) with (b * (2 ^ 52 * D1 * D2))
    by (transitivity (X2 * 2 ^ (e2 + 52) * D1); [rewrite Hv2|]; ring).
  apply Z.mul_le_mono_nonneg_r; [|exact Hab].
  change (2 ^ 52) with 4503599627370496. nia.
Qed.

Lemma normal_in_inv : forall lo hi x,
  normal_in lo hi x ->
  exists m e, x = S754_finite false m e
              /\ 2 ^ 52 <= Zpos m < 2 ^ 53 /\ lo <= e <= hi.
Proof.
  intros lo hi [| | |[] m e] H; cbn in H; try contradiction.
  exists m, e. tauto.
Qed.

Lemma RNE_in_binade : forall X D,
  0 < D -> 2 ^ 52 * D <= X < 2 ^ 53 * D -> 2 ^ 52 <= RNE X D <= 2 ^ 53.
Proof.
  intros X D HD HX. pose proof (RNE_floor X D HD).
  assert (2 ^ 52 <= X / D < 2 ^ 53)
    by (split; [apply Z.div_le_lower_bound | apply Z.div_lt_upper_bound]; lia).
  lia.
Qed.

Lemma Number_div_monotone : forall A B T,
  normal_in (-52) 12 A -> normal_in (-52) 12 B -> normal_in (-52) 12 T ->
  positive_le A B ->
  positive_le (Number_div A T) (Number_div B T)
  /\ normal_in (-118) 14 (Number_div A T)
  /\ normal_in (-118) 14 (Number_div B T).
Proof.
  intros A B T HA HB HT Hle.
  destruct (normal_in_inv _ _ _ HA) as (mA & eA & -> & HmA & HeA).
  destruct (normal_in_inv _ _ _ HB) as (mB & eB & -> & HmB & HeB).
  destruct (normal_in_inv _ _ _ HT) as (mT & eT & -> & HmT & HeT).
  cbn [positive_le] in Hle. unfold Number_div.
  destruct (Number_div_rounds mA eA mT eT HmA HmT ltac:(lia))
    as (kA & HkA & HbA & ->).
  destruct (Number_div_rounds mB eB mT eT HmB HmT ltac:(lia))
    as (kB & HkB & HbB & ->).
  assert (HDA : 0 < 2 ^ kA * Zpos mT)
    by (apply Z.mul_pos_pos; [apply Z.pow_pos_nonneg|]; lia).
  assert (HDB : 0 < 2 ^ kB * Zpos mT)
    by (apply Z.mul_pos_pos; [apply Z.pow_pos_nonneg|]; lia).
  pose proof (RNE_in_binade _ _ HDA HbA) as HrA.
  pose proof (RNE_in_binade _ _ HDB HbB) as HrB.
  split; [|split; apply normal_in_range; lia].
  apply normal_le; try assumption.
  apply round_binade_monotone; try assumption.
  set (pA := eA - Z.min eA eB). set (pB := eB - Z.min eA eB).
  apply (scaled_le_weights (Zpos mA) eA (Zpos mB) eB pA pB) in Hle;
    try (unfold pA, pB; lia).
  apply (scaled_le_weights _ _ _ _ (pA + kA) (pB + kB));
    try (unfold pA, pB; lia).
  rewrite !Z.pow_add_r by (unfold pA, pB; lia).
  replace (Zpos mA * 2 ^ 53 * (2 ^ kB * Zpos mT) * (2 ^ pA * 2 ^ kA))
    with (Zpos mA * 2 ^ pA * (2 ^ 53 * Zpos mT * 2 ^ kA * 2 ^ kB)) by ring.
  replace (Zpos mB * 2 ^ 53 * (2 ^ kA * Zpos mT) * (2 ^ pB * 2 ^ kB))
    with (Zpos mB * 2 ^ pB * (2 ^ 53 * Zpos mT * 2 ^ kA * 2 ^ kB)) by ring.
  apply Z.mul_le_mono_nonneg_r; [|exact Hle].
  assert (0 < 2 ^ kA) by (apply Z.pow_pos_nonneg; lia).
  assert (0 < 2 ^ kB) by (apply Z.pow_pos_nonneg; lia).
  change (2 ^ 53) with 9007199254740992. 
  repeat apply Z.mul_nonneg_nonneg; lia.
Qed.

Lemma Number_mul_monotone : forall Q1 Q2 C,
  normal_in (-118) 14 Q1 -> normal_in (-118) 14 Q2 -> normal_in (-52) 12 C ->
  positive_le Q1 Q2 ->
  positive_le (Number_mul Q1 C) (Number_mul Q2 C)
  /\ normal_in (-200) 100 (Number_mul Q1 C)
  /\ normal_in (-200) 100 (Number_mul Q2 C).
Proof.
  intros Q1 Q2 C H1 H2 HC Hle.
  destruct (normal_in_inv _ _ _ H1) as (m1 & e1 & -> & Hm1 & He1).
  destruct (normal_in_inv _ _ _ H2) as (m2 & e2 & -> & Hm2 & He2).
  destruct (normal_in_inv _ _ _ HC) as (mC & eC & -> & HmC & HeC).
  cbn [positive_le] in Hle. unfold Number_mul.
  destruct (Number_mul_rounds m1 e1 mC eC Hm1 HmC ltac:(lia))
    as (k1 & Hk1 & Hb1 & ->).
  destruct (Number_mul_rounds m2 e2 mC eC Hm2 HmC ltac:(lia))
    as (k2 & Hk2 & Hb2 & ->).
  assert (HD1 : 0 < 2 ^ k1) by (apply Z.pow_pos_nonneg; lia).
  assert (HD2 : 0 < 2 ^ k2) by (apply Z.pow_pos_nonneg; lia).
  pose proof (RNE_in_binade _ _ HD1 Hb1) as Hr1.
  pose proof (RNE_in_binade _ _ HD2 Hb2) as Hr2.
  split; [|split; apply normal_in_range; lia].
  apply normal_le; try assumption.
  apply round_binade_monotone; try assumption.
  set (p1 := e1 - Z.min e1 e2). set (p2 := e2 - Z.min e1 e2).
  apply (scaled_le_weights (Zpos m1) e1 (Zpos m2) e2 p1 p2) in Hle;
    try (unfold p1, p2; lia).
  apply (scaled_le_weights _ _ _ _ (p1 + k1) (p2 + k2));
    try (unfold p1, p2; lia).
  rewrite !Z.pow_add_r by (unfold p1, p2; lia).
  replace (Zpos m1 * Zpos mC * 2 ^ k2 * (2 ^ p1 * 2 ^ k1))
    with (Zpos m1 * 2 ^ p1 * (Zpos mC * 2 ^ k1 * 2 ^ k2)) by ring.
  replace (Zpos m2 * Zpos mC * 2 ^ k1 * (2 ^ p2 * 2 ^ k2))
    with (Zpos m2 * 2 ^ p2 * (Zpos mC * 2 ^ k1 * 2 ^ k2)) by ring.
  apply Z.mul_le_mono_nonneg_r; [|exact Hle].
  repeat apply Z.mul_nonneg_nonneg; lia.
Qed.

(** A positive normal number divided by itself is one. *)
Lemma Number_div_self : forall T,
  normal_in (-52) 12 T -> Number_div T T = Number_of_Z 1.
Proof.
  intros T HT.
  destruct (normal_in_inv _ _ _ HT) as (mT & eT & -> & HmT & HeT).
  unfold Number_div.
  destruct (Number_div_rounds mT eT mT eT HmT HmT ltac:(lia))
    as (k & Hk & Hb & ->).
  assert (Hk1 : k = 1).
  { destruct (Z.eq_dec k 0) as [->|]; [|lia].
    change (2 ^ 0) with 1 in Hb. lia. }
  subst k. change (2 ^ 1) with 2.
  assert (Hexact : Zpos mT * 2 ^ 53 = 2 ^ 52 * (2 * Zpos mT))
    by (change (2 ^ 53) with (2 ^ 52 * 2); ring).
  unfold RNE. rewrite Hexact, Z.div_mul, Z.mod_mul by lia.
  replace (eT - eT - 53 + 1) with (-52) by lia.
  destruct (Z.compare_spec (2 * 0) (2 * Zpos mT)); try lia.
  reflexivity.
Qed.

Lemma hundred_is_normal :
  Number_of_Z 100 = S754_finite false 7036874417766400 (-46).
Proof. reflexivity. Qed.

Lemma one_times_hundred :
  Number_mul (Number_of_Z 1) (Number_of_Z 100) = Number_of_Z 100.
Proof. vm_compute. reflexivity. Qed.

Lemma rounds_below_hundred : forall lo hi R,
  normal_in lo hi R -> positive_le R (Number_of_Z 100) ->
  exists p, Math_round R = Number_of_Z p /\ 0 <= p <= 100
            /\ exists m e, R = S754_finite false m e /\ e < 0
                           /\ p = half_up (Zpos m) e.
Proof.
  intros lo hi R HR Hle.
  destruct (normal_in_inv _ _ _ HR) as (m & e & -> & Hm & He).
  rewrite hundred_is_normal in Hle. cbn [positive_le] in Hle.
  assert (Hneg : e <= -46).
  { destruct (Z_le_gt_dec e (-46)) as [|Hgt]; [assumption | exfalso].
    unfold scaled_le in Hle. rewrite Z.min_r in Hle by lia.
    replace (-46 - -46) with 0 in Hle by lia. change (2 ^ 0) with 1 in Hle.
    pose proof (pow2_ge_2 (e - -46) ltac:(lia)) as Hw.
    set (w := 2 ^ (e - -46)) in *. clearbody w.
    change (2 ^ 52) with 4503599627370496 in *.
    assert (Zpos m * 2 <= Zpos m * w) by (apply Z.mul_le_mono_nonneg_l; lia).
    lia. }
  exists (half_up (Zpos m) e).
  split; [apply Math_round_half_up; lia|].
  split.
  - split.
    + unfold half_up. apply Z.div_pos; [|apply Z.pow_pos_nonneg; lia].
      assert (0 < 2 ^ (- e - 1)) by (apply Z.pow_pos_nonneg; lia). lia.
    + change 100 with (half_up 7036874417766400 (-46)).
      apply half_up_monotone; try lia. exact Hle.
  - exists m, e. repeat split. lia.
Qed.

(** The percentages of two byte counts of one upload: integers between 0
    and 100, in the order of the byte counts. *)
Lemma percentage_monotone : forall a b t,
  0 <= a -> a <= b -> b <= t -> 0 < t -> t < 2 ^ 64 ->
  exists pa pb,
    percentage a t = Number_of_Z pa /\ percentage b t = Number_of_Z pb
    /\ 0 <= pa /\ pa <= pb /\ pb <= 100.
Proof.
  intros a b t Ha Hab Hbt Ht Htop.
  assert (Hpositive : forall c, 0 < c -> c <= t ->
            normal_in (-200) 100
              (Number_mul (Number_div (Number_of_Z c) (Number_of_Z t))
                 (Number_of_Z 100))
            /\ positive_le
                 (Number_mul (Number_div (Number_of_Z c) (Number_of_Z t))
                    (Number_of_Z 100))
                 (Number_of_Z 100)).
  { intros c Hc Hct.
    destruct (Number_of_Z_monotone c t Hc Hct Htop) as (HCT & HC & HT).
    destruct (Number_div_monotone _ _ _ HC HT HT HCT) as (Hq & HQc & HQt).
    assert (H100 : normal_in (-52) 12 (Number_of_Z 100))
      by (rewrite hundred_is_normal; cbn; lia).
    destruct (Number_mul_monotone _ _ _ HQc HQt H100 Hq) as (Hr & HRc & _).
    rewrite (Number_div_self _ HT), one_times_hundred in Hr.
    split; assumption. }
  assert (Hzero : percentage 0 t = Number_of_Z 0).
  { unfold percentage.
    destruct (Number_of_Z_monotone t t Ht ltac:(lia) Htop) as (_ & HT & _).
    destruct (normal_in_inv _ _ _ HT) as (mT & eT & -> & _). reflexivity. }
  destruct (Z.eq_dec b 0) as [Hb0 | Hb0].
  - assert (a = 0) by lia. subst a b.
    exists 0, 0. rewrite Hzero. repeat split; lia.
  - destruct (Hpositive b ltac:(lia) Hbt) as (HRb & Hb100).
    destruct (rounds_below_hundred _ _ _ HRb Hb100)
      as (pb & Hpb & Hpb_range & mb & eb & HRb_eq & Heb & Hpb_eq).
    destruct (Z.eq_dec a 0) as [Ha0 | Ha0].
    + subst a. exists 0, pb. rewrite Hzero.
      repeat split; try lia. exact Hpb.
    + destruct (Hpositive a ltac:(lia) ltac:(lia)) as (HRa & Ha100).
      destruct (rounds_below_hundred _ _ _ HRa Ha100)
        as (pa & Hpa & Hpa_range & ma & ea & HRa_eq & Hea & Hpa_eq).
      exists pa, pb. repeat split; try assumption; try lia.
      destruct (Number_of_Z_monotone a b ltac:(lia) Hab ltac:(lia))
        as (HAB & HA & HB).
      destruct (Number_of_Z_monotone t t Ht ltac:(lia) Htop) as (_ & HT & _).
      destruct (Number_div_monotone _ _ _ HA HB HT HAB) as (Hq & HQa & HQb).
      assert (H100 : normal_in (-52) 12 (Number_of_Z 100))
        by (rewrite hundred_is_normal; cbn; lia).
      destruct (Number_mul_monotone _ _ _ HQa HQb H100 Hq) as (Hr & _ & _).
      rewrite HRa_eq, HRb_eq in Hr. cbn [positive_le] in Hr.
      subst pa pb. apply half_up_monotone; assumption.
Qed.

Lemma Number_to_Z_of_Z : forall p,
  0 <= p <= 100 -> Number_to_Z (Number_of_Z p) = p.
Proof.
  intros p Hp.
  assert (Hall : forallb (fun i => Number_to_Z (Number_of_Z (Z.of_nat i))
                                   =? Z.of_nat i) (seq 0 101) = true)
    by (vm_compute; reflexivity).
  rewrite forallb_forall in Hall.
  specialize (Hall (Z.to_nat p)). rewrite Z2Nat.id in Hall by lia.
  apply Z.eqb_eq, Hall, in_seq. lia.
Qed.

Lemma progress_percentage_is_percentage : forall event,
  progress_percentage event
  = percentage (Z.of_N (loaded event)) (Z.of_N (total event)).
Proof. reflexivity. Qed.

Lemma percentages_of_one_upload : forall bytesTotal events,
  (0 < bytesTotal < 2 ^ 64)%N ->
  Forall (fun event => total event = bytesTotal
                       /\ (loaded event <= bytesTotal)%N) events ->
  Sorted (fun earlier later => (loaded earlier <= loaded later)%N) events ->
  let percentages :=
    map (fun event => Number_to_Z (progress_percentage event)) events in
  map progress_percentage events = map Number_of_Z percentages
  /\ Sorted Z.le percentages
  /\ Forall (fun p => 0 <= p <= 100) percentages.
Proof.
  intros bytesTotal events Htotal Hevents Hsorted. cbv zeta.
  assert (Htop : Z.of_N bytesTotal < 2 ^ 64).
  { change (2 ^ 64) with (Z.of_N (2 ^ 64)). apply N2Z.inj_lt. lia. }
  assert (Hone : forall earlier later,
             total earlier = bytesTotal -> total later = bytesTotal ->
             (loaded earlier <= loaded later)%N ->
             (loaded later <= bytesTotal)%N ->
             progress_percentage earlier
             = Number_of_Z (Number_to_Z (progress_percentage earlier))
             /\ 0 <= Number_to_Z (progress_percentage earlier)
                <= Number_to_Z (progress_percentage later)
             /\ Number_to_Z (progress_percentage later) <= 100).
  { intros earlier later Ht1 Ht2 Hle Hlt.
    rewrite !progress_percentage_is_percentage, Ht1, Ht2.
    destruct (percentage_monotone (Z.of_N (loaded earlier))
                (Z.of_N (loaded later)) (Z.of_N bytesTotal))
      as (pa & pb & -> & -> & H0 & Hab & H100); try lia.
    rewrite !Number_to_Z_of_Z by lia. repeat split; lia. }
  induction events as [|event rest IH].
  - repeat split; constructor.
  - destruct (Forall_inv Hevents) as [Ht Hl].
    pose proof (Forall_inv_tail Hevents) as Hrest.
    destruct (Sorted_inv Hsorted) as [Hsorted' Hhd].
    destruct (IH Hrest Hsorted') as (Hmap & Hsort & Hall).
    destruct (Hone event event Ht Ht ltac:(lia) Hl) as (Hint & Hrange & H100).
    cbn [map]. split; [|split].
    + rewrite <- Hint. f_equal. exact Hmap.
    + constructor; [exact Hsort|].
      destruct rest as [|next rest']; cbn [map]; constructor.
      apply HdRel_inv in Hhd.
      destruct (Forall_inv Hrest) as [Ht' Hl'].
      destruct (Hone event next Ht Ht' Hhd Hl') as (_ & Hrange' & _). lia.
    + constructor; [lia | exact Hall].
Qed.

(** What a callback that only records its argument leaves in the log. *)
Lemma observed_progress_run :
  forall (observe : number -> effect) (events : list ProgressEvent) w,
    for_each events
      (fun event =>
         on_progress (Some (fun progress => emit (observe progress))) event ;;
         suspend) w
    = (tt,
       {| ui := ui w;
          log := (log w
                  ++ flat_map
                       (fun event =>
                          (if lengthComputable event
                           then [observe (progress_percentage event)]
                           else [])
                          ++ [commit (ui w)]) events)%list |}).
Proof.
  intros observe.
  induction events as [|event rest IH]; intros [s l].
  - cbn. unfold ret. now rewrite app_nil_r.
  - cbn [for_each flat_map]. unfold bind at 1. unfold bind at 1.
    unfold on_progress.
    destruct (lengthComputable event); unfold emit, ret, suspend;
      cbn [ui log]; rewrite IH; cbn [ui log app];
      now rewrite <- !app_assoc.
Qed.

(** C4, as the code has it: during an upload the progress callback is
    called once for each progress event with a computable length, in
    order, with [Math.round((loaded / total) * 100)] computed on numbers,
    and not at all for the other events.  For the computable events of
    one upload, with one total below 2^64 (the counts are
    [unsigned long long]) and counts that do not decrease and do not
    exceed the total, the values passed are integers between 0 and 100
    that do not decrease. *)
Theorem upload_percentages_are_monotone_and_bounded :
  forall (file : File) (targetLanguage : string)
         (observe : number -> effect) (x : xhr_exchange) (s : State)
         (bytesTotal : N),
    let computable := filter lengthComputable (upload_progress x) in
    let passed := map progress_percentage computable in
    let percentages := map Number_to_Z passed in
    let upload :=
      translateImage file targetLanguage
        (Some (fun progress => emit (observe progress))) x in
    let calls (event : ProgressEvent) :=
      if lengthComputable event
      then [observe
              (Math_round
                 (Number_mul
                    (Number_div (Number_of_N (loaded event))
                       (Number_of_N (total event)))
                    (Number_of_Z 100)))]
      else [] in
    effects_of upload s
    = xhr_send "POST" "http://127.0.0.1:8000/translate-image" 60000
        [("file", form_file file);
         ("target_language", form_string targetLanguage)]
      :: commit s
      :: flat_map (fun event => (calls event ++ [commit s])%list)
           (upload_progress x)
    /\ flat_map calls (upload_progress x) = map observe passed
    /\ ((0 < bytesTotal < 2 ^ 64)%N ->
        Forall (fun event => total event = bytesTotal
                             /\ (loaded event <= bytesTotal)%N) computable ->
        Sorted (fun earlier later => (loaded earlier <= loaded later)%N)
          computable ->
        passed = map Number_of_Z percentages
        /\ Sorted Z.le percentages
        /\ Forall (fun p => 0 <= p <= 100) percentages).
Proof.
  intros file targetLanguage observe x s bytesTotal
         computable passed percentages upload calls.
  split; [|split].
  - unfold upload, effects_of, run, translateImage.
    unfold bind at 1. unfold emit at 1.
    unfold bind at 1. unfold suspend at 1.
    unfold bind at 1. rewrite observed_progress_run. reflexivity.
  - unfold passed, computable, calls.
    induction (upload_progress x) as [|event rest IH]; [reflexivity|].
    cbn [flat_map filter]. rewrite IH.
    destruct (lengthComputable event); reflexivity.
  - intros Htotal Hevents Hsorted.
    pose proof (percentages_of_one_upload bytesTotal computable
                  Htotal Hevents Hsorted) as Hresult.
    cbv zeta in Hresult. unfold percentages, passed.
    rewrite (map_map progress_percentage Number_to_Z). exact Hresult.
Qed.

(* ================================================================== *)
(** ** Submissions: requests, failures and the hooks they leave alone *)

(** A submission that passes validation, started with any log. *)
Lemma handleFileUpload_from : forall file x w,
  startsWith (file_type file) "image/" = true ->
  handleFileUpload file x w
  = (tt,
     {| ui := settled (settle (completion_event x))
                (after_progress_loop (upload_progress x)
                   (submitting (ui w)));
        log := (log w
                ++ submission_request file (ui w)
                :: commit (submitting (ui w))
                :: progress_commits (upload_progress x)
                     (submitting (ui w)))%list |}).
Proof.
  intros file x [s l] Himage. unfold handleFileUpload.
  rewrite Himage. cbn [negb].
  repeat (unfold bind at 1;
          cbn [setUploading setUploadProgress setError
                 setResult modify get_state ui log]).
  rewrite translateImage_run. cbn [ui log].
  unfold settled, submission_request, submitting.
  destruct (settle (completion_event x)) as [response|[name message|v]];
    reflexivity.
Qed.

Lemma requests_app : forall l1 l2,
  requests (l1 ++ l2)%list = (requests l1 ++ requests l2)%list.
Proof. intros l1 l2. apply filter_app. Qed.

Lemma requests_of_submission : forall file s shown events mid,
  requests (submission_request file s :: commit shown
            :: progress_commits events mid)
  = [submission_request file s].
Proof.
  intros file s shown events mid.
  unfold requests. cbn [filter is_request submission_request].
  change (filter is_request ?l) with (requests l).
  now rewrite progress_commits_only_commits.
Qed.

Lemma startsWith_image_subtype : forall subtype,
  startsWith ("image/" ++ subtype) "image/" = true.
Proof. intros [|c rest]; reflexivity. Qed.

Lemma indexOf_image_subtype : forall subtype,
  indexOf ("image/" ++ subtype) "image" = 0.
Proof. reflexivity. Qed.

(** The states on screen between two progress events differ from the
    state the request was sent in by the progress only. *)
Lemma progress_commits_shape : forall events s shown,
  In (commit shown) (progress_commits events s) ->
  shown = s
  \/ exists event, In event events /\ lengthComputable event = true
                   /\ shown = with_uploadProgress (progress_percentage event) s.
Proof.
  induction events as [|event rest IH]; intros s shown Hin; cbn in Hin.
  - contradiction.
  - assert (Hstep : forall shown',
              shown' = after_progress event s
              \/ (exists later, In later rest
                                /\ lengthComputable later = true
                                /\ shown' = with_uploadProgress
                                              (progress_percentage later)
                                              (after_progress event s)) ->
              shown' = s
              \/ exists event', In event' (event :: rest)
                                /\ lengthComputable event' = true
                                /\ shown' = with_uploadProgress
                                              (progress_percentage event') s).
    { intros shown' [-> | (later & Hlater & Hcomputable & ->)];
        unfold after_progress;
        destruct (lengthComputable event) eqn:Hevent.
      - right. exists event. repeat split; [now left | assumption].
      - now left.
      - right. exists later. repeat split; [now right | assumption].
      - right. exists later. repeat split; [now right | assumption]. }
    apply Hstep. destruct Hin as [Heq | Hin].
    + left. now injection Heq as <-.
    + destruct (IH _ _ Hin) as [-> | Hlater]; [now left | now right].
Qed.


(** X1: the health check sends one POST to [/health] and never throws: it
    answers [true] exactly for a response with a status from 200 to 299,
    whatever its body, and [false] when the request fails, which it logs
    to the console; the component state is not touched. *)
Theorem health_check_reports_2xx_and_never_throws :
  forall (x : fetch_exchange) (s : State),
    let check := healthCheck x in
    requests (effects_of check s)
    = [fetch "POST" "http://127.0.0.1:8000/health"]
    /\ state_after check s = s
    /\ match x with
       | fetch_response status body =>
           (exists healthy,
               fst (run check s) = Normal healthy
               /\ (healthy = true <-> (200 <= status <= 299)%N))
           /\ effects_of check s
              = [fetch "POST" "http://127.0.0.1:8000/health"; commit s]
       | fetch_rejected failure =>
           fst (run check s) = Normal false
           /\ effects_of check s
              = [fetch "POST" "http://127.0.0.1:8000/health"; commit s;
                 console_error "Health check failed:" failure]
       end.
Proof.
  intros x s check. unfold check.
  destruct x as [failure|status body]; cbn.
  - repeat split.
  - repeat split. exists (response_ok status). split; [reflexivity|].
    unfold response_ok. rewrite andb_true_iff, N.leb_le, N.leb_le. tauto.
Qed.

(** X2: a file whose type is [image/] followed by any subtype, taken
    from the file picker, dropped, or pasted as the first clipboard item
    with an image type, causes exactly one request, whatever state the
    component is in (also while another upload is running) and however the
    request ends: a POST to [/translate-image] with a 60000 ms timeout
    that carries the file and the language selected at that moment. *)
Theorem image_file_sends_exactly_one_request :
  forall (file : File) (others : list File) (subtype : string)
         (before after : list DataTransferItem) (item : DataTransferItem)
         (x : xhr_exchange) (s : State),
    file_type file = "image/" ++ subtype ->
    item_type item = file_type file ->
    getAsFile item = Some file ->
    forallb (fun i => negb (image_typed i)) before = true ->
    let request :=
      xhr_send "POST" "http://127.0.0.1:8000/translate-image" 60000
        [("file", form_file file);
         ("target_language", form_string (selectedLanguage s))] in
    requests (effects_of
                (handleFileInputChange
                   {| target_files := Some (file :: others) |} x) s)
    = [request]
    /\ requests (effects_of
                   (handleDrop {| drag_type := "drop";
                                  dataTransfer_files := file :: others |} x) s)
       = [request]
    /\ requests (effects_of
                   (handlePaste
                      {| clipboardData_items :=
                           Some (before ++ item :: after)%list |} x) s)
       = [request].
Proof.
  intros file others subtype before after item x s Htype Hitem Hfile Hnone
         request.
  assert (Himage : startsWith (file_type file) "image/" = true)
    by (rewrite Htype; apply startsWith_image_subtype).
  assert (Hitem_image : image_typed item = true).
  { unfold image_typed. now rewrite Hitem, Htype, indexOf_image_subtype. }
  split; [|split].
  - unfold effects_of, handleFileInputChange. cbn [target_files].
    rewrite (handleFileUpload_valid _ _ _ Himage). cbn [snd log].
    apply requests_of_submission.
  - unfold effects_of, run, handleDrop. cbn [dataTransfer_files].
    rewrite Himage.
    unfold bind at 1. unfold emit at 1. cbn [ui log].
    unfold bind at 1. unfold emit at 1. cbn [ui log].
    unfold bind at 1. unfold setDragActive, modify. cbn [ui log].
    rewrite (handleFileUpload_from _ _ _ Himage). cbn [snd ui log].
    rewrite requests_app, requests_of_submission. reflexivity.
  - unfold effects_of, run, handlePaste. cbn [clipboardData_items].
    rewrite (handlePaste_items_first_image _ _ _ _ Hnone Hitem_image).
    rewrite Hfile. unfold bind, emit. cbn [ui log].
    rewrite (handleFileUpload_from _ _ _ Himage). cbn [snd ui log].
    rewrite requests_app, requests_of_submission. reflexivity.
Qed.

(** X3: when the request of a validated submission ends with a network
    error the component shows "Network error occurred", and when it runs
    into the 60 s timeout it shows "Request timeout"; in both cases there
    is no result, the spinner is off, and the one request is not
    repeated. *)
Theorem network_error_and_timeout_are_reported :
  forall (file : File) (x : xhr_exchange) (s : State),
    startsWith (file_type file) "image/" = true ->
    let final := state_after (handleFileUpload file x) s in
    (completion_event x = xhr_error ->
     error_shown final = Some "Network error occurred")
    /\ (completion_event x = xhr_timeout ->
        error_shown final = Some "Request timeout")
    /\ (completion_event x = xhr_error \/ completion_event x = xhr_timeout ->
        result final = VNull /\ uploading final = false
        /\ requests (effects_of (handleFileUpload file x) s)
           = [submission_request file s]).
Proof.
  intros file x s Himage final. unfold final, state_after, effects_of.
  rewrite (handleFileUpload_valid _ _ _ Himage). cbn [snd ui log].
  destruct (after_progress_loop_fields (upload_progress x) (submitting s))
    as (_ & _ & _ & _ & Hresult & _).
  split; [|split].
  - intros ->. reflexivity.
  - intros ->. reflexivity.
  - intros Hends. rewrite requests_of_submission.
    destruct Hends as [-> | ->]; cbn; repeat split; exact Hresult.
Qed.

(** X4: a submission changes the spinner, the progress, the error and
    the result only.  For a file that passes validation, every state on
    screen while the request is pending has the spinner on, and the drag
    highlight, the selected language, the catalog and the "copied"
    indicator are those of before, on screen and at the end; a file that
    fails validation changes nothing but the error. *)
Theorem submission_leaves_other_hooks_alone :
  forall (file : File) (x : xhr_exchange) (s : State),
    let submission := handleFileUpload file x in
    let untouched (s' : State) :=
      dragActive s' = dragActive s
      /\ selectedLanguage s' = selectedLanguage s
      /\ languages s' = languages s /\ copied s' = copied s in
    untouched (state_after submission s)
    /\ (forall shown, In shown (commits (effects_of submission s)) ->
                      uploading shown = true /\ untouched shown)
    /\ (startsWith (file_type file) "image/" = false ->
        state_after submission s
        = with_error (Some "Please select an image file") s).
Proof.
  intros file x s submission untouched.
  unfold submission, untouched, state_after, effects_of.
  destruct (startsWith (file_type file) "image/") eqn:Htype.
  - rewrite (handleFileUpload_valid _ _ _ Htype). cbn [snd ui log].
    split; [|split].
    + destruct (after_progress_loop_fields (upload_progress x)
                  (submitting s)) as (H1 & _ & H3 & H4 & _ & _ & H7).
      unfold settled.
      destruct (settle (completion_event x)) as [response|[name message|v]];
        cbn; repeat split; assumption.
    + intros shown Hin. apply In_commits in Hin.
      destruct Hin as [Hin | [Hin | Hin]]; [discriminate | |].
      * injection Hin as <-. repeat split.
      * apply progress_commits_shape in Hin.
        destruct Hin as [-> | (event & _ & _ & ->)]; repeat split.
    + discriminate.
  - rewrite (handleFileUpload_invalid _ _ _ Htype). cbn [snd ui log].
    split; [repeat split | split; [intros shown [] | reflexivity]].
Qed.

(** X5: a failure response whose [detail] is truthy and prints as the
    empty string (an empty array, for one) makes the submission fail with
    an empty message: the spinner stops and the component shows neither
    an error nor a result. *)
Theorem failure_with_empty_message_shows_nothing :
  forall (file : File) (x : xhr_exchange) (s : State)
         (status : N) (statusText responseText : string)
         (errorResponse : value),
    startsWith (file_type file) "image/" = true ->
    completion_event x = xhr_load status statusText responseText ->
    ~ (200 <= status < 300)%N ->
    JSON_parse host responseText = Normal errorResponse ->
    errorResponse <> VNull -> errorResponse <> VUndefined ->
    ToBoolean (property errorResponse "detail") = true ->
    ToString (property errorResponse "detail") = Normal "" ->
    let final := state_after (handleFileUpload file x) s in
    settle (completion_event x) = Throw (ErrorObject "Error" "")
    /\ error final = Some ""
    /\ error_shown final = None
    /\ result_shown final = false
    /\ uploading final = false.
Proof.
  intros file x s status statusText responseText errorResponse
         Himage Hload Hout Hparse Hnull Hundefined Htruthy Hempty final.
  assert (Hsettle : settle (completion_event x)
                    = Throw (ErrorObject "Error" "")).
  { rewrite Hload. cbn [settle]. rewrite (on_load_failure _ _ _ Hout), Hparse.
    unfold logical_or. rewrite Htruthy, Hempty.
    destruct errorResponse; try contradiction; reflexivity. }
  unfold final, state_after.
  rewrite (handleFileUpload_valid _ _ _ Himage), Hsettle. cbn [snd ui].
  destruct (after_progress_loop_fields (upload_progress x) (submitting s))
    as (_ & _ & _ & _ & Hresult & _).
  unfold result_shown, error_shown, settled. cbn.
  rewrite Hresult. repeat split.
Qed.

(** X6: a response with a status in [200,300) whose body parses to a
    falsy value ([null], [false], [0] or an empty string) ends the
    submission without a failure: that value is the result, and the
    component shows neither a result card nor an error. *)
Theorem success_with_falsy_body_shows_nothing :
  forall (file : File) (x : xhr_exchange) (s : State)
         (status : N) (statusText responseText : string) (response : value),
    startsWith (file_type file) "image/" = true ->
    completion_event x = xhr_load status statusText responseText ->
    (200 <= status < 300)%N ->
    JSON_parse host responseText = Normal response ->
    ToBoolean response = false ->
    let final := state_after (handleFileUpload file x) s in
    result final = response
    /\ result_shown final = false
    /\ error_shown final = None
    /\ uploading final = false.
Proof.
  intros file x s status statusText responseText response
         Himage Hload Hrange Hparse Hfalsy final.
  unfold final, state_after.
  rewrite (handleFileUpload_valid _ _ _ Himage), Hload. cbn [snd ui settle].
  unfold on_load.
  rewrite (status_in_range _ Hrange), (JSON_parse_Normal _ _ Hparse).
  destruct (after_progress_loop_fields (upload_progress x) (submitting s))
    as (_ & _ & _ & _ & _ & Herror & _).
  unfold result_shown, error_shown, settled. cbn.
  rewrite Herror, Hfalsy. repeat split.
Qed.

(** X7: for an upload of a known size below 2^64 bytes, the percentage
    computed for no byte sent is exactly 0 and the percentage computed for
    all bytes sent is exactly 100. *)
Theorem percentage_is_0_for_nothing_and_100_for_everything :
  forall (bytesTotal : N) (computable : bool),
    (0 < bytesTotal < 2 ^ 64)%N ->
    progress_percentage {| lengthComputable := computable;
                           loaded := 0; total := bytesTotal |}
    = Number_of_Z 0
    /\ progress_percentage {| lengthComputable := computable;
                              loaded := bytesTotal; total := bytesTotal |}
       = Number_of_Z 100.
Proof.
  intros bytesTotal computable Htotal.
  assert (Htop : Z.of_N bytesTotal < 2 ^ 64).
  { change (2 ^ 64) with (Z.of_N (2 ^ 64)). apply N2Z.inj_lt. lia. }
  destruct (Number_of_Z_monotone (Z.of_N bytesTotal) (Z.of_N bytesTotal)
              ltac:(lia) ltac:(lia) Htop) as (_ & HT & _).
  rewrite !progress_percentage_is_percentage. cbn [loaded total].
  unfold percentage. split.
  - destruct (normal_in_inv _ _ _ HT) as (mT & eT & -> & _). reflexivity.
  - rewrite (Number_div_self _ HT), one_times_hundred. reflexivity.
Qed.

Lemma commits_of_progress : forall events s,
  List.length (commits (progress_commits events s)) = List.length events.
Proof.
  induction events as [|event rest IH]; intros s; cbn; [reflexivity|].
  now rewrite IH.
Qed.

Lemma progress_commits_computable : forall events s,
  forallb lengthComputable events = true ->
  map uploadProgress (commits (progress_commits events s))
  = map progress_percentage events.
Proof.
  induction events as [|event rest IH]; intros s Hall; cbn; [reflexivity|].
  cbn [forallb] in Hall. apply andb_true_iff in Hall.
  destruct Hall as [Hevent Hrest].
  rewrite (IH _ Hrest). unfold after_progress. now rewrite Hevent.
Qed.

(** X8: while the request of a validated submission is pending, the
    component is on screen once when the request is sent and once after
    each progress event.  The progress it shows is 0 or the percentage
    computed for one of the events with a computable length; when every
    event has a computable length, the progress shown is 0 and then, event
    by event, the percentage of that event. *)
Theorem progress_on_screen_follows_the_events :
  forall (file : File) (x : xhr_exchange) (s : State),
    startsWith (file_type file) "image/" = true ->
    let shown :=
      map uploadProgress (commits (effects_of (handleFileUpload file x) s)) in
    List.length shown = S (List.length (upload_progress x))
    /\ Forall (fun p =>
                 p = Number_of_Z 0
                 \/ exists event, In event (upload_progress x)
                                  /\ lengthComputable event = true
                                  /\ p = progress_percentage event) shown
    /\ (forallb lengthComputable (upload_progress x) = true ->
        shown = Number_of_Z 0 :: map progress_percentage (upload_progress x)).
Proof.
  intros file x s Himage shown. unfold shown, effects_of.
  rewrite (handleFileUpload_valid _ _ _ Himage). cbn [snd log].
  cbn [commits submission_request map]. split; [|split].
  - cbn [List.length]. now rewrite length_map, commits_of_progress.
  - constructor; [now left|].
    apply Forall_forall. intros p Hin. apply in_map_iff in Hin.
    destruct Hin as (state & <- & Hin). apply In_commits in Hin.
    apply progress_commits_shape in Hin.
    destruct Hin as [-> | (event & Hevent & Hcomputable & ->)].
    + now left.
    + right. now exists event.
  - intros Hall. now rewrite (progress_commits_computable _ _ Hall).
Qed.



(* ================================================================== *)
(** ** Dragging, copying and the catalog *)

(** X10: a drop always prevents the default action, stops the
    propagation and clears the drag highlight, whatever is dropped: the
    highlight is off in every state on screen while a dropped image is
    being submitted, and at the end.  A drop without files does nothing
    else. *)
Theorem drop_always_clears_the_drag_highlight :
  forall (e : DragEvent) (x : xhr_exchange) (s : State),
    let drop := handleDrop e x in
    dragActive (state_after drop s) = false
    /\ (forall shown, In shown (commits (effects_of drop s)) ->
                      dragActive shown = false)
    /\ (exists later,
           effects_of drop s = preventDefault :: stopPropagation :: later)
    /\ (dataTransfer_files e = [] ->
        run drop s = (tt, {| ui := with_dragActive false s;
                             log := [preventDefault; stopPropagation] |})).
Proof.
  intros e x s drop.
  set (off := with_dragActive false s).
  assert (Hrun :
    run drop s
    = match dataTransfer_files e with
      | [] => (tt, {| ui := off; log := [preventDefault; stopPropagation] |})
      | file :: _ =>
          if startsWith (file_type file) "image/" then
            (tt,
             {| ui := settled (settle (completion_event x))
                        (after_progress_loop (upload_progress x)
                           (submitting off));
                log := preventDefault :: stopPropagation
                       :: submission_request file off
                       :: commit (submitting off)
                       :: progress_commits (upload_progress x)
                            (submitting off) |})
          else
            (tt, {| ui := with_error (Some "Please upload an image file") off;
                    log := [preventDefault; stopPropagation] |})
      end).
  { unfold drop, run, handleDrop, bind, emit, setDragActive, modify.
    cbn [ui log app].
    destruct (dataTransfer_files e) as [|file others]; [reflexivity|].
    destruct (startsWith (file_type file) "image/") eqn:Htype;
      [|reflexivity].
    now rewrite (handleFileUpload_from _ _ _ Htype). }
  unfold state_after, effects_of. rewrite Hrun.
  destruct (dataTransfer_files e) as [|file others].
  - cbn. repeat split; [intros shown [] | eexists; reflexivity].
  - destruct (startsWith (file_type file) "image/") eqn:Htype.
    + cbn [snd ui log]. split; [|split; [|split]].
      * destruct (after_progress_loop_fields (upload_progress x)
                    (submitting off)) as (H1 & _).
        unfold settled.
        destruct (settle (completion_event x))
          as [response|[name message|v]]; exact H1.
      * intros shown Hin. apply In_commits in Hin. cbn [In] in Hin.
        destruct Hin as [Hin | [Hin | [Hin | [Hin | Hin]]]];
          try discriminate.
        -- now injection Hin as <-.
        -- apply progress_commits_shape in Hin.
           destruct Hin as [-> | (event & _ & _ & ->)]; reflexivity.
      * eexists; reflexivity.
      * discriminate.
    + cbn. repeat split; [intros shown [] | eexists; reflexivity
                          | discriminate].
Qed.

(** X11: a drag that enters (or moves over) the drop zone turns the
    highlight on, and one that leaves turns it off, so that entering and
    leaving brings the component back to the state it had without
    highlight; an event of another type changes nothing.  Each of them
    prevents the default action and stops the propagation, and nothing
    else. *)
Theorem drag_enter_then_leave_restores_the_state :
  forall (enter leave other : DragEvent) (s : State),
    drag_type enter = "dragenter" \/ drag_type enter = "dragover" ->
    drag_type leave = "dragleave" ->
    drag_type other <> "dragenter" -> drag_type other <> "dragover" ->
    drag_type other <> "dragleave" ->
    state_after (handleDrag enter) s = with_dragActive true s
    /\ state_after (handleDrag leave) s = with_dragActive false s
    /\ state_after (handleDrag other) s = s
    /\ (dragActive s = false ->
        state_after (handleDrag leave) (state_after (handleDrag enter) s) = s)
    /\ Forall (fun e => effects_of (handleDrag e) s
                        = [preventDefault; stopPropagation])
         [enter; leave; other].
Proof.
  intros enter leave other s Henter Hleave Hother1 Hother2 Hother3.
  assert (Hon : String.eqb (drag_type enter) "dragenter"
                || String.eqb (drag_type enter) "dragover" = true)
    by (destruct Henter as [-> | ->]; reflexivity).
  apply String.eqb_neq in Hother1, Hother2, Hother3.
  unfold state_after, effects_of, run, handleDrag, bind, emit.
  cbn [ui log app]. rewrite Hon, Hleave, Hother1, Hother2, Hother3.
  cbn. repeat split.
  - intros Hoff. destruct s. cbn in Hoff. now subst.
  - repeat constructor;
      [rewrite Hon | rewrite Hleave | rewrite Hother1, Hother2, Hother3];
      reflexivity.
Qed.

Lemma truthy_Get : forall v key,
  ToBoolean v = true ->
  optional_Get v key = property v key /\ Get v key = Normal (property v key).
Proof.
  intros v key Htruthy. destruct v; cbn in Htruthy; try discriminate;
    split; reflexivity.
Qed.

Lemma optional_Get_truthy : forall v key,
  ToBoolean (optional_Get v key) = true ->
  optional_Get v key = property v key /\ Get v key = Normal (property v key).
Proof.
  intros v key Htruthy. destruct v; cbn in Htruthy; try discriminate;
    split; reflexivity.
Qed.

Lemma string_property_is_truthy : forall v text,
  property (property v "data") "translated_text" = VString text ->
  text <> "" ->
  ToBoolean (optional_Get (optional_Get v "data") "translated_text") = true.
Proof.
  intros v text Htext Hne.
  assert (Hdata : optional_Get v "data" = property v "data")
    by (destruct v; cbn in Htext; try discriminate; reflexivity).
  rewrite Hdata.
  remember (property v "data") as data eqn:Hinner.
  destruct data; cbn in Htext; try discriminate.
  cbn [optional_Get property]. rewrite Htext. cbn.
  destruct (String.eqb_spec text ""); [contradiction | reflexivity].
Qed.

Lemma handleCopyText_without_text : forall written s,
  ToBoolean (optional_Get (optional_Get (result s) "data") "translated_text")
  = false ->
  run (handleCopyText written) s = (tt, {| ui := s; log := [] |}).
Proof.
  intros written s Hfalsy.
  unfold run, handleCopyText, bind, get_state. cbn [ui log].
  now rewrite Hfalsy.
Qed.

Lemma handleCopyText_with_text : forall written s,
  ToBoolean (optional_Get (optional_Get (result s) "data") "translated_text")
  = true ->
  match
    ToString (property (property (result s) "data") "translated_text")
  with
  | Normal data =>
      exists later,
        effects_of (handleCopyText written) s
        = clipboard_writeText data :: later
  | Throw failure =>
      run (handleCopyText written) s
      = (tt, {| ui := s;
                log := [commit s;
                        console_error "Failed to copy text:" failure] |})
  end.
Proof.
  intros written s Htruthy.
  unfold effects_of, run, handleCopyText, bind, get_state. cbn [ui log].
  rewrite Htruthy.
  destruct (optional_Get_truthy _ _ Htruthy) as [_ Hinner].
  assert (Houter : Get (result s) "data"
                   = Normal (property (result s) "data")
                   /\ optional_Get (result s) "data"
                      = property (result s) "data").
  { destruct (result s); cbn in Htruthy; try discriminate;
      split; reflexivity. }
  destruct Houter as [Houter Hdata]. rewrite Hdata in Hinner.
  rewrite Houter. cbn [bind_completion]. rewrite Hinner.
  destruct (ToString (property (property (result s) "data")
                        "translated_text")) as [data|failure].
  - destruct written; cbn; eauto.
  - reflexivity.
Qed.

(** X12: the copy button is disabled exactly when the copy action would
    do nothing.  Without a result card (a falsy result) the action does
    nothing; with one, a disabled button means no clipboard write, no
    timer, no console output and no state change.  With an enabled
    button the action converts [result.data.translated_text] to a string
    and starts by writing that string to the clipboard; when the
    conversion throws (an object with an own [toString] property), it
    writes nothing, logs the failure and leaves the state as it is. *)
Theorem copy_button_is_disabled_exactly_when_copy_does_nothing :
  forall (s : State) (written : completion unit),
    let copy := handleCopyText written in
    let nothing := run copy s = (tt, {| ui := s; log := [] |}) in
    (ToBoolean (result s) = false -> nothing)
    /\ (ToBoolean (result s) = true ->
        (copy_button_disabled s = true <-> nothing)
        /\ (copy_button_disabled s = false ->
            match
              ToString (property (property (result s) "data")
                          "translated_text")
            with
            | Normal data =>
                exists later,
                  effects_of copy s = clipboard_writeText data :: later
            | Throw failure =>
                run copy s
                = (tt, {| ui := s;
                          log := [commit s;
                                  console_error "Failed to copy text:"
                                    failure] |})
            end)).
Proof.
  intros s written copy nothing. unfold nothing, copy. split.
  - intros Hfalsy. apply handleCopyText_without_text.
    destruct (result s) as [| |b|n|text|items|fields];
      cbn in Hfalsy; try discriminate; reflexivity.
  - intros Htruthy. unfold copy_button_disabled.
    destruct (truthy_Get _ "data" Htruthy) as [Hdata _].
    destruct (ToBoolean (optional_Get (property (result s) "data")
                           "translated_text")) eqn:Htext; cbn [negb];
      rewrite <- Hdata in Htext.
    + pose proof (handleCopyText_with_text written s Htext) as Hcopy.
      split; [|intros _; exact Hcopy].
      split; [discriminate|]. intros Hnothing.
      destruct (ToString (property (property (result s) "data")
                            "translated_text")) as [data|failure].
      * destruct Hcopy as [later Hlater].
        unfold effects_of in Hlater. rewrite Hnothing in Hlater.
        discriminate.
      * rewrite Hnothing in Hcopy. discriminate.
    + split; [|discriminate]. split; [|reflexivity].
      intros _. now apply handleCopyText_without_text.
Qed.

(** X13: after a validated submission that failed, the copy action does
    nothing; after one that succeeded with a body whose
    [data.translated_text] is a non-empty string, the copy action writes
    exactly that string to the clipboard. *)
Theorem copy_after_a_submission :
  forall (file : File) (x : xhr_exchange) (s : State)
         (written : completion unit),
    startsWith (file_type file) "image/" = true ->
    let final := state_after (handleFileUpload file x) s in
    match settle (completion_event x) with
    | Throw _ =>
        run (handleCopyText written) final = (tt, {| ui := final; log := [] |})
    | Normal response =>
        forall text,
          property (property response "data") "translated_text"
          = VString text ->
          text <> "" ->
          exists later,
            effects_of (handleCopyText written) final
            = clipboard_writeText text :: later
    end.
Proof.
  intros file x s written Himage final.
  assert (Hresult : result final
                    = match settle (completion_event x) with
                      | Normal response => response
                      | Throw _ => VNull
                      end).
  { unfold final, state_after.
    rewrite (handleFileUpload_valid _ _ _ Himage). cbn [snd ui].
    destruct (after_progress_loop_fields (upload_progress x) (submitting s))
      as (_ & _ & _ & _ & H5 & _).
    unfold settled.
    destruct (settle (completion_event x)) as [response|[name message|v]];
      cbn; try exact H5; reflexivity. }
  destruct (settle (completion_event x)) as [response|failure].
  - intros text Htext Hne.
    assert (Htruthy : ToBoolean
                        (optional_Get (optional_Get (result final) "data")
                           "translated_text") = true).
    { rewrite Hresult. now apply string_property_is_truthy with text. }
    pose proof (handleCopyText_with_text written final Htruthy) as Hcopy.
    rewrite Hresult, Htext in Hcopy. exact Hcopy.
  - apply handleCopyText_without_text. now rewrite Hresult.
Qed.

(** X14: loading the catalog sends one GET to [/languages] and changes
    the catalog only.  When the fetch succeeds, the catalog becomes the
    [languages] property of the parsed body as it is, whatever that value
    is, and nothing is logged; otherwise it becomes the fallback
    catalog. *)
Theorem catalog_load_changes_the_catalog_only :
  forall (x : fetch_exchange) (s : State),
    let load := loadLanguages x in
    let outcome := fst (run (getLanguages x) s) in
    requests (effects_of load s)
    = [fetch "GET" "http://127.0.0.1:8000/languages"]
    /\ state_after load s
       = with_languages match outcome with
                        | Normal langs => langs
                        | Throw _ => fallback_languages
                        end s
    /\ (forall langs, outcome = Normal langs ->
           effects_of load s
           = [fetch "GET" "http://127.0.0.1:8000/languages"; commit s])
    /\ (forall status body data,
           x = fetch_response status body -> response_ok status = true ->
           JSON_parse host body = Normal data ->
           data <> VNull -> data <> VUndefined ->
           outcome = Normal (property data "languages")
           /\ languages (state_after load s) = property data "languages").
Proof.
  intros x s load outcome.
  assert (Hout : outcome = catalog_response x)
    by (unfold outcome, run; now rewrite getLanguages_run).
  assert (Hrun : run load s
                 = (tt,
                    {| ui := with_languages
                               match catalog_response x with
                               | Normal langs => langs
                               | Throw _ => fallback_languages
                               end s;
                       log := fetch "GET" "http://127.0.0.1:8000/languages"
                              :: commit s
                              :: match catalog_response x with
                                 | Normal _ => []
                                 | Throw e =>
                                     [console_error
                                        "Error fetching languages:" e;
                                      console_error
                                        "Failed to load languages:" e]
                                 end |})).
  { unfold load, loadLanguages, run, bind. rewrite getLanguages_run.
    cbn [ui log app]. destruct (catalog_response x); reflexivity. }
  assert (Hdata : forall status body data,
             x = fetch_response status body -> response_ok status = true ->
             JSON_parse host body = Normal data ->
             data <> VNull -> data <> VUndefined ->
             catalog_response x = Normal (property data "languages")).
  { intros status body data -> Hok Hparse Hnull Hundefined. cbn.
    rewrite Hok, Hparse. destruct data; try contradiction; reflexivity. }
  unfold state_after, effects_of. rewrite Hrun, Hout. cbn [snd ui log].
  split; [|split; [|split]].
  - destruct (catalog_response x); reflexivity.
  - reflexivity.
  - intros langs ->. reflexivity.
  - intros status body data Hx Hok Hparse Hnull Hundefined.
    rewrite (Hdata _ _ _ Hx Hok Hparse Hnull Hundefined).
    split; reflexivity.
Qed.

Lemma silent_progress_run : forall (events : list ProgressEvent) w,
  for_each events (fun event => on_progress None event ;; suspend) w
  = (tt, {| ui := ui w;
            log := (log w ++ map (fun _ => commit (ui w)) events)%list |}).
Proof.
  induction events as [|event rest IH]; intros [s l]; cbn.
  - unfold ret. now rewrite app_nil_r.
  - etransitivity; [apply IH|]. cbn [ui log]. now rewrite <- app_assoc.
Qed.

(** X15: how [translateImage] settles depends on the event that ends
    the request only, not on the progress events nor on what the progress
    callback does; called without a callback it sends its one request and
    leaves the state of the caller untouched. *)
Theorem translateImage_outcome_ignores_progress :
  forall (file : File) (targetLanguage : string)
         (onProgress : option (number -> UI unit)) (x : xhr_exchange)
         (s : State),
    fst (run (translateImage file targetLanguage onProgress x) s)
    = settle (completion_event x)
    /\ state_after (translateImage file targetLanguage None x) s = s
    /\ effects_of (translateImage file targetLanguage None x) s
       = xhr_send "POST" "http://127.0.0.1:8000/translate-image" 60000
           [("file", form_file file);
            ("target_language", form_string targetLanguage)]
         :: commit s :: map (fun _ => commit s) (upload_progress x).
Proof.
  intros file targetLanguage onProgress x s. split.
  - unfold run, translateImage, bind, emit, suspend. cbn [ui log].
    destruct (for_each (upload_progress x) _ _) as [u w]. reflexivity.
  - assert (Hsilent :
      run (translateImage file targetLanguage None x) s
      = (settle (completion_event x),
         {| ui := s;
            log := xhr_send "POST" "http://127.0.0.1:8000/translate-image"
                     60000
                     [("file", form_file file);
                      ("target_language", form_string targetLanguage)]
                   :: commit s
                   :: map (fun _ => commit s) (upload_progress x) |})).
    { unfold run, translateImage.
      unfold bind at 1. unfold emit at 1.
      unfold bind at 1. unfold suspend at 1.
      unfold bind at 1. rewrite silent_progress_run. reflexivity. }
    unfold state_after, effects_of. rewrite Hsilent. split; reflexivity.
Qed.

(** X16: [translateImage] rejects with [Error] objects only, whatever
    the network does, so the handler always shows the message of the
    rejection: its alternative for a thrown value that is not an [Error]
    ("Upload failed") is never taken. *)
Theorem rejections_are_errors_with_a_message :
  forall (file : File) (x : xhr_exchange) (s : State) (failure : exn),
    startsWith (file_type file) "image/" = true ->
    fst (run (translateImage file (selectedLanguage s)
                (Some (fun progress => setUploadProgress progress)) x) s)
    = Throw failure ->
    exists message,
      failure = ErrorObject "Error" message
      /\ error (state_after (handleFileUpload file x) s) = Some message.
Proof.
  intros file x s failure Himage Hfails.
  unfold run in Hfails. rewrite translateImage_run in Hfails.
  cbn [fst] in Hfails.
  destruct (settle_throws_errors _ _ Hfails) as [message ->].
  exists message. split; [reflexivity|].
  unfold state_after. rewrite (handleFileUpload_valid _ _ _ Himage), Hfails.
  reflexivity.
Qed.

(* ================================================================== *)
(** ** The progress bar during one upload *)

Lemma shown_progress_is_monotone : forall bytesTotal events s0 p0,
  (0 < bytesTotal < 2 ^ 64)%N ->
  uploadProgress s0 = Number_of_Z p0 -> p0 <= 100 ->
  Forall (fun event => total event = bytesTotal
                       /\ (loaded event <= bytesTotal)%N
                       /\ p0 <= Number_to_Z (progress_percentage event))
    (filter lengthComputable events) ->
  Sorted (fun earlier later => (loaded earlier <= loaded later)%N)
    (filter lengthComputable events) ->
  exists values,
    map uploadProgress (commits (progress_commits events s0))
    = map Number_of_Z values
    /\ Sorted Z.le (p0 :: values)
    /\ Forall (fun p => p0 <= p <= 100) values.
Proof.
  intros bytesTotal events s0 p0 Htotal.
  revert s0 p0.
  induction events as [|event rest IH]; intros s0 p0 Hshown Hp0 Hall Hsorted.
  - exists []. repeat split; repeat constructor.
  - cbn [progress_commits commits map]. cbn [filter] in Hall, Hsorted.
    unfold after_progress.
    destruct (lengthComputable event) eqn:Hcomputable.
    + destruct (Forall_inv Hall) as (Ht & Hl & Hfirst).
      pose proof (Forall_inv_tail Hall) as Hrest.
      destruct (Sorted_inv Hsorted) as [Hsorted' _].
      assert (Hlater : Forall (fun later => (loaded event <= loaded later)%N)
                         (filter lengthComputable rest)).
      { apply (Sorted_extends (R := fun earlier later =>
                                      (loaded earlier <= loaded later)%N));
          [|exact Hsorted].
        intros a b c Hab Hbc. lia. }
      set (p1 := Number_to_Z (progress_percentage event)) in *.
      assert (Hone : progress_percentage event = Number_of_Z p1
                     /\ 0 <= p1 <= 100).
      { pose proof (percentages_of_one_upload bytesTotal [event] Htotal
                      ltac:(repeat constructor; assumption)
                      ltac:(repeat constructor)) as Hsingle.
        cbv zeta in Hsingle. cbn [map] in Hsingle.
        destruct Hsingle as (Hvalue & _ & Hrange).
        split; [now injection Hvalue | exact (Forall_inv Hrange)]. }
      destruct Hone as [Hvalue Hrange].
      destruct (IH (with_uploadProgress (progress_percentage event) s0) p1)
        as (values & Hvalues & Hordered & Hbounds).
      * exact Hvalue.
      * lia.
      * rewrite Forall_forall in Hrest, Hlater. apply Forall_forall.
        intros later Hin. destruct (Hrest _ Hin) as (Ht' & Hl' & _).
        repeat split; try assumption.
        pose proof (percentages_of_one_upload bytesTotal [event; later]
                      Htotal
                      ltac:(repeat constructor; assumption)
                      ltac:(repeat constructor; apply Hlater; assumption))
          as Hpair.
        cbv zeta in Hpair. cbn [map] in Hpair.
        destruct Hpair as (_ & Hpair & _).
        apply Sorted_inv in Hpair. destruct Hpair as [_ Hpair].
        now apply HdRel_inv in Hpair.
      * exact Hsorted'.
      * exists (p1 :: values). cbn [map uploadProgress with_uploadProgress].
        split; [now rewrite Hvalues, Hvalue|]. split.
        -- constructor; [exact Hordered | now constructor].
        -- constructor; [lia|].
           eapply Forall_impl; [|exact Hbounds]. cbn. intros p Hp. lia.
    + destruct (IH s0 p0 Hshown Hp0 Hall Hsorted)
        as (values & Hvalues & Hordered & Hbounds).
      exists (p0 :: values). cbn [map].
      split; [now rewrite Hshown, Hvalues|]. split.
      * constructor; [exact Hordered | constructor; lia].
      * constructor; [lia | exact Hbounds].
Qed.

(** X17: during the upload of a validated submission the progress on
    screen never moves backwards and stays between 0 and 100: when the
    progress events with a computable length report one total below 2^64
    and byte counts that do not decrease and do not exceed it, the values
    shown, from the 0 at the start on and including the states after
    events without a computable length, are integers from 0 to 100 in
    non-decreasing order. *)
Theorem progress_on_screen_is_monotone_and_bounded :
  forall (file : File) (x : xhr_exchange) (s : State) (bytesTotal : N),
    startsWith (file_type file) "image/" = true ->
    (0 < bytesTotal < 2 ^ 64)%N ->
    Forall (fun event => total event = bytesTotal
                         /\ (loaded event <= bytesTotal)%N)
      (filter lengthComputable (upload_progress x)) ->
    Sorted (fun earlier later => (loaded earlier <= loaded later)%N)
      (filter lengthComputable (upload_progress x)) ->
    exists values,
      map uploadProgress (commits (effects_of (handleFileUpload file x) s))
      = map Number_of_Z values
      /\ Sorted Z.le values
      /\ Forall (fun p => 0 <= p <= 100) values.
Proof.
  intros file x s bytesTotal Himage Htotal Hevents Hsorted.
  unfold effects_of. rewrite (handleFileUpload_valid _ _ _ Himage).
  cbn [snd log commits submission_request map].
  destruct (shown_progress_is_monotone bytesTotal (upload_progress x)
              (submitting s) 0 Htotal eq_refl ltac:(lia))
    as (values & Hvalues & Hordered & Hbounds).
  - rewrite Forall_forall in Hevents. apply Forall_forall.
    intros event Hin. destruct (Hevents _ Hin) as [Ht Hl].
    repeat split; try assumption.
    pose proof (percentages_of_one_upload bytesTotal [event] Htotal
                  ltac:(repeat constructor; assumption)
                  ltac:(repeat constructor)) as Hsingle.
    cbv zeta in Hsingle. cbn [map] in Hsingle.
    destruct Hsingle as (_ & _ & Hrange).
    apply Forall_inv in Hrange. lia.
  - exact Hsorted.
  - exists (0 :: values). cbn [map].
    split; [now rewrite Hvalues | split; [exact Hordered|]].
    constructor; [lia | exact Hbounds].
Qed.

End Engine.

(* ================================================================== *)
(** ** The theorems at concrete exchanges, on the reference host *)

(** What the reference host makes of the bodies used below. *)
Lemma reference_host_parses_the_bodies :
  JSON_parse RefHost.host ocr_body
  = Normal (VObject [("detail", VString "OCR engine unavailable")])
  /\ JSON_parse RefHost.host empty_detail_body
     = Normal (VObject [("detail", VString "")])
  /\ JSON_parse RefHost.host "{}" = Normal (VObject [])
  /\ JSON_parse RefHost.host "null" = Normal VNull
  /\ JSON_parse RefHost.host "{"
     = Throw (ErrorObject "SyntaxError" "Unexpected token in JSON")
  /\ JSON_parse RefHost.host hola_body
     = Normal
         (VObject
            [("success", VBool true);
             ("data",
              VObject [("original_text", VString "Hola");
                       ("translated_text", VString "Hello");
                       ("source_language", VString "es")]);
             ("target_language", VString "en");
             ("target_language_name", VString "English")]).
Proof. repeat split; vm_compute; reflexivity. Qed.

(** A text file dropped on the page: the error is shown and nothing is
    sent. *)
Lemma text_file_dropped :
  startsWith (file_type notes) "image/" = false
  /\ requests
       (effects_of
          (handleDrop RefHost.host
             {| drag_type := "drop"; dataTransfer_files := [notes] |}
             translated)
          initial_state) = []
  /\ error_shown
       (state_after
          (handleDrop RefHost.host
             {| drag_type := "drop"; dataTransfer_files := [notes] |}
             translated)
          initial_state) = Some "Please upload an image file".
Proof.
  split; [reflexivity|].
  destruct (non_image_file_rejected_before_any_request RefHost.host
              notes [] translated initial_state eq_refl)
    as (_ & _ & Hrequests & Hshown).
  split; [exact Hrequests | exact Hshown].
Defined.

(** HTTP 500 with [{"detail":"OCR engine unavailable"}]: the error shown is
    exactly "OCR engine unavailable".  HTTP 502 with an HTML page, and
    HTTP 500 with [{"detail":{"toString":1}}]: the error shown is the
    status line. *)
Lemma ocr_engine_unavailable_is_shown :
  startsWith (file_type photo) "image/" = true
  /\ ~ (200 <= 500 < 300)%N
  /\ ~ (200 <= 502 < 300)%N
  /\ error_shown
       (state_after (handleFileUpload RefHost.host photo ocr_down)
          initial_state) = Some "OCR engine unavailable"
  /\ error_shown
       (state_after (handleFileUpload RefHost.host photo gateway_page)
          initial_state) = Some "HTTP 502: Bad Gateway"
  /\ error_shown
       (state_after (handleFileUpload RefHost.host photo own_toString_detail)
          initial_state) = Some "HTTP 500: Internal Server Error".
Proof.
  assert (H500 : ~ (200 <= 500 < 300)%N) by lia.
  assert (H502 : ~ (200 <= 502 < 300)%N) by lia.
  split; [reflexivity | split; [exact H500 | split; [exact H502|]]].
  split; [|split].
  - destruct (failure_status_reason RefHost.host photo "en" None ocr_down
                initial_state 500 "Internal Server Error" ocr_body
                eq_refl eq_refl H500)
      as (Hdetail & _).
    destruct (Hdetail (VObject [("detail", VString "OCR engine unavailable")])
                "OCR engine unavailable" eq_refl eq_refl)
      as (_ & Hshown); [discriminate | exact Hshown].
  - pose proof (failure_status_reason RefHost.host photo "en" None
                  gateway_page initial_state 502 "Bad Gateway"
                  "<html>Bad Gateway</html>" eq_refl eq_refl H502)
      as Hreason.
    cbv zeta in Hreason.
    destruct Hreason as (_ & _ & _ & _ & _ & Hunparsed & _).
    exact (proj2 (Hunparsed
                    (ErrorObject "SyntaxError" "Unexpected token in JSON")
                    eq_refl)).
  - pose proof (failure_status_reason RefHost.host photo "en" None
                  own_toString_detail initial_state 500
                  "Internal Server Error" own_toString_body
                  eq_refl eq_refl H500)
      as Hreason.
    cbv zeta in Hreason.
    destruct Hreason as (_ & _ & _ & Hthrows & _).
    exact (proj2 (Hthrows
                    (VObject [("detail",
                               VObject [("toString",
                                         VNumber (Number_of_Z 1))])])
                    (ErrorObject "TypeError"
                       "Cannot convert object to primitive value")
                    eq_refl ltac:(discriminate) ltac:(discriminate)
                    eq_refl eq_refl)).
Defined.

(** Against C2 as worded: with HTTP 500 and [{"detail":""}] the detail
    string is empty and the reason is "Upload failed". *)
Lemma empty_detail_is_not_the_reason :
  ~ (forall (status : N) (statusText responseText : string)
            (errorResponse : value) (detail : string),
        ~ (200 <= status < 300)%N ->
        JSON_parse RefHost.host responseText = Normal errorResponse ->
        property errorResponse "detail" = VString detail ->
        on_load RefHost.host status statusText responseText
        = Throw (ErrorObject "Error" detail)).
Proof.
  intros Hall.
  assert (Hout : ~ (200 <= 500 < 300)%N) by lia.
  specialize (Hall 500%N "Internal Server Error" empty_detail_body
                (VObject [("detail", VString "")]) "" Hout eq_refl eq_refl).
  vm_compute in Hall. discriminate Hall.
Qed.

(** HTTP 200 with a truncated body: the parse error is part of the
    message shown.  HTTP 200 with a translation: the parsed body is the
    result. *)
Lemma truncated_body_is_a_format_error :
  startsWith (file_type photo) "image/" = true
  /\ (200 <= 200 < 300)%N
  /\ fst (run (translateImage RefHost.host photo "en" None truncated)
            initial_state)
     = Throw (ErrorObject "Error"
                "Invalid response format: SyntaxError: Unexpected token in JSON")
  /\ error_shown
       (state_after (handleFileUpload RefHost.host photo truncated)
          initial_state)
     = Some "Invalid response format: SyntaxError: Unexpected token in JSON"
  /\ JSON_parse RefHost.host hola_body
     = Normal
         (result (state_after (handleFileUpload RefHost.host photo translated)
                    initial_state)).
Proof.
  assert (Hin : (200 <= 200 < 300)%N) by lia.
  split; [reflexivity | split; [exact Hin|]].
  pose proof (success_status_parses_body RefHost.host photo "en" None
                truncated initial_state 200 "OK" "{" eq_refl eq_refl Hin)
    as Htruncated.
  pose proof (success_status_parses_body RefHost.host photo "en" None
                translated initial_state 200 "OK" hola_body
                eq_refl eq_refl Hin)
    as Htranslated.
  cbv zeta in Htruncated, Htranslated.
  assert (Hbad : JSON_parse RefHost.host "{"
                 = Throw (ErrorObject "SyntaxError"
                            "Unexpected token in JSON"))
    by (vm_compute; reflexivity).
  rewrite Hbad in Htruncated.
  destruct Htruncated as (message & Hmessage & Houtcome & Hshown & _).
  injection Hmessage as <-.
  split; [exact Houtcome | split; [exact Hshown|]].
  destruct (JSON_parse RefHost.host hola_body) as [response|failure] eqn:Hgood;
    [|vm_compute in Hgood; discriminate Hgood].
  destruct Htranslated as (_ & Hresult & _). now rewrite Hresult.
Defined.

(** HTTP 2xx with the bodies [null], [42] and [{}]: each parsed value
    becomes the result as it is. *)
Lemma null_body_is_the_result :
  startsWith (file_type photo) "image/" = true
  /\ (200 <= 200 < 300)%N /\ (200 <= 201 < 300)%N
  /\ result (state_after (handleFileUpload RefHost.host photo null_body)
               initial_state) = VNull
  /\ result (state_after (handleFileUpload RefHost.host photo number_body)
               initial_state) = VNumber (Number_of_Z 42)
  /\ result (state_after
               (handleFileUpload RefHost.host photo empty_object_body)
               initial_state) = VObject []
  /\ error (state_after
              (handleFileUpload RefHost.host photo empty_object_body)
              initial_state) = None.
Proof.
  assert (H200 : (200 <= 200 < 300)%N) by lia.
  assert (H201 : (200 <= 201 < 300)%N) by lia.
  split; [reflexivity | split; [exact H200 | split; [exact H201|]]].
  destruct (success_body_shape_is_not_checked RefHost.host photo null_body
              initial_state 200 "OK" "null" eq_refl eq_refl H200)
    as (Hnull & _).
  destruct (success_body_shape_is_not_checked RefHost.host photo number_body
              initial_state 200 "OK" "42" eq_refl eq_refl H200)
    as (Hnumber & _).
  destruct (success_body_shape_is_not_checked RefHost.host photo
              empty_object_body initial_state 201 "Created" "{}"
              eq_refl eq_refl H201)
    as (Hobject & _).
  split; [exact (proj1 (proj2 (Hnull VNull eq_refl)))|].
  split; [exact (proj1 (proj2 (Hnumber (VNumber (Number_of_Z 42)) eq_refl)))|].
  destruct (Hobject (VObject []) eq_refl) as (_ & Hresult & Herror).
  split; [exact Hresult | exact Herror].
Defined.



(** Against C6 as worded: an OpenDocument drawing pasted from the
    clipboard has an item type that contains "image"; the file is refused
    by the media-type check and nothing is sent. *)
Lemma pasted_drawing_is_validated :
  ~ (forall (item : DataTransferItem) (file : File) (x : xhr_exchange)
            (s : State),
        image_typed item = true ->
        getAsFile item = Some file ->
        requests
          (effects_of
             (handlePaste RefHost.host
                {| clipboardData_items := Some [item] |} x) s)
        = [submission_request file s]).
Proof.
  intros Hall.
  specialize (Hall {| item_type := file_type drawing;
                        getAsFile := Some drawing |}
                drawing translated initial_state eq_refl eq_refl).
  vm_compute in Hall. discriminate Hall.
Qed.

(** A clipboard with a text item and a PNG: the PNG is sent, in one
    request. *)
Lemma pasted_text_then_photo :
  forallb (fun i => negb (image_typed i))
    [{| item_type := "text/plain"; getAsFile := None |}] = true
  /\ image_typed {| item_type := "image/png"; getAsFile := Some photo |} = true
  /\ requests
       (effects_of
          (handlePaste RefHost.host
             {| clipboardData_items :=
                  Some [{| item_type := "text/plain"; getAsFile := None |};
                        {| item_type := "image/png";
                           getAsFile := Some photo |}] |}
             translated)
          initial_state)
     = [submission_request photo initial_state].
Proof.
  split; [reflexivity | split; [reflexivity|]].
  destruct (paste_takes_first_image_item_and_validates_it RefHost.host
              [{| item_type := "text/plain"; getAsFile := None |}] []
              {| item_type := "image/png"; getAsFile := Some photo |}
              translated initial_state eq_refl eq_refl)
    as (_ & _ & Hfound).
  exact (proj2 Hfound).
Defined.

(** Against C7 as worded: with HTTP 200 and the body [{}] the catalog
    fetch returns [undefined]. *)
Lemma catalog_without_languages_is_undefined :
  ~ (forall (x : fetch_exchange) (s : State),
        match fst (run (getLanguages RefHost.host x) s) with
        | Throw _ => True
        | Normal catalog => exists fields, catalog = VObject fields
        end).
Proof.
  intros Hall.
  specialize (Hall (fetch_response 200 "{}") initial_state).
  vm_compute in Hall. destruct Hall as [fields Hfields].
  discriminate Hfields.
Qed.

(** The catalog request fails on the network: the six languages are on
    offer, with "en", English, selected. *)
Lemma catalog_fetch_refused :
  languages
    (state_after
       (loadLanguages RefHost.host
          (fetch_rejected (ErrorObject "TypeError" "Failed to fetch")))
       initial_state) = fallback_languages
  /\ selectedLanguage
       (state_after
          (loadLanguages RefHost.host
             (fetch_rejected (ErrorObject "TypeError" "Failed to fetch")))
          initial_state) = "en"
  /\ lookup (selectedLanguage initial_state)
       match fallback_languages with VObject fields => fields | _ => [] end
     = VString "English".
Proof.
  destruct (catalog_fetch_failure_falls_back RefHost.host
              (fetch_rejected (ErrorObject "TypeError" "Failed to fetch"))
              initial_state)
    as (_ & _ & _ & _ & Hfallback).
  destruct (Hfallback (ErrorObject "TypeError" "Failed to fetch") eq_refl)
    as (Hlanguages & Hselected & _).
  split; [exact Hlanguages | split; [exact Hselected | reflexivity]].
Defined.

(** The progress is back at 0 after a translation and after a network
    error. *)
Lemma photo_upload_progress_resets :
  startsWith (file_type photo) "image/" = true
  /\ uploadProgress
       (state_after (handleFileUpload RefHost.host photo translated)
          initial_state) = Number_of_Z 0
  /\ uploadProgress
       (state_after (handleFileUpload RefHost.host photo unplugged)
          initial_state) = Number_of_Z 0.
Proof.
  split; [reflexivity|].
  split.
  - exact (proj1 (proj2 (progress_is_zero_at_start_and_end RefHost.host
                           photo translated initial_state eq_refl))).
  - exact (proj1 (proj2 (progress_is_zero_at_start_and_end RefHost.host
                           photo unplugged initial_state eq_refl))).
Defined.

(** After the translation of "Hola", the copy action writes "Hello" and
    schedules the reset of the indicator 2000 ms later. *)
Lemma hello_is_copied :
  property
    (property
       (result (state_after (handleFileUpload RefHost.host photo translated)
                  initial_state)) "data") "translated_text" = VString "Hello"
  /\ "Hello" <> ""
  /\ effects_of (handleCopyText RefHost.host (Normal tt))
       (state_after (handleFileUpload RefHost.host photo translated)
          initial_state)
     = [clipboard_writeText "Hello";
        commit (state_after (handleFileUpload RefHost.host photo translated)
                  initial_state);
        setTimeout (cb_setCopied false) 2000].
Proof.
  assert (Htext : property
                    (property
                       (result
                          (state_after
                             (handleFileUpload RefHost.host photo translated)
                             initial_state)) "data") "translated_text"
                  = VString "Hello") by (vm_compute; reflexivity).
  assert (Hne : "Hello" <> "") by discriminate.
  split; [exact Htext | split; [exact Hne|]].
  destruct (copy_writes_translation_and_flags_for_2000ms RefHost.host
              (state_after (handleFileUpload RefHost.host photo translated)
                 initial_state)
              "Hello" (Normal tt) Htext Hne)
    as (_ & Hdone & _).
  exact (proj1 (Hdone tt eq_refl)).
Defined.

(** An upload of 2048 bytes reported at 1024 and at 2048 bytes: the
    callback gets 50, then 100. *)
Lemma halfway_then_complete :
  (0 < 2048 < 2 ^ 64)%N
  /\ Forall (fun event => total event = 2048%N /\ (loaded event <= 2048)%N)
       (filter lengthComputable (upload_progress translated))
  /\ Sorted (fun earlier later => (loaded earlier <= loaded later)%N)
       (filter lengthComputable (upload_progress translated))
  /\ effects_of
       (translateImage RefHost.host photo "en"
          (Some (fun progress => emit (log_progress progress))) translated)
       initial_state
     = [submission_request photo initial_state; commit initial_state;
        log_progress (Number_of_Z 50); commit initial_state;
        log_progress (Number_of_Z 100); commit initial_state]
  /\ map progress_percentage
       (filter lengthComputable (upload_progress translated))
     = [Number_of_Z 50; Number_of_Z 100]
  /\ Sorted Z.le
       (map Number_to_Z
          (map progress_percentage
             (filter lengthComputable (upload_progress translated)))).
Proof.
  assert (Htotal : (0 < 2048 < 2 ^ 64)%N) by (split; reflexivity).
  assert (Hevents : Forall (fun event => total event = 2048%N
                                         /\ (loaded event <= 2048)%N)
                      (filter lengthComputable (upload_progress translated))).
  { repeat constructor; discriminate. }
  assert (Hsorted : Sorted (fun earlier later =>
                              (loaded earlier <= loaded later)%N)
                      (filter lengthComputable (upload_progress translated))).
  { repeat constructor. discriminate. }
  split; [exact Htotal | split; [exact Hevents | split; [exact Hsorted|]]].
  pose proof (upload_percentages_are_monotone_and_bounded RefHost.host
                photo "en" log_progress translated initial_state 2048)
    as Hupload.
  cbv zeta in Hupload. destruct Hupload as (Heffects & _ & Hvalues).
  destruct (Hvalues Htotal Hevents Hsorted) as (Hpassed & Hordered & _).
  split; [exact Heffects | split; [exact Hpassed | exact Hordered]].
Defined.

(** Against C4 as worded: with 29 of 200 bytes sent the exact percentage
    is 14.5, which rounds to 15, and the value passed to the callback is
    14 (0.145 times 100 is 14.499999999999998 on numbers).  With the same
    upload scaled by 2^55 and one byte more sent, the exact percentage is
    above 14.5, so that every rounding to the nearest integer gives 15,
    and the value passed is 14 again. *)
Lemma callback_gets_14_for_29_of_200 :
  ~ (forall (x : xhr_exchange) (event : ProgressEvent),
        upload_progress x = [event] -> lengthComputable event = true ->
        (0 < total event)%N -> (loaded event <= total event)%N ->
        effects_of
          (translateImage RefHost.host photo "en"
             (Some (fun progress => emit (log_progress progress))) x)
          initial_state
        = [submission_request photo initial_state; commit initial_state;
           log_progress
             (Number_of_Z (spec_percentage (Z.of_N (loaded event))
                             (Z.of_N (total event))));
           commit initial_state])
  /\ effects_of
       (translateImage RefHost.host photo "en"
          (Some (fun progress => emit (log_progress progress))) at_29_of_200)
       initial_state
     = [submission_request photo initial_state; commit initial_state;
        log_progress (Number_of_Z 14); commit initial_state]
  /\ spec_percentage 29 200 = 15
  /\ effects_of
       (translateImage RefHost.host photo "en"
          (Some (fun progress => emit (log_progress progress))) huge_upload)
       initial_state
     = [submission_request photo initial_state; commit initial_state;
        log_progress (Number_of_Z 14); commit initial_state]
  /\ spec_percentage (29 * 2 ^ 55 + 1) (200 * 2 ^ 55) = 15
  /\ 29 * (200 * 2 ^ 55) < 200 * (29 * 2 ^ 55 + 1).
Proof.
  split; [|repeat split; vm_compute; reflexivity].
  intros Hall.
  specialize (Hall huge_upload
                {| lengthComputable := true;
                   loaded := 29 * 2 ^ 55 + 1; total := 200 * 2 ^ 55 |}
                eq_refl eq_refl eq_refl ltac:(discriminate)).
  vm_compute in Hall. discriminate Hall.
Qed.

(* ================================================================== *)
(** ** Further scenarios on the reference host *)

Lemma reference_host_parses_more_bodies :
  JSON_parse RefHost.host empty_list_body
  = Normal (VObject [("detail", VArray [])])
  /\ JSON_parse RefHost.host "false" = Normal (VBool false)
  /\ JSON_parse RefHost.host catalog_body
     = Normal (VObject [("languages",
                         VObject [("en", VString "English");
                                  ("vi", VString "Vietnamese")])]).
Proof. repeat split; vm_compute; reflexivity. Qed.

(** The server answers the health check with 204 No Content. *)
Lemma no_content_is_healthy :
  fst (run (healthCheck (fetch_response 204 "")) initial_state) = Normal true.
Proof.
  destruct (health_check_reports_2xx_and_never_throws
              (fetch_response 204 "") initial_state)
    as (_ & _ & (healthy & Hanswer & Hiff) & _).
  rewrite Hanswer. f_equal. apply Hiff. split; discriminate.
Defined.

(** The photo picked together with a text file, dropped together with
    it, and pasted after a text item: one request each time. *)
Lemma photo_from_each_channel :
  file_type photo = "image/" ++ "jpeg"
  /\ item_type photo_item = file_type photo
  /\ getAsFile photo_item = Some photo
  /\ forallb (fun i => negb (image_typed i)) [text_item] = true
  /\ requests
       (effects_of
          (handleFileInputChange RefHost.host
             {| target_files := Some [photo; notes] |} translated)
          initial_state)
     = [submission_request photo initial_state]
  /\ requests
       (effects_of
          (handleDrop RefHost.host
             {| drag_type := "drop"; dataTransfer_files := [photo; notes] |}
             translated)
          initial_state)
     = [submission_request photo initial_state]
  /\ requests
       (effects_of
          (handlePaste RefHost.host
             {| clipboardData_items := Some [text_item; photo_item] |}
             translated)
          initial_state)
     = [submission_request photo initial_state].
Proof.
  do 4 (split; [reflexivity|]).
  exact (image_file_sends_exactly_one_request RefHost.host photo [notes]
           "jpeg" [text_item] [] photo_item translated initial_state
           eq_refl eq_refl eq_refl eq_refl).
Defined.

(** The cable is unplugged; the server does not answer within 60 s. *)
Lemma unplugged_and_timed_out :
  startsWith (file_type photo) "image/" = true
  /\ completion_event unplugged = xhr_error
  /\ completion_event timed_out = xhr_timeout
  /\ error_shown
       (state_after (handleFileUpload RefHost.host photo unplugged)
          initial_state) = Some "Network error occurred"
  /\ error_shown
       (state_after (handleFileUpload RefHost.host photo timed_out)
          initial_state) = Some "Request timeout".
Proof.
  do 3 (split; [reflexivity|]).
  split.
  - exact (proj1 (network_error_and_timeout_are_reported RefHost.host
                    photo unplugged initial_state eq_refl) eq_refl).
  - exact (proj1 (proj2 (network_error_and_timeout_are_reported RefHost.host
                           photo timed_out initial_state eq_refl)) eq_refl).
Defined.

(** The text file is refused and only the error changes; the photo is
    translated and the selected language is still English. *)
Lemma refusal_changes_the_error_only :
  startsWith (file_type notes) "image/" = false
  /\ state_after (handleFileUpload RefHost.host notes translated)
       initial_state
     = with_error (Some "Please select an image file") initial_state
  /\ selectedLanguage
       (state_after (handleFileUpload RefHost.host photo translated)
          initial_state) = "en".
Proof.
  split; [reflexivity|]. split.
  - exact (proj2 (proj2 (submission_leaves_other_hooks_alone RefHost.host
                           notes translated initial_state)) eq_refl).
  - pose proof (submission_leaves_other_hooks_alone RefHost.host
                  photo translated initial_state) as Hframe.
    cbv zeta in Hframe. destruct Hframe as ((_ & Hlanguage & _) & _).
    exact Hlanguage.
Defined.

(** HTTP 422 with [{"detail":[]}]: the submission fails and nothing is
    shown. *)
Lemma empty_list_detail_shows_nothing :
  startsWith (file_type photo) "image/" = true
  /\ ~ (200 <= 422 < 300)%N
  /\ ToBoolean (property (VObject [("detail", VArray [])]) "detail") = true
  /\ ToString RefHost.host (property (VObject [("detail", VArray [])]) "detail")
     = Normal ""
  /\ error_shown
       (state_after (handleFileUpload RefHost.host photo unprocessable)
          initial_state) = None
  /\ result_shown
       (state_after (handleFileUpload RefHost.host photo unprocessable)
          initial_state) = false.
Proof.
  assert (H422 : ~ (200 <= 422 < 300)%N) by (intros [_ H]; discriminate H).
  split; [reflexivity | split; [exact H422|]].
  split; [reflexivity | split; [reflexivity|]].
  pose proof (failure_with_empty_message_shows_nothing RefHost.host photo
                unprocessable initial_state 422 "Unprocessable Entity"
                empty_list_body (VObject [("detail", VArray [])])
                eq_refl eq_refl H422 eq_refl
                ltac:(discriminate) ltac:(discriminate) eq_refl eq_refl)
    as Hsilent.
  cbv zeta in Hsilent. destruct Hsilent as (_ & _ & Herror & Hresult & _).
  split; [exact Herror | exact Hresult].
Defined.

(** HTTP 200 with the body [false]: no failure, and nothing is shown. *)
Lemma false_body_shows_nothing :
  startsWith (file_type photo) "image/" = true
  /\ (200 <= 200 < 300)%N
  /\ JSON_parse RefHost.host "false" = Normal (VBool false)
  /\ result (state_after (handleFileUpload RefHost.host photo false_body)
               initial_state) = VBool false
  /\ result_shown
       (state_after (handleFileUpload RefHost.host photo false_body)
          initial_state) = false
  /\ error_shown
       (state_after (handleFileUpload RefHost.host photo false_body)
          initial_state) = None.
Proof.
  assert (H200 : (200 <= 200 < 300)%N)
    by (split; [discriminate | reflexivity]).
  split; [reflexivity | split; [exact H200 | split; [reflexivity|]]].
  pose proof (success_with_falsy_body_shows_nothing RefHost.host photo
                false_body initial_state 200 "OK" "false" (VBool false)
                eq_refl eq_refl H200 eq_refl eq_refl) as Hsilent.
  cbv zeta in Hsilent. destruct Hsilent as (Hresult & Hcard & Herror & _).
  split; [exact Hresult | split; [exact Hcard | exact Herror]].
Defined.

(** An upload of 2048 bytes. *)
Lemma two_kilobytes_from_0_to_100 :
  (0 < 2048 < 2 ^ 64)%N
  /\ progress_percentage {| lengthComputable := true;
                            loaded := 0; total := 2048 |} = Number_of_Z 0
  /\ progress_percentage {| lengthComputable := true;
                            loaded := 2048; total := 2048 |} = Number_of_Z 100.
Proof.
  assert (Htotal : (0 < 2048 < 2 ^ 64)%N) by (split; reflexivity).
  split; [exact Htotal|].
  exact (percentage_is_0_for_nothing_and_100_for_everything 2048 true Htotal).
Defined.

(** The photo uploaded in two halves shows 0, 50 and 100; with an event
    of unknown length in between, the component is on screen four times. *)
Lemma photo_shows_0_50_100 :
  startsWith (file_type photo) "image/" = true
  /\ forallb lengthComputable (upload_progress translated) = true
  /\ map uploadProgress
       (commits (effects_of (handleFileUpload RefHost.host photo translated)
                   initial_state))
     = [Number_of_Z 0; Number_of_Z 50; Number_of_Z 100]
  /\ List.length
       (map uploadProgress
          (commits
             (effects_of
                (handleFileUpload RefHost.host photo
                   {| upload_progress := unknown_length :: halfway;
                      completion_event := xhr_error |})
                initial_state))) = 4%nat.
Proof.
  split; [reflexivity | split; [reflexivity|]]. split.
  - pose proof (progress_on_screen_follows_the_events RefHost.host photo
                  translated initial_state eq_refl) as Hshown.
    cbv zeta in Hshown. destruct Hshown as (_ & _ & Hall).
    exact (Hall eq_refl).
  - pose proof (progress_on_screen_follows_the_events RefHost.host photo
                  {| upload_progress := unknown_length :: halfway;
                     completion_event := xhr_error |}
                  initial_state eq_refl) as Hshown.
    cbv zeta in Hshown. destruct Hshown as (Hlength & _).
    exact Hlength.
Defined.


(** A drop that carries no file, while the zone is highlighted. *)
Lemma empty_drop_clears_the_highlight :
  run (handleDrop RefHost.host
         {| drag_type := "drop"; dataTransfer_files := [] |} translated)
      (with_dragActive true initial_state)
  = (tt, {| ui := initial_state;
            log := [preventDefault; stopPropagation] |}).
Proof.
  pose proof (drop_always_clears_the_drag_highlight RefHost.host
                {| drag_type := "drop"; dataTransfer_files := [] |}
                translated (with_dragActive true initial_state)) as Hdrop.
  cbv zeta in Hdrop. destruct Hdrop as (_ & _ & _ & Hempty).
  exact (Hempty eq_refl).
Defined.

(** A file dragged over the zone and away again. *)
Lemma dragged_in_and_out :
  dragActive initial_state = false
  /\ state_after
       (handleDrag {| drag_type := "dragleave"; dataTransfer_files := [] |})
       (state_after
          (handleDrag {| drag_type := "dragenter";
                         dataTransfer_files := [] |})
          initial_state)
     = initial_state.
Proof.
  split; [reflexivity|].
  destruct (drag_enter_then_leave_restores_the_state
              {| drag_type := "dragenter"; dataTransfer_files := [] |}
              {| drag_type := "dragleave"; dataTransfer_files := [] |}
              {| drag_type := "dragend"; dataTransfer_files := [] |}
              initial_state (or_introl eq_refl) eq_refl
              ltac:(discriminate) ltac:(discriminate) ltac:(discriminate))
    as (_ & _ & _ & Hround & _).
  exact (Hround eq_refl).
Defined.

(** A result without [data]: the button is disabled and the action does
    nothing.  A result whose translated text is an object with an own
    [toString] property: the button is enabled, nothing is written and
    the failure is logged. *)
Lemma result_without_data_cannot_be_copied :
  ToBoolean (result (with_result (VObject []) initial_state)) = true
  /\ copy_button_disabled (with_result (VObject []) initial_state) = true
  /\ run (handleCopyText RefHost.host (Normal tt))
       (with_result (VObject []) initial_state)
     = (tt, {| ui := with_result (VObject []) initial_state; log := [] |})
  /\ ToBoolean (result (with_result own_toString_text initial_state)) = true
  /\ copy_button_disabled (with_result own_toString_text initial_state)
     = false
  /\ run (handleCopyText RefHost.host (Normal tt))
       (with_result own_toString_text initial_state)
     = (tt,
        {| ui := with_result own_toString_text initial_state;
           log := [commit (with_result own_toString_text initial_state);
                   console_error "Failed to copy text:"
                     (ErrorObject "TypeError"
                        "Cannot convert object to primitive value")] |}).
Proof.
  split; [reflexivity | split; [reflexivity|]].
  pose proof (copy_button_is_disabled_exactly_when_copy_does_nothing
                RefHost.host (with_result (VObject []) initial_state)
                (Normal tt)) as Hcopy.
  cbv zeta in Hcopy. destruct Hcopy as (_ & Hcard).
  destruct (Hcard eq_refl) as (Hdisabled & _).
  split; [exact (proj1 Hdisabled eq_refl)|].
  split; [reflexivity | split; [reflexivity|]].
  pose proof (copy_button_is_disabled_exactly_when_copy_does_nothing
                RefHost.host (with_result own_toString_text initial_state)
                (Normal tt)) as Hobject.
  cbv zeta in Hobject. destruct Hobject as (_ & Hcard').
  destruct (Hcard' eq_refl) as (_ & Henabled).
  exact (Henabled eq_refl).
Defined.

(** "Hola" translated, then copied: "Hello" goes to the clipboard. *)
Lemma hello_is_copied_after_the_translation :
  startsWith (file_type photo) "image/" = true
  /\ exists later,
       effects_of (handleCopyText RefHost.host (Normal tt))
         (state_after (handleFileUpload RefHost.host photo translated)
            initial_state)
       = clipboard_writeText "Hello" :: later.
Proof.
  split; [reflexivity|].
  pose proof (copy_after_a_submission RefHost.host photo translated
                initial_state (Normal tt) eq_refl) as Hcopy.
  cbv zeta in Hcopy.
  assert (Hsettled :
    settle RefHost.host (completion_event translated)
    = Normal
        (VObject
           [("success", VBool true);
            ("data",
             VObject [("original_text", VString "Hola");
                      ("translated_text", VString "Hello");
                      ("source_language", VString "es")]);
            ("target_language", VString "en");
            ("target_language_name", VString "English")]))
    by (vm_compute; reflexivity).
  rewrite Hsettled in Hcopy.
  exact (Hcopy "Hello" eq_refl ltac:(discriminate)).
Defined.

(** The server offers English and Vietnamese. *)
Lemma catalog_of_two_languages :
  response_ok 200 = true
  /\ JSON_parse RefHost.host catalog_body
     = Normal (VObject [("languages",
                         VObject [("en", VString "English");
                                  ("vi", VString "Vietnamese")])])
  /\ languages
       (state_after
          (loadLanguages RefHost.host (fetch_response 200 catalog_body))
          initial_state)
     = VObject [("en", VString "English"); ("vi", VString "Vietnamese")].
Proof.
  split; [reflexivity | split; [vm_compute; reflexivity|]].
  pose proof (catalog_load_changes_the_catalog_only RefHost.host
                (fetch_response 200 catalog_body) initial_state) as Hload.
  cbv zeta in Hload. destruct Hload as (_ & _ & _ & Hdata).
  exact (proj2 (Hdata 200%N catalog_body
                  (VObject [("languages",
                             VObject [("en", VString "English");
                                      ("vi", VString "Vietnamese")])])
                  eq_refl eq_refl eq_refl
                  ltac:(discriminate) ltac:(discriminate))).
Defined.

(** The request that times out is rejected with an [Error], and its
    message is shown. *)
Lemma timeout_is_an_error_with_a_message :
  startsWith (file_type photo) "image/" = true
  /\ fst (run (translateImage RefHost.host photo
                 (selectedLanguage initial_state)
                 (Some (fun progress => setUploadProgress progress))
                 timed_out)
            initial_state)
     = Throw (ErrorObject "Error" "Request timeout")
  /\ exists message,
       ErrorObject "Error" "Request timeout" = ErrorObject "Error" message
       /\ error (state_after (handleFileUpload RefHost.host photo timed_out)
                   initial_state) = Some message.
Proof.
  split; [reflexivity | split; [reflexivity|]].
  exact (rejections_are_errors_with_a_message RefHost.host photo timed_out
           initial_state (ErrorObject "Error" "Request timeout")
           eq_refl eq_refl).
Defined.

(** The photo uploaded in two halves after an event of unknown length:
    the progress shown is 0, 0, 50 and 100. *)
Lemma progress_bar_of_the_photo :
  startsWith (file_type photo) "image/" = true
  /\ (0 < 2048 < 2 ^ 64)%N
  /\ Forall (fun event => total event = 2048%N /\ (loaded event <= 2048)%N)
       (filter lengthComputable (unknown_length :: halfway))
  /\ Sorted (fun earlier later => (loaded earlier <= loaded later)%N)
       (filter lengthComputable (unknown_length :: halfway))
  /\ exists values,
       map uploadProgress
         (commits
            (effects_of
               (handleFileUpload RefHost.host photo
                  {| upload_progress := unknown_length :: halfway;
                     completion_event := xhr_load 200 "OK" hola_body |})
               initial_state))
       = map Number_of_Z values
       /\ Sorted Z.le values
       /\ Forall (fun p => 0 <= p <= 100) values.
Proof.
  assert (Htotal : (0 < 2048 < 2 ^ 64)%N) by (split; reflexivity).
  assert (Hevents : Forall (fun event => total event = 2048%N
                                         /\ (loaded event <= 2048)%N)
                      (filter lengthComputable (unknown_length :: halfway))).
  { repeat constructor; discriminate. }
  assert (Hsorted : Sorted (fun earlier later =>
                              (loaded earlier <= loaded later)%N)
                      (filter lengthComputable (unknown_length :: halfway))).
  { repeat constructor. discriminate. }
  split; [reflexivity|].
  split; [exact Htotal | split; [exact Hevents | split; [exact Hsorted|]]].
  exact (progress_on_screen_is_monotone_and_bounded RefHost.host photo
           {| upload_progress := unknown_length :: halfway;
              completion_event := xhr_load 200 "OK" hola_body |}
           initial_state 2048 eq_refl Htotal Hevents Hsorted).
Defined.

(** The percentage is computed in binary64: 29 of 200 bytes is 14.5 in
    exact arithmetic, 14.499999999999998 as [(29 / 200) * 100], and is
    reported as 14. *)
Example percentage_of_29_in_200 :
  progress_percentage {| lengthComputable := true; loaded := 29; total := 200 |}
  = Number_of_Z 14.
Proof. vm_compute. reflexivity. Qed.

(** [Math.round] on halves: 2.5 gives 3, -2.5 gives -2, 0.5 gives 1 and
    -0.5 gives -0. *)
Example Math_round_on_halves :
  Math_round (Number_div (Number_of_Z 5) (Number_of_Z 2)) = Number_of_Z 3
  /\ Math_round (Number_div (Number_of_Z (-5)) (Number_of_Z 2))
     = Number_of_Z (-2)
  /\ Math_round (Number_div (Number_of_Z 1) (Number_of_Z 2)) = Number_of_Z 1
  /\ Math_round (Number_div (Number_of_Z (-1)) (Number_of_Z 2))
     = S754_zero true.
Proof. repeat split; vm_compute; reflexivity. Qed.

(** A [detail] that is not a string is converted to one: an array of
    objects prints as "[object Object]", a number as its digits; an object
    with an own [toString] property cannot be converted, and the status
    line is the reason. *)
Example details_that_are_not_strings :
  on_load RefHost.host 422 "Unprocessable Entity" validation_body
  = Throw (ErrorObject "Error" "[object Object]")
  /\ on_load RefHost.host 404 "Not Found" numeric_detail_body
     = Throw (ErrorObject "Error" "404")
  /\ on_load RefHost.host 500 "Internal Server Error" own_toString_body
     = Throw (ErrorObject "Error" "HTTP 500: Internal Server Error").
Proof. repeat split; vm_compute; reflexivity. Qed.
